(** * go-chat-api: the account handlers, embedded and verified

    A shallow embedding of [auth_handlers.go] (login, registration) and of
    the user router's handlers (get-detail, create, update, delete).

    - Go byte slices are [list Z] (one [Z] in [0, 256) per byte), Go strings
      are [string]; [[]byte(s)] is [bytes_of_string].
    - The handlers run in a small state monad: the state holds the database
      behind the connection pool, the trace of store calls, the positions of
      the clock and of the random source, what was written to the
      [http.ResponseWriter] and what was logged through [slog].  A Go panic
      is the [None] outcome of the monad.
    - Library code the handlers call ([crypto/sha256], [crypto/hmac],
      [x/crypto/pbkdf2], [crypto/subtle], [encoding/json],
      [go-playground/validator]) is modelled after its documented
      behaviour, each in a module named after its package. *)

From Stdlib Require Import ZArith String Ascii List Bool Lia.
Import ListNotations.

Local Open Scope Z_scope.

Set Warnings "-register-all".

(** ** Bytes and strings *)

Definition bytes := list Z.

Definition byte_of_ascii (c : ascii) : Z := Z.of_N (N_of_ascii c).

(** [[]byte(s)] *)
Fixpoint bytes_of_string (s : string) : bytes :=
  match s with
  | EmptyString => []
  | String c s' => byte_of_ascii c :: bytes_of_string s'
  end.

(** [make([]byte, n)] *)
Definition make_bytes (n : nat) : bytes := repeat 0 n.

(** ** crypto/sha256 (FIPS 180-4), on 32-bit words held in [Z] *)

Module sha256.

Definition Size : nat := 32.
Definition BlockSize : nat := 64.

Definition mask32 (x : Z) : Z := Z.land x 0xFFFFFFFF.
Definition add32 (x y : Z) : Z := mask32 (x + y).
Definition not32 (x : Z) : Z := Z.lxor x 0xFFFFFFFF.
Definition rotr (n x : Z) : Z :=
  Z.lor (Z.shiftr x n) (mask32 (Z.shiftl x (32 - n))).

Definition Ch (x y z : Z) : Z := Z.lxor (Z.land x y) (Z.land (not32 x) z).
Definition Maj (x y z : Z) : Z :=
  Z.lxor (Z.lxor (Z.land x y) (Z.land x z)) (Z.land y z).
Definition bsig0 (x : Z) : Z := Z.lxor (Z.lxor (rotr 2 x) (rotr 13 x)) (rotr 22 x).
Definition bsig1 (x : Z) : Z := Z.lxor (Z.lxor (rotr 6 x) (rotr 11 x)) (rotr 25 x).
Definition ssig0 (x : Z) : Z := Z.lxor (Z.lxor (rotr 7 x) (rotr 18 x)) (Z.shiftr x 3).
Definition ssig1 (x : Z) : Z := Z.lxor (Z.lxor (rotr 17 x) (rotr 19 x)) (Z.shiftr x 10).

(** The constants are not tabulated but computed as FIPS 180-4 defines
    them: the first 32 bits of the fractional parts of the cube roots
    (round constants) and of the square roots (initial hash value) of the
    first primes.  The known answers below check them. *)
Definition is_prime (n : nat) : bool :=
  forallb (fun d => negb (n mod d =? 0)%nat) (seq 2 (n - 2)).

Definition primes : list Z :=
  map Z.of_nat (filter is_prime (seq 2 310)).

(** Integer cube root, one bit at a time from bit [bit] down. *)
Fixpoint cbrt_from (bit : nat) (x r : Z) : Z :=
  let r1 := Z.lor r (Z.shiftl 1 (Z.of_nat bit)) in
  let r2 := if r1 * r1 * r1 <=? x then r1 else r in
  match bit with
  | O => r2
  | S bit' => cbrt_from bit' x r2
  end.

Definition frac_cbrt (p : Z) : Z := mask32 (cbrt_from 40 (Z.shiftl p 96) 0).
Definition frac_sqrt (p : Z) : Z := mask32 (Z.sqrt (Z.shiftl p 64)).

Definition K : list Z := Eval vm_compute in map frac_cbrt primes.

(** The eight working variables. *)
Record digest := mkDigest
{ h0 : Z; h1 : Z; h2 : Z; h3 : Z; h4 : Z; h5 : Z; h6 : Z; h7 : Z }.

Definition init : digest :=
  Eval vm_compute in
    mkDigest (frac_sqrt 2) (frac_sqrt 3) (frac_sqrt 5) (frac_sqrt 7)
             (frac_sqrt 11) (frac_sqrt 13) (frac_sqrt 17) (frac_sqrt 19).

(** Big-endian encodings. *)
Definition be32 (w : Z) : bytes :=
  [ Z.land (Z.shiftr w 24) 0xFF; Z.land (Z.shiftr w 16) 0xFF;
    Z.land (Z.shiftr w 8) 0xFF; Z.land w 0xFF ].
Definition be64 (w : Z) : bytes := be32 (Z.shiftr w 32) ++ be32 w.

Fixpoint words_of (fuel : nat) (b : bytes) : list Z :=
  match fuel, b with
  | S fuel', b0 :: b1 :: b2 :: b3 :: rest =>
      Z.lor (Z.lor (Z.shiftl b0 24) (Z.shiftl b1 16)) (Z.lor (Z.shiftl b2 8) b3)
      :: words_of fuel' rest
  | _, _ => []
  end.

(** Message schedule: [w] is kept newest-first, so that W[t-2], W[t-7],
    W[t-15] and W[t-16] sit at positions 1, 6, 14 and 15. *)
Fixpoint schedule (n : nat) (w : list Z) : list Z :=
  match n with
  | O => w
  | S n' =>
      let wt := add32 (add32 (ssig1 (nth 1 w 0)) (nth 6 w 0))
                      (add32 (ssig0 (nth 14 w 0)) (nth 15 w 0)) in
      schedule n' (wt :: w)
  end.

Definition round (d : digest) (kw : Z * Z) : digest :=
  let (k, w) := kw in
  let t1 := add32 (add32 (add32 (h7 d) (bsig1 (h4 d)))
                         (add32 (Ch (h4 d) (h5 d) (h6 d)) k)) w in
  let t2 := add32 (bsig0 (h0 d)) (Maj (h0 d) (h1 d) (h2 d)) in
  mkDigest (add32 t1 t2) (h0 d) (h1 d) (h2 d)
           (add32 (h3 d) t1) (h4 d) (h5 d) (h6 d).

Definition block (d : digest) (chunk : bytes) : digest :=
  let w := rev (schedule 48 (rev (words_of 16 chunk))) in
  let d' := fold_left round (combine K w) d in
  mkDigest (add32 (h0 d) (h0 d')) (add32 (h1 d) (h1 d'))
           (add32 (h2 d) (h2 d')) (add32 (h3 d) (h3 d'))
           (add32 (h4 d) (h4 d')) (add32 (h5 d) (h5 d'))
           (add32 (h6 d) (h6 d')) (add32 (h7 d) (h7 d')).

(** 0x80, zeros up to 56 mod 64, then the bit length on eight bytes. *)
Definition pad (msg : bytes) : bytes :=
  let len := Z.of_nat (length msg) in
  let zeros := Z.to_nat ((55 - len) mod 64) in
  msg ++ [0x80] ++ repeat 0 zeros ++ be64 (8 * len).

Fixpoint blocks (fuel : nat) (d : digest) (b : bytes) : digest :=
  match fuel, b with
  | S fuel', _ :: _ => blocks fuel' (block d (firstn 64 b)) (skipn 64 b)
  | _, _ => d
  end.

Definition Sum256 (msg : bytes) : bytes :=
  let p := pad msg in
  let d := blocks (length p) init p in
  be32 (h0 d) ++ be32 (h1 d) ++ be32 (h2 d) ++ be32 (h3 d) ++
  be32 (h4 d) ++ be32 (h5 d) ++ be32 (h6 d) ++ be32 (h7 d).

End sha256.

(** ** hash.Hash, as far as HMAC and PBKDF2 use it *)

Record Hash := mkHash
  { hashSize : nat;            (* Size() *)
    hashBlockSize : nat;       (* BlockSize() *)
    hashSum : bytes -> bytes   (* Reset(); Write(m); Sum(nil) *) }.

(** [sha256.New] *)
Definition sha256_New : Hash :=
  mkHash sha256.Size sha256.BlockSize sha256.Sum256.

(** ** crypto/hmac *)

Module hmac.

(** [copy(pad, key)] into a zeroed buffer of the block size. *)
Definition fit (n : nat) (key : bytes) : bytes :=
  firstn n key ++ repeat 0 (n - length key).

(** [hmac.New(h, key)], then [Write(msg)] and [Sum(nil)]. *)
Definition Sum (h : Hash) (key msg : bytes) : bytes :=
  let blocksize := hashBlockSize h in
  let key' := if (blocksize <? length key)%nat then hashSum h key else key in
  let ipad := map (fun b => Z.lxor b 0x36) (fit blocksize key') in
  let opad := map (fun b => Z.lxor b 0x5c) (fit blocksize key') in
  hashSum h (opad ++ hashSum h (ipad ++ msg)).

End hmac.

(** ** golang.org/x/crypto/pbkdf2 *)

Module pbkdf2.

(** [for x := range U { T[x] ^= U[x] }] *)
Fixpoint xor_into (T U : bytes) : bytes :=
  match T, U with
  | t :: T', u :: U' => Z.lxor t u :: xor_into T' U'
  | _, _ => T
  end.

(** One block: U_1 = PRF(salt || INT(block)), then [iter - 1] further
    rounds, each XORed into T. *)
Definition F (prf : bytes -> bytes) (salt : bytes) (iter : Z) (blk : nat) : bytes :=
  let U1 := prf (salt ++ sha256.be32 (Z.of_nat blk)) in
  fst (N.iter (Z.to_N (iter - 1))
              (fun TU : bytes * bytes =>
                 let U := prf (snd TU) in (xor_into (fst TU) U, U))
              (U1, U1)).

Definition Key (password salt : bytes) (iter : Z) (keyLen : nat) (h : Hash) : bytes :=
  let prf := hmac.Sum h password in
  let hashLen := hashSize h in
  let numBlocks := ((keyLen + hashLen - 1) / hashLen)%nat in
  let dk := flat_map (F prf salt iter) (seq 1 numBlocks) in
  firstn keyLen dk.

End pbkdf2.

(** ** auth_handlers.go: saltyPassword *)

Definition saltyPassword (password salt : bytes) : bytes :=
  let iterations := 10000 in
  let hashed := pbkdf2.Key password salt iterations 512 sha256_New in
  hashed.

(** ** crypto/subtle *)

Module subtle.

(** [int((uint32(x^y) - 1) >> 31)] *)
Definition ConstantTimeByteEq (x y : Z) : Z :=
  Z.shiftr ((Z.lxor x y - 1) mod 2 ^ 32) 31.

(** The loop [for i := 0; i < len(x); i++ { v |= x[i] ^ y[i] }]; an index
    out of range is the panic [None]. *)
Fixpoint loop (x y : bytes) (fuel i : nat) (v : Z) : option Z :=
  match fuel with
  | O => Some v
  | S fuel' =>
      match nth_error x i, nth_error y i with
      | Some xi, Some yi => loop x y fuel' (S i) (Z.lor v (Z.lxor xi yi))
      | _, _ => None
      end
  end.

Definition ConstantTimeCompare (x y : bytes) : option Z :=
  if negb (length x =? length y)%nat then Some 0
  else match loop x y (length x) 0 0 with
       | Some v => Some (ConstantTimeByteEq v 0)
       | None => None
       end.

End subtle.

(** ** Hexadecimal notation for byte strings *)

Definition hex_digit (c : ascii) : Z :=
  let n := byte_of_ascii c in
  if n <? 58 then n - 48 else n - 87.

Fixpoint bytes_of_hex (s : string) : bytes :=
  match s with
  | String a (String b s') => (16 * hex_digit a + hex_digit b) :: bytes_of_hex s'
  | _ => []
  end.

(** ** Go values the handlers pass around *)

(** [time.Time], as an instant counted from Go's zero time: the zero value
    is [0]. *)
Definition Time := Z.

(** [pgtype.Timestamp] and [pgtype.UUID]: a value and its [Valid] flag. *)
Record Timestamp := mkTimestamp { tsTime : Time; tsValid : bool }.
Record UUID := mkUUID { uuidBytes : bytes; uuidValid : bool }.

Definition Timestamp_zero : Timestamp := mkTimestamp 0 false.
Definition UUID_zero : UUID := mkUUID (make_bytes 16) false.

(** Go's [error] values that reach the handlers. *)
Inductive error :=
| PgError (Code Message ConstraintName : string)   (* *pgconn.PgError *)
| ErrNoRows                                         (* pgx.ErrNoRows *)
| ErrOther (msg : string)
| SyntaxError                                       (* *json.SyntaxError *)
| UnmarshalTypeError (field : string)               (* *json.UnmarshalTypeError *)
| EOF.                                              (* io.EOF *)

(** A Go result pair [(v, err)]. *)
Inductive result (A : Type) :=
| Ok (v : A)
| Err (e : error).
Arguments Ok {A} v.
Arguments Err {A} e.

(** net/http status codes used by the handlers. *)
Definition StatusOK : Z := 200.
Definition StatusCreated : Z := 201.
Definition StatusBadRequest : Z := 400.
Definition StatusNotAcceptable : Z := 406.
Definition StatusInternalServerError : Z := 500.
Definition StatusInsufficientStorage : Z := 507.

(** ** encoding/json *)

(** A JSON document.  [JTime] and [JBytes] stand for the strings
    encoding/json writes for a [time.Time] (RFC 3339) and for a [[]byte]
    (base64): they occur in what the handlers send, never in a request. *)
Inductive JSON :=
| JNull
| JBool (b : bool)
| JNumber (n : Z)
| JString (s : string)
| JTime (t : Time)
| JBytes (b : bytes)
| JArray (items : list JSON)
| JObject (members : list (string * JSON)).

(** A request body, as the decoder's scanner sees it.  The decoder reads
    one JSON value and scans it to its end before it stores anything. *)
Inductive Body :=
| BodyEmpty                 (* no bytes at all: Decode returns io.EOF *)
| BodyMalformed             (* not a JSON value: Decode returns a syntax error *)
| BodyJSON (v : JSON).      (* the JSON value the body holds *)

Module json.

Definition lower (c : ascii) : ascii :=
  let n := nat_of_ascii c in
  if ((65 <=? n) && (n <=? 90))%nat then ascii_of_nat (n + 32) else c.

Definition byte_is (c : ascii) (n : nat) : bool := (nat_of_ascii c =? n)%nat.

(** The UTF-8 bytes of U+017F (LATIN SMALL LETTER LONG S) and of U+212A
    (KELVIN SIGN). *)
Definition long_s : string :=
  String (ascii_of_nat 197) (String (ascii_of_nat 191) EmptyString).
Definition kelvin_sign : string :=
  String (ascii_of_nat 226)
         (String (ascii_of_nat 132) (String (ascii_of_nat 170) EmptyString)).

(** Folding of a member's key, rune by rune, as the decoder compares names
    (Unicode simple case folding).  Two runes outside ASCII share a fold
    set with an ASCII letter: long s with s, the Kelvin sign with k.  No
    other rune does, so every other byte stays as it is (and keeps the
    key from matching a name made of ASCII characters). *)
Fixpoint fold_name (s : string) : string :=
  match s with
  | EmptyString => EmptyString
  | String c s1 =>
      match s1 with
      | EmptyString => String (lower c) EmptyString
      | String c1 s2 =>
          if byte_is c 197 && byte_is c1 191 then String "s"%char (fold_name s2)
          else
            match s2 with
            | EmptyString => String (lower c) (fold_name s1)
            | String c2 s3 =>
                if byte_is c 226 && byte_is c1 132 && byte_is c2 170
                then String "k"%char (fold_name s3)
                else String (lower c) (fold_name s1)
            end
      end
  end.

(** A member's key selects the field whose name it equals under folding;
    the names are those of the json tags, in lower-case ASCII. *)
Definition key_is (key name : string) : bool := String.eqb (fold_name key) name.

Definition first_error (e1 e2 : option error) : option error :=
  match e1 with Some _ => e1 | None => e2 end.

(** Storing a value into a [string] field. *)
Definition store_string (name : string) (v : JSON) (old : string)
  : string * option error :=
  match v with
  | JString s => (s, None)
  | JNull => (old, None)
  | _ => (old, Some (UnmarshalTypeError name))
  end.

(** Storing a value into a [*string] field: [null] sets the pointer to
    nil; for any other value the pointer is allocated before the value is
    looked at. *)
Definition store_string_ptr (name : string) (v : JSON) (old : option string)
  : option string * option error :=
  match v with
  | JString s => (Some s, None)
  | JNull => (None, None)
  | _ => (Some (match old with Some s => s | None => EmptyString end),
          Some (UnmarshalTypeError name))
  end.

(** [json.NewDecoder(body).Decode(&t)], given how one member is stored
    into [t].  The first error is the one reported; the members after it
    are still stored. *)
Definition Decode {T : Type} (store : string -> JSON -> T -> T * option error)
           (b : Body) (t : T) : T * option error :=
  match b with
  | BodyEmpty => (t, Some EOF)
  | BodyMalformed => (t, Some SyntaxError)
  | BodyJSON (JObject members) =>
      fold_left (fun (acc : T * option error) (kv : string * JSON) =>
                   let (t', e') := store (fst kv) (snd kv) (fst acc) in
                   (t', first_error (snd acc) e'))
                members (t, None)
  | BodyJSON JNull => (t, None)
  | BodyJSON _ => (t, Some (UnmarshalTypeError EmptyString))
  end.

(** The keys of an encoded object. *)
Definition keys (v : JSON) : list string :=
  match v with
  | JObject members => map fst members
  | _ => []
  end.

(** The value of a member of an encoded object. *)
Fixpoint assoc (key : string) (members : list (string * JSON)) : option JSON :=
  match members with
  | [] => None
  | (k, v) :: rest => if String.eqb k key then Some v else assoc key rest
  end.

Definition member (key : string) (v : JSON) : option JSON :=
  match v with
  | JObject members => assoc key members
  | _ => None
  end.

(** Marshalling of the pgtype values: [null] unless [Valid]. *)
Definition of_Timestamp (t : Timestamp) : JSON :=
  if tsValid t then JTime (tsTime t) else JNull.
Definition of_UUID (u : UUID) : JSON :=
  if uuidValid u then JBytes (uuidBytes u) else JNull.

End json.

(** ** go-playground/validator: the tags the request structs use *)

Module utf8.

Definition cont (b : Z) : bool := (0x80 <=? b) && (b <=? 0xBF).

(** Width of the first rune of a non-empty string; an invalid or short
    encoding counts for one byte. *)
Definition width (s : bytes) : nat :=
  match s with
  | [] => 0%nat
  | c :: rest =>
      if c <? 0x80 then 1%nat
      else if (0xC2 <=? c) && (c <=? 0xDF) then
        match rest with
        | c1 :: _ => if cont c1 then 2%nat else 1%nat
        | _ => 1%nat
        end
      else if (0xE0 <=? c) && (c <=? 0xEF) then
        let lo := if c =? 0xE0 then 0xA0 else 0x80 in
        let hi := if c =? 0xED then 0x9F else 0xBF in
        match rest with
        | c1 :: c2 :: _ =>
            if (lo <=? c1) && (c1 <=? hi) && cont c2 then 3%nat else 1%nat
        | _ => 1%nat
        end
      else if (0xF0 <=? c) && (c <=? 0xF4) then
        let lo := if c =? 0xF0 then 0x90 else 0x80 in
        let hi := if c =? 0xF4 then 0x8F else 0xBF in
        match rest with
        | c1 :: c2 :: c3 :: _ =>
            if (lo <=? c1) && (c1 <=? hi) && cont c2 && cont c3 then 4%nat else 1%nat
        | _ => 1%nat
        end
      else 1%nat
  end.

Fixpoint count (fuel : nat) (s : bytes) : nat :=
  match fuel, s with
  | S fuel', _ :: _ => S (count fuel' (skipn (width s) s))
  | _, _ => O
  end.

Definition RuneCountInString (s : string) : nat :=
  let b := bytes_of_string s in count (length b) b.

End utf8.

Module validator.

Inductive Tag :=
| required
| omitnil
| min (n : nat)
| max (n : nat)
| printascii
| eqfield (other : string).

(** A field's value: a [string] or a [*string]. *)
Inductive Value :=
| VString (s : string)
| VPtr (p : option string).

(** One field of a struct, as reflection shows it to the validator. *)
Record Field := mkField { Name : string; Val : Value; Tags : list Tag }.

Record FieldError := mkFieldError { feField : string; feTag : string }.

Inductive Error :=
| InvalidValidationError
| ValidationErrors (ve : list FieldError).

Definition tag_name (t : Tag) : string :=
  match t with
  | required => "required"
  | omitnil => "omitnil"
  | min _ => "min"
  | max _ => "max"
  | printascii => "printascii"
  | eqfield _ => "eqfield"
  end%string.

(** The string a value holds ("" behind a nil pointer). *)
Definition str (v : Value) : string :=
  match v with
  | VString s => s
  | VPtr (Some s) => s
  | VPtr None => EmptyString
  end.

Definition has_value (v : Value) : bool :=
  match v with
  | VString s => negb (String.eqb s EmptyString)
  | VPtr p => match p with Some _ => true | None => false end
  end.

Definition is_printascii (s : string) : bool :=
  forallb (fun b => (0x20 <=? b) && (b <=? 0x7E)) (bytes_of_string s).

Fixpoint lookup (name : string) (fields : list Field) : option Value :=
  match fields with
  | [] => None
  | f :: rest => if String.eqb (Name f) name then Some (Val f) else lookup name rest
  end.

(** Does the value pass the tag? *)
Definition passes (fields : list Field) (v : Value) (t : Tag) : bool :=
  match t with
  | required => has_value v
  | omitnil => true
  | min n => (n <=? utf8.RuneCountInString (str v))%nat
  | max n => (utf8.RuneCountInString (str v) <=? n)%nat
  | printascii => is_printascii (str v)
  | eqfield other =>
      match lookup other fields with
      | Some v' => String.eqb (str v) (str v')
      | None => false
      end
  end.

(** The tags of a field run in order and stop at the first that fails;
    [omitnil] ends them at once for a nil pointer. *)
Fixpoint run (fields : list Field) (name : string) (v : Value) (tags : list Tag)
  : option FieldError :=
  match tags with
  | [] => None
  | t :: rest =>
      match t, v with
      | omitnil, VPtr None => None
      | _, _ =>
          if passes fields v t then run fields name v rest
          else Some (mkFieldError name (tag_name t))
      end
  end.

Definition violations (fields : list Field) : list FieldError :=
  flat_map (fun f => match run fields (Name f) (Val f) (Tags f) with
                     | Some fe => [fe]
                     | None => []
                     end) fields.

(** [Validate.Struct(s)]: nil, or the violations found. *)
Definition Struct (fields : list Field) : option Error :=
  match violations fields with
  | [] => None
  | ve => Some (ValidationErrors ve)
  end.

End validator.

Local Open Scope string_scope.

(** ** The database package: rows and query parameters *)

(** Modelled from the spec: the generated [database] package is missing
    from the sources.  [User] is the spec's Account (section 3): the
    private storage identifier, the public identifier, username, display
    name, password hash, salt and the three timestamps; these are also the
    fields the handlers read and write. *)
Record User := mkUser
  { PvtID : Z;
    UserID : UUID;
    Username : string;
    DisplayName : string;
    Password : bytes;
    PasswordSalt : bytes;
    CreatedAt : Time;
    UpdatedAt : Time;
    LastLoggedIn : Timestamp }.

(** The parameter structs, with the fields the handlers fill in. *)
Record CreateUserParams := mkCreateUserParams
  { cup_Username : string;
    cup_DisplayName : string;
    cup_Password : bytes;
    cup_PasswordSalt : bytes;
    cup_CreatedAt : Time;
    cup_UpdatedAt : Time }.

Record UpdateLoggedInTimeParams := mkUpdateLoggedInTimeParams
  { ulp_LastLoggedIn : Timestamp;
    ulp_PvtID : Z }.

Record UpdateUserDetailsParams := mkUpdateUserDetailsParams
  { uup_Username : string;
    uup_DisplayName : string;
    uup_Password : bytes;
    uup_UpdatedAt : Time;
    uup_PvtID : Z }.

(** Modelled from the spec: the queries of the [database] package, which is
    missing from the sources, as the Credential Store Gateway of
    section 4.3: lookup by username, atomic create, update of the last
    login time, update of credential and profile, delete; the last two and
    the create return the Account.  [DB] is what lies behind the connection
    pool. *)
Record Queries (DB : Type) := mkQueries
  { qGetUserByName : string -> DB -> result User * DB;
    qCreateUser : CreateUserParams -> DB -> result User * DB;
    qUpdateLoggedInTime : UpdateLoggedInTimeParams -> DB -> option error * DB;
    qUpdateUserDetails : UpdateUserDetailsParams -> DB -> result User * DB;
    qDeleteUserDetails : Z -> DB -> result User * DB }.
Arguments qGetUserByName {DB}.
Arguments qCreateUser {DB}.
Arguments qUpdateLoggedInTime {DB}.
Arguments qUpdateUserDetails {DB}.
Arguments qDeleteUserDetails {DB}.

(** The calls a handler makes on the store, in order. *)
Inductive StoreCall :=
| CallGetUserByName (name : string)
| CallCreateUser (arg : CreateUserParams)
| CallUpdateLoggedInTime (arg : UpdateLoggedInTimeParams)
| CallUpdateUserDetails (arg : UpdateUserDetailsParams)
| CallDeleteUserDetails (pvtID : Z).

(** ** Request and response structs *)

(** auth_handlers.go *)

Definition internalServerErrorMssg := "could not process request at this time".
Definition insufficientStorageErrorMssg := "could not create user at this moment".
Definition tokenGenerationErrorMssg := "could not login user at this time".

Record loginUserData := mkLoginUserData
  { lu_Username : string;     (* json:"username" validate:"required,min=5,max=50" *)
    lu_Password : string }.   (* json:"password" validate:"required,printascii,min=8" *)

Record loginResponse := mkLoginResponse
  { lr_Token : string;               (* json:"token" *)
    lr_TokenType : string;           (* json:"token_type" *)
    lr_Username : string;            (* json:"username" *)
    lr_DisplayName : string;         (* json:"display_name" *)
    lr_LastLoggedIn : Timestamp }.   (* json:"last_logged_in" *)

Record registerUserData := mkRegisterUserData
  { ru_Username : string;          (* validate:"required,min=5,max=50" *)
    ru_DisplayName : string;       (* validate:"required,min=5,max=150" *)
    ru_Password : string;          (* validate:"required,printascii,min=8,eqfield=ConfirmPassword" *)
    ru_ConfirmPassword : string }. (* validate:"required" *)

Record registerResponse := mkRegisterResponse
  { rr_UserId : UUID;           (* json:"user_id" *)
    rr_Username : string;       (* json:"username" *)
    rr_DisplayName : string;    (* json:"display_name" *)
    rr_CreatedAt : Time }.      (* json:"created_at" *)

(** The user router's file *)

Record PublicUserDetails := mkPublicUserDetails
  { pu_UserID : UUID;                (* json:"user_id" *)
    pu_Username : string;            (* json:"username" *)
    pu_DisplayName : string;         (* json:"display_name" *)
    pu_CreatedAt : Time;             (* json:"created_at" *)
    pu_UpdatedAt : Time;             (* json:"updated_at,omitempty" *)
    pu_LastLoggedIn : Timestamp }.   (* json:"last_logged_in,omitempty" *)

Record createUserData := mkCreateUserData
  { cu_Username : string;       (* validate:"required,min=5,max=50" *)
    cu_DisplayName : string;    (* validate:"required,min=5,max=150" *)
    cu_Password : string }.     (* validate:"required,printascii,min=8" *)

(** The fields are [*string]: [None] is the nil pointer. *)
Record updateUserData := mkUpdateUserData
  { ud_Username : option string;      (* validate:"omitnil,min=5,max=50" *)
    ud_DisplayName : option string;   (* validate:"omitnil,min=5,max=150" *)
    ud_Password : option string }.    (* validate:"omitnil,printascii,min=8" *)

(** *** The structs as the validator sees them *)

Import validator.

Definition fields_loginUserData (lu : loginUserData) : list Field :=
  [ mkField "Username" (VString (lu_Username lu)) [required; min 5; max 50];
    mkField "Password" (VString (lu_Password lu)) [required; printascii; min 8] ].

Definition fields_registerUserData (ru : registerUserData) : list Field :=
  [ mkField "Username" (VString (ru_Username ru)) [required; min 5; max 50];
    mkField "DisplayName" (VString (ru_DisplayName ru)) [required; min 5; max 150];
    mkField "Password" (VString (ru_Password ru))
            [required; printascii; min 8; eqfield "ConfirmPassword"];
    mkField "ConfirmPassword" (VString (ru_ConfirmPassword ru)) [required] ].

Definition fields_createUserData (cu : createUserData) : list Field :=
  [ mkField "Username" (VString (cu_Username cu)) [required; min 5; max 50];
    mkField "DisplayName" (VString (cu_DisplayName cu)) [required; min 5; max 150];
    mkField "Password" (VString (cu_Password cu)) [required; printascii; min 8] ].

Definition fields_updateUserData (ud : updateUserData) : list Field :=
  [ mkField "Username" (VPtr (ud_Username ud)) [omitnil; min 5; max 50];
    mkField "DisplayName" (VPtr (ud_DisplayName ud)) [omitnil; min 5; max 150];
    mkField "Password" (VPtr (ud_Password ud)) [omitnil; printascii; min 8] ].

(** *** The structs as the JSON decoder fills them *)

Definition store_loginUserData (key : string) (v : JSON) (lu : loginUserData)
  : loginUserData * option error :=
  if json.key_is key "username" then
    let (s, e) := json.store_string "username" v (lu_Username lu) in
    (mkLoginUserData s (lu_Password lu), e)
  else if json.key_is key "password" then
    let (s, e) := json.store_string "password" v (lu_Password lu) in
    (mkLoginUserData (lu_Username lu) s, e)
  else (lu, None).

Definition store_registerUserData (key : string) (v : JSON) (ru : registerUserData)
  : registerUserData * option error :=
  if json.key_is key "username" then
    let (s, e) := json.store_string "username" v (ru_Username ru) in
    (mkRegisterUserData s (ru_DisplayName ru) (ru_Password ru) (ru_ConfirmPassword ru), e)
  else if json.key_is key "display_name" then
    let (s, e) := json.store_string "display_name" v (ru_DisplayName ru) in
    (mkRegisterUserData (ru_Username ru) s (ru_Password ru) (ru_ConfirmPassword ru), e)
  else if json.key_is key "password" then
    let (s, e) := json.store_string "password" v (ru_Password ru) in
    (mkRegisterUserData (ru_Username ru) (ru_DisplayName ru) s (ru_ConfirmPassword ru), e)
  else if json.key_is key "confirm_password" then
    let (s, e) := json.store_string "confirm_password" v (ru_ConfirmPassword ru) in
    (mkRegisterUserData (ru_Username ru) (ru_DisplayName ru) (ru_Password ru) s, e)
  else (ru, None).

Definition store_createUserData (key : string) (v : JSON) (cu : createUserData)
  : createUserData * option error :=
  if json.key_is key "username" then
    let (s, e) := json.store_string "username" v (cu_Username cu) in
    (mkCreateUserData s (cu_DisplayName cu) (cu_Password cu), e)
  else if json.key_is key "display_name" then
    let (s, e) := json.store_string "display_name" v (cu_DisplayName cu) in
    (mkCreateUserData (cu_Username cu) s (cu_Password cu), e)
  else if json.key_is key "password" then
    let (s, e) := json.store_string "password" v (cu_Password cu) in
    (mkCreateUserData (cu_Username cu) (cu_DisplayName cu) s, e)
  else (cu, None).

Definition store_updateUserData (key : string) (v : JSON) (ud : updateUserData)
  : updateUserData * option error :=
  if json.key_is key "username" then
    let (s, e) := json.store_string_ptr "username" v (ud_Username ud) in
    (mkUpdateUserData s (ud_DisplayName ud) (ud_Password ud), e)
  else if json.key_is key "display_name" then
    let (s, e) := json.store_string_ptr "display_name" v (ud_DisplayName ud) in
    (mkUpdateUserData (ud_Username ud) s (ud_Password ud), e)
  else if json.key_is key "password" then
    let (s, e) := json.store_string_ptr "password" v (ud_Password ud) in
    (mkUpdateUserData (ud_Username ud) (ud_DisplayName ud) s, e)
  else (ud, None).

(** *** The structs as the JSON encoder writes them

    Every exported field is written, under the name of its [json] tag;
    [omitempty] never drops a struct-typed field, so [updated_at] and
    [last_logged_in] are always present. *)

Definition marshal_loginResponse (r : loginResponse) : JSON :=
  JObject [ ("token", JString (lr_Token r));
            ("token_type", JString (lr_TokenType r));
            ("username", JString (lr_Username r));
            ("display_name", JString (lr_DisplayName r));
            ("last_logged_in", json.of_Timestamp (lr_LastLoggedIn r)) ].

Definition marshal_registerResponse (r : registerResponse) : JSON :=
  JObject [ ("user_id", json.of_UUID (rr_UserId r));
            ("username", JString (rr_Username r));
            ("display_name", JString (rr_DisplayName r));
            ("created_at", JTime (rr_CreatedAt r)) ].

Definition marshal_PublicUserDetails (p : PublicUserDetails) : JSON :=
  JObject [ ("user_id", json.of_UUID (pu_UserID p));
            ("username", JString (pu_Username p));
            ("display_name", JString (pu_DisplayName p));
            ("created_at", JTime (pu_CreatedAt p));
            ("updated_at", JTime (pu_UpdatedAt p));
            ("last_logged_in", json.of_Timestamp (pu_LastLoggedIn p)) ].

(** Modelled from the spec: [database.User] is declared in the generated
    [database] package, which is missing from the sources; the
    encoder writes each of the Account's fields (section 3), here under
    the Go field names. *)
Definition marshal_User (u : User) : JSON :=
  JObject [ ("PvtID", JNumber (PvtID u));
            ("UserID", json.of_UUID (UserID u));
            ("Username", JString (Username u));
            ("DisplayName", JString (DisplayName u));
            ("Password", JBytes (Password u));
            ("PasswordSalt", JBytes (PasswordSalt u));
            ("CreatedAt", JTime (CreatedAt u));
            ("UpdatedAt", JTime (UpdatedAt u));
            ("LastLoggedIn", json.of_Timestamp (LastLoggedIn u)) ].

(** ** The render package and log/slog, as traces *)

(** What a handler hands to the [render] package, which writes it to the
    [http.ResponseWriter]: the status and the JSON encoding of the payload,
    or the validator's violations. *)
Inductive Rendered :=
| Success (status : Z) (data : JSON)                 (* render.RespondSuccess *)
| Failure (status : Z) (data : JSON)                 (* render.RespondFailure *)
| ValidationFailure (ve : list FieldError).          (* render.RespondValidationFailure *)

Inductive LogValue :=
| LString (s : string)
| LValidator (e : validator.Error).

Record LogEntry := mkLogEntry
  { logLevel : string;
    logMsg : string;
    logAttrs : list (string * LogValue) }.

(** A request: its body, and the account the authentication gate has put
    in its context (read by [auth.GetUserData]; unused on open routes). *)
Record Request := mkRequest
  { reqBody : Body;
    reqUser : User }.

(** ** The handlers' monad: state, and [None] for a panic *)

Section State.

Variable DB : Type.

Record St := mkSt
  { db : DB;                      (* behind apiCfg.ConnPool *)
    calls : list StoreCall;       (* store calls made so far *)
    ticks : nat;                  (* readings of time.Now so far *)
    reads : nat;                  (* calls of rand.Read so far *)
    written : list Rendered;      (* given to the ResponseWriter so far *)
    logged : list LogEntry }.     (* given to slog so far *)

Definition M (A : Type) : Type := St -> option A * St.

Definition ret {A} (a : A) : M A := fun s => (Some a, s).

Definition bind {A B} (m : M A) (f : A -> M B) : M B :=
  fun s => match m s with
           | (Some a, s') => f a s'
           | (None, s') => (None, s')
           end.

(** A value that may be a panic. *)
Definition try {A} (o : option A) : M A := fun s => (o, s).

Definition respond (r : Rendered) : M unit :=
  fun s => (Some tt,
            mkSt (db s) (calls s) (ticks s) (reads s)
                 (written s ++ [r])%list (logged s)).

Definition RespondSuccess (status : Z) (data : JSON) : M unit :=
  respond (Success status data).
Definition RespondFailure (status : Z) (data : JSON) : M unit :=
  respond (Failure status data).
Definition RespondValidationFailure (ve : list FieldError) : M unit :=
  respond (ValidationFailure ve).

Definition slog_Error (msg : string) (attrs : list (string * LogValue)) : M unit :=
  fun s => (Some tt,
            mkSt (db s) (calls s) (ticks s) (reads s) (written s)
                 (logged s ++ [mkLogEntry "ERROR" msg attrs])%list).

(** One store call: noted in the trace, then run on the database. *)
Definition query {A} (c : StoreCall) (q : DB -> A * DB) : M A :=
  fun s => let (a, d) := q (db s) in
           (Some a,
            mkSt d (calls s ++ [c])%list (ticks s) (reads s)
                 (written s) (logged s)).

End State.

Arguments db {DB}.
Arguments calls {DB}.
Arguments ticks {DB}.
Arguments reads {DB}.
Arguments written {DB}.
Arguments logged {DB}.
Arguments mkSt {DB}.
Arguments ret {DB A}.
Arguments bind {DB A B}.
Arguments try {DB A}.
Arguments respond {DB}.
Arguments RespondSuccess {DB}.
Arguments RespondFailure {DB}.
Arguments RespondValidationFailure {DB}.
Arguments slog_Error {DB}.
Arguments query {DB A}.

Notation "x <- c1 ;; c2" := (bind c1 (fun x => c2))
  (at level 61, c1 at next level, right associativity).
Notation "c1 ;; c2" := (bind c1 (fun _ => c2))
  (at level 61, right associativity).

(** ** The handlers *)

Section Handlers.

Variable DB : Type.
(** [database.New(apiCfg.ConnPool)] *)
Variable queries : Queries DB.
(** The clock: the instant the n-th reading of [time.Now] gives. *)
Variable now : nat -> Time.
(** The random source: the n-th call of [rand.Read] fails, or fills the
    buffer with the bytes the generator gives for each index. *)
Variable entropy : nat -> option (nat -> Z).
(** The [auth] package is missing from the sources: the token
    issuer, the token prefix and its exported hasher are left open. *)
Variable UserToToken : User -> result string.
Variable TokenPrefix : string.
Variable SaltyPassword : bytes -> bytes -> bytes.

Definition time_Now : M DB Time :=
  fun s => (Some (now (ticks s)),
            mkSt (db s) (calls s) (S (ticks s)) (reads s) (written s) (logged s)).

(** [rand.Read(b)]: the buffer afterwards, and the error. *)
Definition rand_Read (b : bytes) : M DB (bytes * option error) :=
  fun s =>
    let out := match entropy (reads s) with
               | Some gen => (map (fun i => gen i mod 256) (seq 0 (length b)), None)
               | None => (b, Some (ErrOther "crypto/rand: read failed"))
               end in
    (Some out,
     mkSt (db s) (calls s) (ticks s) (S (reads s)) (written s) (logged s)).

Definition GetUserByName (name : string) : M DB (result User) :=
  query (CallGetUserByName name) (qGetUserByName queries name).
Definition CreateUser (arg : CreateUserParams) : M DB (result User) :=
  query (CallCreateUser arg) (qCreateUser queries arg).
Definition UpdateLoggedInTime (arg : UpdateLoggedInTimeParams) : M DB (option error) :=
  query (CallUpdateLoggedInTime arg) (qUpdateLoggedInTime queries arg).
Definition UpdateUserDetails (arg : UpdateUserDetailsParams) : M DB (result User) :=
  query (CallUpdateUserDetails arg) (qUpdateUserDetails queries arg).
Definition DeleteUserDetails (pvtID : Z) : M DB (result User) :=
  query (CallDeleteUserDetails pvtID) (qDeleteUserDetails queries pvtID).

(** The branch every handler takes on a validation error. *)
Definition respondInvalid (err : validator.Error) : M DB unit :=
  match err with
  | ValidationErrors validationErrors =>
      RespondValidationFailure validationErrors
  | _ =>
      slog_Error "error with validator definition" [("error", LValidator err)] ;;
      RespondFailure StatusInternalServerError (JString internalServerErrorMssg)
  end.

(** The log entry both creating handlers write for a [*pgconn.PgError]. *)
Definition logCreateError (err : error) : M DB unit :=
  match err with
  | PgError code message constraintName =>
      slog_Error "could not create user"
                 [ ("error", LString message);
                   ("code", LString code);
                   ("constraint", LString constraintName) ]
  | _ => ret tt
  end.

(** *** auth_handlers.go *)

Definition loginUserData_zero : loginUserData := mkLoginUserData "" "".

Definition handleLogin (r : Request) : M DB unit :=
  let lu := fst (json.Decode store_loginUserData (reqBody r) loginUserData_zero) in
  match validator.Struct (fields_loginUserData lu) with
  | Some err => respondInvalid err
  | None =>
      found <- GetUserByName (lu_Username lu) ;;
      match found with
      | Err _ =>
          RespondFailure StatusBadRequest (JString "username or password is invalid")
      | Ok user =>
          let hashedPassword :=
            saltyPassword (bytes_of_string (lu_Password lu)) (PasswordSalt user) in
          same <- try (subtle.ConstantTimeCompare hashedPassword (Password user)) ;;
          if negb (same =? 1)%Z then
            RespondFailure StatusBadRequest (JString "username or password is invalid")
          else
            t <- time_Now ;;
            err <- UpdateLoggedInTime
                     (mkUpdateLoggedInTimeParams (mkTimestamp t true) (PvtID user)) ;;
            match err with
            | Some _ =>
                RespondFailure StatusInsufficientStorage
                               (JString tokenGenerationErrorMssg)
            | None => ret tt
            end ;;
            match UserToToken user with
            | Err _ =>
                RespondFailure StatusInternalServerError
                               (JString tokenGenerationErrorMssg)
            | Ok token =>
                RespondSuccess 200
                  (marshal_loginResponse
                     (mkLoginResponse token TokenPrefix (Username user)
                                      (DisplayName user) (LastLoggedIn user)))
            end
      end
  end.

Definition registerUserData_zero : registerUserData :=
  mkRegisterUserData "" "" "" "".

Definition handleRegister (r : Request) : M DB unit :=
  let ru := fst (json.Decode store_registerUserData (reqBody r)
                             registerUserData_zero) in
  (* validate incoming data *)
  match validator.Struct (fields_registerUserData ru) with
  | Some err => respondInvalid err
  | None =>
      (* check user name with DB *)
      found <- GetUserByName (ru_Username ru) ;;
      match found with
      | Ok _ =>
          RespondFailure StatusNotAcceptable
                         (JObject [("username", JString "already exists")])
      | Err _ =>
          (* generate the password hash *)
          salt <- rand_Read (make_bytes 128) ;;
          let passwordSalt := fst salt in
          match snd salt with
          | Some _ =>
              RespondFailure StatusInsufficientStorage
                             (JString insufficientStorageErrorMssg)
          | None =>
              let password :=
                saltyPassword (bytes_of_string (ru_Password ru)) passwordSalt in
              (* store in DB *)
              createdAt <- time_Now ;;
              updatedAt <- time_Now ;;
              created <- CreateUser
                           (mkCreateUserParams (ru_Username ru) (ru_DisplayName ru)
                                               password passwordSalt
                                               createdAt updatedAt) ;;
              match created with
              | Err err =>
                  logCreateError err ;;
                  RespondFailure StatusInsufficientStorage
                                 (JString insufficientStorageErrorMssg)
              | Ok user =>
                  (* send back user data *)
                  RespondSuccess StatusCreated
                    (marshal_registerResponse
                       (mkRegisterResponse (UserID user) (Username user)
                                           (DisplayName user) (CreatedAt user)))
              end
          end
      end
  end.

(** *** The user router's file *)

Definition convertToPublicUser (u : User) : PublicUserDetails :=
  mkPublicUserDetails (UserID u) (Username u) (DisplayName u)
                      (CreatedAt u) (UpdatedAt u) (LastLoggedIn u).

Definition handleGetUserDetail (r : Request) : M DB unit :=
  let user := reqUser r in
  let publicData := convertToPublicUser user in
  RespondSuccess StatusOK (marshal_PublicUserDetails publicData).

Definition createUserData_zero : createUserData := mkCreateUserData "" "" "".

Definition handleCreateUser (r : Request) : M DB unit :=
  let cu := fst (json.Decode store_createUserData (reqBody r)
                             createUserData_zero) in
  (* validate incoming data *)
  match validator.Struct (fields_createUserData cu) with
  | Some err => respondInvalid err
  | None =>
      (* check user name with DB *)
      found <- GetUserByName (cu_Username cu) ;;
      match found with
      | Ok _ =>
          RespondFailure StatusNotAcceptable
                         (JObject [("username", JString "already exists")])
      | Err _ =>
          (* generate the password hash *)
          salt <- rand_Read (make_bytes 128) ;;
          let passwordSalt := fst salt in
          match snd salt with
          | Some _ =>
              RespondFailure StatusInsufficientStorage
                             (JString insufficientStorageErrorMssg)
          | None =>
              let password :=
                SaltyPassword (bytes_of_string (cu_Password cu)) passwordSalt in
              (* store in DB *)
              createdAt <- time_Now ;;
              updatedAt <- time_Now ;;
              created <- CreateUser
                           (mkCreateUserParams (cu_Username cu) (cu_DisplayName cu)
                                               password passwordSalt
                                               createdAt updatedAt) ;;
              match created with
              | Err err =>
                  logCreateError err ;;
                  RespondFailure StatusInsufficientStorage
                                 (JString insufficientStorageErrorMssg)
              | Ok user =>
                  (* send back user data: UpdatedAt and LastLoggedIn keep
                     their zero values *)
                  RespondSuccess StatusCreated
                    (marshal_PublicUserDetails
                       (mkPublicUserDetails (UserID user) (Username user)
                                            (DisplayName user) (CreatedAt user)
                                            0 Timestamp_zero))
              end
          end
      end
  end.

Definition updateUserData_zero : updateUserData := mkUpdateUserData None None None.

(** [ud == emptyData]: a struct of three pointers equals the zero struct
    when all three are nil. *)
Definition updateUserData_is_zero (ud : updateUserData) : bool :=
  match ud_Username ud, ud_DisplayName ud, ud_Password ud with
  | None, None, None => true
  | _, _, _ => false
  end.

Definition handleUpdateUser (r : Request) : M DB unit :=
  let ud := fst (json.Decode store_updateUserData (reqBody r)
                             updateUserData_zero) in
  let user := reqUser r in
  (* nothing to update *)
  if updateUserData_is_zero ud then
    RespondSuccess StatusOK (marshal_PublicUserDetails (convertToPublicUser user))
  else
    (* validate incoming data *)
    match validator.Struct (fields_updateUserData ud) with
    | Some err => respondInvalid err
    | None =>
        (* find the updated fields *)
        let user_Password :=
          match ud_Password ud with
          | Some p => SaltyPassword (bytes_of_string p) (PasswordSalt user)
          | None => Password user
          end in
        let user_Username :=
          match ud_Username ud with
          | Some n => n
          | None => Username user
          end in
        let user_DisplayName :=
          match ud_DisplayName ud with
          | Some n => n
          | None => DisplayName user
          end in
        (* update in DB *)
        updatedAt <- time_Now ;;
        updated <- UpdateUserDetails
                     (mkUpdateUserDetailsParams user_Username user_DisplayName
                                                user_Password updatedAt
                                                (PvtID user)) ;;
        match updated with
        | Err _ =>
            RespondFailure StatusInsufficientStorage
                           (JString "could not update at this time")
        | Ok updUser =>
            RespondSuccess StatusOK
                           (marshal_PublicUserDetails (convertToPublicUser updUser))
        end
    end.

Definition handleDeleteUser (r : Request) : M DB unit :=
  let user := reqUser r in
  deleted <- DeleteUserDetails (PvtID user) ;;
  match deleted with
  | Err _ =>
      RespondFailure StatusInternalServerError
                     (JString "could not delete at this time")
  | Ok delUser =>
      RespondSuccess StatusOK (marshal_User delUser)
  end.

End Handlers.

Arguments time_Now {DB}.
Arguments rand_Read {DB}.
Arguments GetUserByName {DB}.
Arguments CreateUser {DB}.
Arguments UpdateLoggedInTime {DB}.
Arguments UpdateUserDetails {DB}.
Arguments DeleteUserDetails {DB}.
Arguments respondInvalid {DB}.
Arguments logCreateError {DB}.
Arguments handleLogin {DB}.
Arguments handleRegister {DB}.
Arguments handleGetUserDetail {DB}.
Arguments handleCreateUser {DB}.
Arguments handleUpdateUser {DB}.
Arguments handleDeleteUser {DB}.

(** ** A store to run the handlers on *)

(** Modelled from the spec: the relational store behind the [database]
    package, which is missing from the sources, after sections 4.3,
    5 and 6: a table of accounts with a uniqueness constraint on the
    username and a private key per account, whose create is atomic and
    signals a conflict.  Before each statement the environment may act:
    the statement may fail (the store is unavailable), or another request's
    registration may commit first (the race of section 5). *)
Module memdb.

Inductive Event :=
| Quiet                               (* nothing happens *)
| Fails (e : error)                   (* the next statement fails *)
| Commits (arg : CreateUserParams).   (* a concurrent registration commits *)

Record DB := mkDB
  { rows : list User;
    nextID : Z;
    schedule : list Event }.

Definition uuid_of (n : Z) : UUID := mkUUID (sha256.be64 0 ++ sha256.be64 n)%list true.

Definition find_name (name : string) (l : list User) : option User :=
  find (fun u => String.eqb (Username u) name) l.

Definition find_id (id : Z) (l : list User) : option User :=
  find (fun u => (PvtID u =? id)%Z) l.

(** Is the name held by an account other than [id]? *)
Definition taken (name : string) (id : Z) (l : list User) : bool :=
  existsb (fun u => String.eqb (Username u) name && negb (PvtID u =? id)%Z) l.

Definition unique_violation : error :=
  PgError "23505" "duplicate key value violates unique constraint"
          "users_username_key".

(** INSERT ... RETURNING *, under the unique constraint. *)
Definition insert (arg : CreateUserParams) (d : DB) : result User * DB :=
  match find_name (cup_Username arg) (rows d) with
  | Some _ => (Err unique_violation, d)
  | None =>
      let u := mkUser (nextID d) (uuid_of (nextID d))
                      (cup_Username arg) (cup_DisplayName arg)
                      (cup_Password arg) (cup_PasswordSalt arg)
                      (cup_CreatedAt arg) (cup_UpdatedAt arg) Timestamp_zero in
      (Ok u, mkDB (rows d ++ [u])%list (nextID d + 1)%Z (schedule d))
  end.

(** The environment's move, then the statement. *)
Definition statement {A} (failed : error -> A) (run : DB -> A * DB) (d : DB)
  : A * DB :=
  match schedule d with
  | [] => run d
  | Quiet :: rest => run (mkDB (rows d) (nextID d) rest)
  | Fails e :: rest => (failed e, mkDB (rows d) (nextID d) rest)
  | Commits arg :: rest => run (snd (insert arg (mkDB (rows d) (nextID d) rest)))
  end.

Definition GetUserByName (name : string) : DB -> result User * DB :=
  statement Err (fun d =>
    match find_name name (rows d) with
    | Some u => (Ok u, d)
    | None => (Err ErrNoRows, d)
    end).

Definition CreateUser (arg : CreateUserParams) : DB -> result User * DB :=
  statement Err (insert arg).

Definition set_LastLoggedIn (t : Timestamp) (u : User) : User :=
  mkUser (PvtID u) (UserID u) (Username u) (DisplayName u) (Password u)
         (PasswordSalt u) (CreatedAt u) (UpdatedAt u) t.

Definition UpdateLoggedInTime (arg : UpdateLoggedInTimeParams)
  : DB -> option error * DB :=
  statement Some (fun d =>
    (None,
     mkDB (map (fun u => if (PvtID u =? ulp_PvtID arg)%Z
                         then set_LastLoggedIn (ulp_LastLoggedIn arg) u else u)
               (rows d))
          (nextID d) (schedule d))).

Definition set_details (arg : UpdateUserDetailsParams) (u : User) : User :=
  mkUser (PvtID u) (UserID u) (uup_Username arg) (uup_DisplayName arg)
         (uup_Password arg) (PasswordSalt u) (CreatedAt u) (uup_UpdatedAt arg)
         (LastLoggedIn u).

Definition UpdateUserDetails (arg : UpdateUserDetailsParams)
  : DB -> result User * DB :=
  statement Err (fun d =>
    match find_id (uup_PvtID arg) (rows d) with
    | None => (Err ErrNoRows, d)
    | Some u =>
        if taken (uup_Username arg) (uup_PvtID arg) (rows d)
        then (Err unique_violation, d)
        else (Ok (set_details arg u),
              mkDB (map (fun u => if (PvtID u =? uup_PvtID arg)%Z
                                  then set_details arg u else u)
                        (rows d))
                   (nextID d) (schedule d))
    end).

Definition DeleteUserDetails (id : Z) : DB -> result User * DB :=
  statement Err (fun d =>
    match find_id id (rows d) with
    | None => (Err ErrNoRows, d)
    | Some u =>
        (Ok u,
         mkDB (filter (fun u => negb (PvtID u =? id)%Z) (rows d))
              (nextID d) (schedule d))
    end).

Definition queries : Queries DB :=
  mkQueries DB GetUserByName CreateUser UpdateLoggedInTime
            UpdateUserDetails DeleteUserDetails.

(** The username stored for a private identifier. *)
Definition username_of (d : DB) (id : Z) : option string :=
  option_map Username (find_id id (rows d)).

End memdb.

(** ** A scenario: one registered account, and the requests of section 8 *)

Module scenario.

Definition now (n : nat) : Time := (1000 + Z.of_nat n)%Z.

(** A random source that never fails; its n-th answer starts at n. *)
Definition entropy (n : nat) : option (nat -> Z) :=
  Some (fun i => Z.of_nat (n + i)).

Definition UserToToken (u : User) : result string := Ok "token-of-alice".
Definition TokenPrefix : string := "Bearer".

Definition salt : bytes := map (fun i => Z.of_nat i mod 256)%Z (seq 0 128).

Definition alice : User :=
  mkUser 1 (memdb.uuid_of 1) "alice12" "Alice A."
         (saltyPassword (bytes_of_string "Secret123!") salt) salt
         1000 1001 Timestamp_zero.

Definition start (d : memdb.DB) : St memdb.DB := mkSt d [] 0 0 [] [].

(** Alice is registered; the store is quiet. *)
Definition quiet : memdb.DB := memdb.mkDB [alice] 2 [].

Definition body (members : list (string * JSON)) : Body :=
  BodyJSON (JObject members).

(** Nobody is registered yet. *)
Definition nobody : User :=
  mkUser 0 UUID_zero "" "" [] [] 0 0 Timestamp_zero.

Definition login (username password : string) : Request :=
  mkRequest (body [("username", JString username);
                   ("password", JString password)]) nobody.

Definition register (username displayName password confirm : string) : Request :=
  mkRequest (body [("username", JString username);
                   ("display_name", JString displayName);
                   ("password", JString password);
                   ("confirm_password", JString confirm)]) nobody.

(** An account whose stored hash is 32 bytes long, not the 512 the
    hasher derives: no password verifies against it. *)
Definition bob : User :=
  mkUser 2 (memdb.uuid_of 2) "bob4567" "Bob B." (repeat 0%Z 32) salt
         1002 1003 Timestamp_zero.

Definition two_accounts : memdb.DB := memdb.mkDB [alice; bob] 3 [].

(** Alice is registered; the store answers the lookup and then fails
    once. *)
Definition flaky : memdb.DB :=
  memdb.mkDB [alice] 2 [memdb.Quiet; memdb.Fails (ErrOther "connection reset")].

(** Nobody is registered. *)
Definition empty : memdb.DB := memdb.mkDB [] 1 [].

(** Nobody is registered; right after the first statement another
    request's registration of alice12 commits. *)
Definition rival : CreateUserParams :=
  mkCreateUserParams "alice12" "Alice the First"
                     (saltyPassword (bytes_of_string "Password1") salt) salt
                     999 999.

Definition racy : memdb.DB :=
  memdb.mkDB [] 1 [memdb.Quiet; memdb.Commits rival].

(** A request that has passed the authentication gate as alice. *)
Definition as_alice (b : Body) : Request := mkRequest b alice.

End scenario.

(** ** Vocabulary of the statements *)

(** What the decoder leaves in each handler's input struct. *)
Definition loginUserData_of (r : Request) : loginUserData :=
  fst (json.Decode store_loginUserData (reqBody r) loginUserData_zero).
Definition registerUserData_of (r : Request) : registerUserData :=
  fst (json.Decode store_registerUserData (reqBody r) registerUserData_zero).
Definition createUserData_of (r : Request) : createUserData :=
  fst (json.Decode store_createUserData (reqBody r) createUserData_zero).
Definition updateUserData_of (r : Request) : updateUserData :=
  fst (json.Decode store_updateUserData (reqBody r) updateUserData_zero).

(** The failure kinds as the caller sees them. *)
Definition invalidCredentials : Rendered :=
  Failure StatusBadRequest (JString "username or password is invalid").
Definition usernameTaken : Rendered :=
  Failure StatusNotAcceptable (JObject [("username", JString "already exists")]).
Definition creationFailed : Rendered :=
  Failure StatusInsufficientStorage (JString insufficientStorageErrorMssg).


(** What login sends once the password has verified: a failure if the
    timestamp update failed, and then the outcome of the token issuer. *)
Definition afterTimestamp (err : option error) : list Rendered :=
  match err with
  | Some _ => [Failure StatusInsufficientStorage (JString tokenGenerationErrorMssg)]
  | None => []
  end.

Definition afterToken (UserToToken : User -> result string) (TokenPrefix : string)
           (u : User) : Rendered :=
  match UserToToken u with
  | Err _ => Failure StatusInternalServerError (JString tokenGenerationErrorMssg)
  | Ok token =>
      Success 200 (marshal_loginResponse
                     (mkLoginResponse token TokenPrefix (Username u)
                                      (DisplayName u) (LastLoggedIn u)))
  end.

(** The salt [rand.Read] leaves in the 128-byte buffer. *)
Definition fresh_salt (gen : nat -> Z) : bytes :=
  map (fun i => gen i mod 256)%Z (seq 0 128).

(** The row the register handler asks the store to create. *)
Definition registerParams (ru : registerUserData) (salt : bytes) (t1 t2 : Time)
  : CreateUserParams :=
  mkCreateUserParams (ru_Username ru) (ru_DisplayName ru)
                     (saltyPassword (bytes_of_string (ru_Password ru)) salt) salt
                     t1 t2.

(** The row the create handler asks the store to create. *)
Definition createParams (SaltyPassword : bytes -> bytes -> bytes)
           (cu : createUserData) (salt : bytes) (t1 t2 : Time) : CreateUserParams :=
  mkCreateUserParams (cu_Username cu) (cu_DisplayName cu)
                     (SaltyPassword (bytes_of_string (cu_Password cu)) salt) salt
                     t1 t2.

(** What is logged when a creation fails with this error. *)
Definition createErrorLog (err : error) : list LogEntry :=
  match err with
  | PgError code message constraintName =>
      [ mkLogEntry "ERROR" "could not create user"
                   [ ("error", LString message);
                     ("code", LString code);
                     ("constraint", LString constraintName) ] ]
  | _ => []
  end.

(** The create handler's answer, given the register handler's: a success
    carries two more members, both zero-valued; anything else is the same. *)
Definition createView (x : Rendered) : Rendered :=
  match x with
  | Success status (JObject members) =>
      Success status
              (JObject (members ++ [ ("updated_at", JTime 0);
                                     ("last_logged_in", JNull) ])%list)
  | _ => x
  end.

(** The decoder leaves the same username, display name and password in
    both input structs. *)
Definition same_input (ru : registerUserData) (cu : createUserData) : Prop :=
  cu_Username cu = ru_Username ru /\
  cu_DisplayName cu = ru_DisplayName ru /\
  cu_Password cu = ru_Password ru.


(** The arguments of the update handler's store call: each field is the
    request's when it supplies one, the context account's otherwise. *)
Definition updateParams (SaltyPassword : bytes -> bytes -> bytes)
           (ud : updateUserData) (user : User) (t : Time) : UpdateUserDetailsParams :=
  mkUpdateUserDetailsParams
    (match ud_Username ud with Some n => n | None => Username user end)
    (match ud_DisplayName ud with Some n => n | None => DisplayName user end)
    (match ud_Password ud with
     | Some p => SaltyPassword (bytes_of_string p) (PasswordSalt user)
     | None => Password user
     end)
    t (PvtID user).

(** A body the JSON scanner rejects, or no body at all. *)
Definition not_wellformed (b : Body) : Prop := b = BodyEmpty \/ b = BodyMalformed.

(** Every username the first database stores is stored unchanged, under
    the same private identifier, by the second. *)
Definition keeps_usernames (d d' : memdb.DB) : Prop :=
  forall (id : Z) (name : string),
    memdb.username_of d id = Some name -> memdb.username_of d' id = Some name.

(** The same, except that accounts may be gone. *)
Definition keeps_or_removes (d d' : memdb.DB) : Prop :=
  forall (id : Z) (name : string),
    memdb.username_of d id = Some name ->
    memdb.username_of d' id = Some name \/ memdb.username_of d' id = None.

(** ** What the validation tags accept *)

Definition username_ok (s : string) : bool :=
  negb (String.eqb s "")
  && (5 <=? utf8.RuneCountInString s)%nat
  && (utf8.RuneCountInString s <=? 50)%nat.

Definition displayName_ok (s : string) : bool :=
  negb (String.eqb s "")
  && (5 <=? utf8.RuneCountInString s)%nat
  && (utf8.RuneCountInString s <=? 150)%nat.

Definition password_ok (s : string) : bool :=
  negb (String.eqb s "")
  && validator.is_printascii s
  && (8 <=? utf8.RuneCountInString s)%nat.

(** A field the request leaves out passes; one it supplies must pass the
    field's tags. *)
Definition supplied_ok (ok : string -> bool) (p : option string) : Prop :=
  match p with
  | Some s => ok s = true
  | None => True
  end.

(** ** Shapes of a handler's run *)

(** The run from [s] to [s'] did nothing but answer once, and not with a
    success: no store call, no clock reading, no salt drawn. *)
Definition rejected {DB} (s s' : St DB) : Prop :=
  db s' = db s /\ calls s' = calls s /\ ticks s' = ticks s /\ reads s' = reads s /\
  exists x, written s' = (written s ++ [x])%list /\
            forall status data, x <> Success status data.

(** The store calls a creating handler may make for one request: none, the
    pre-check lookup alone, or the lookup followed by one create, of an
    account with the requested names, a salt of 128 bytes and the hash of
    the submitted password under that salt, stamped with the next two
    readings of the clock. *)
Definition creation_calls {DB} (hasher : bytes -> bytes -> bytes) (now : nat -> Time)
           (s : St DB) (username displayName password : string)
           (new : list StoreCall) : Prop :=
  new = [] \/
  new = [CallGetUserByName username] \/
  exists salt : bytes,
    length salt = 128%nat /\
    Forall (fun b => (0 <= b < 256)%Z) salt /\
    new = [ CallGetUserByName username;
            CallCreateUser
              (mkCreateUserParams username displayName
                                  (hasher (bytes_of_string password) salt) salt
                                  (now (ticks s)) (now (S (ticks s)))) ].

(** The handler returns and has sent exactly one answer. *)
Definition answers_once {DB} (h : M DB unit) (s : St DB) : Prop :=
  fst (h s) = Some tt /\
  exists x, written (snd (h s)) = (written s ++ [x])%list.

(** ** Further scenarios *)

Module scenario2.

(** A token issuer that always fails. *)
Definition NoToken (u : User) : result string := Err (ErrOther "signing failed").

(** Alice's row after another request of hers has renamed the account and
    changed its password; a request authenticated before that still
    carries [scenario.alice] in its context. *)
Definition alice_now : User :=
  mkUser 1 (memdb.uuid_of 1) "alice99" "Alice A."
         (saltyPassword (bytes_of_string "NewSecret1!") scenario.salt) scenario.salt
         1000 1004 Timestamp_zero.

Definition moved_on : memdb.DB := memdb.mkDB [alice_now] 2 [].

End scenario2.

(** ** Answers that show public fields only *)

(** The members an account's public representation, or a login's answer,
    may have. *)
Definition public_keys : list string :=
  [ "token"; "token_type"; "user_id"; "username"; "display_name";
    "created_at"; "updated_at"; "last_logged_in" ].

(** A success answer is an object whose members are all public ones; a
    failure is a fixed message, or the username conflict. *)
Definition public_answer (x : Rendered) : Prop :=
  match x with
  | Success _ data =>
      (exists members, data = JObject members) /\
      incl (json.keys data) public_keys
  | Failure _ data =>
      (exists msg, data = JString msg) \/
      data = JObject [("username", JString "already exists")]
  | ValidationFailure _ => True
  end.

(** ** database/queries/messages.sql *)

(** The three tables the queries name and the columns they name:
    [message_meta] (whose [mssg_id] is not among the inserted columns: the
    table fills it in), [message_type_meta] and [message_text].  A table is
    the list of its rows, an INSERT adds a row at the end. *)
Module messages.

Record MessageMeta := mkMessageMeta
{ mm_mssg_id : Z;
  mm_from_pvt_id : Z;
  mm_to_pvt_id : Z;
  mm_mssg_status : string;
  mm_created_at : Time;
  mm_updated_at : Time }.

Record MessageTypeMeta := mkMessageTypeMeta
{ mtm_mssg_id : Z;
  mtm_mssg_type : string;
  mtm_attach_mssg_id : option Z }.

Record MessageText := mkMessageText
{ mt_mssg_id : Z;
  mt_mssg_body : string }.

Record Tables := mkTables
{ message_meta : list MessageMeta;
  message_type_meta : list MessageTypeMeta;
  message_text : list MessageText }.

(** The parameters of CreateMessage: $1 to $5. *)
Record CreateMessageParams := mkCreateMessageParams
{ cm_from_pvt_id : Z;
  cm_to_pvt_id : Z;
  cm_mssg_status : string;
  cm_created_at : Time;
  cm_updated_at : Time }.

(** A row of GetMessageById: [mm.*], then [mtm.mssg_type],
    [mtm.attach_mssg_id] and [mt.mssg_body]. *)
Record GetMessageByIdRow := mkGetMessageByIdRow
{ row_meta : MessageMeta;
  row_mssg_type : string;
  row_attach_mssg_id : option Z;
  row_mssg_body : string }.

(** INSERT INTO message_meta (...) VALUES ($1, $2, $3, $4, $5) RETURNING *,
    when it succeeds; [id] is the [mssg_id] the table gives the new row. *)
Definition CreateMessage (id : Z) (arg : CreateMessageParams) (t : Tables)
  : MessageMeta * Tables :=
  let row := mkMessageMeta id (cm_from_pvt_id arg) (cm_to_pvt_id arg)
                           (cm_mssg_status arg) (cm_created_at arg)
                           (cm_updated_at arg) in
  (row, mkTables (message_meta t ++ [row])%list (message_type_meta t) (message_text t)).

(** INSERT INTO message_type_meta (mssg_id, mssg_type, attach_mssg_id)
    VALUES ($1, $2, $3) RETURNING *, when it succeeds. *)
Definition CreateMessageType (arg : MessageTypeMeta) (t : Tables)
  : MessageTypeMeta * Tables :=
  (arg, mkTables (message_meta t) (message_type_meta t ++ [arg])%list (message_text t)).

(** INSERT INTO message_text (mssg_id, mssg_body) VALUES ($1, $2)
    RETURNING *, when it succeeds. *)
Definition CreateMessageText (arg : MessageText) (t : Tables)
  : MessageText * Tables :=
  (arg, mkTables (message_meta t) (message_type_meta t) (message_text t ++ [arg])%list).

(** FROM message_meta mm
    JOIN message_type_meta mtm ON mtm.mssg_id = mm.mssg_id
    JOIN message_text mt ON mt.mssg_id = mm.mssg_id
    WHERE mm.mssg_id = $1 *)
Definition joined (t : Tables) (id : Z) : list GetMessageByIdRow :=
  flat_map
    (fun mm =>
       flat_map
         (fun mtm =>
            map (fun mt => mkGetMessageByIdRow mm (mtm_mssg_type mtm)
                                               (mtm_attach_mssg_id mtm)
                                               (mt_mssg_body mt))
                (filter (fun mt => (mt_mssg_id mt =? mm_mssg_id mm)%Z)
                        (message_text t)))
         (filter (fun mtm => (mtm_mssg_id mtm =? mm_mssg_id mm)%Z)
                 (message_type_meta t)))
    (filter (fun mm => (mm_mssg_id mm =? id)%Z) (message_meta t)).

(** [:one]: the first row, or pgx.ErrNoRows. *)
Definition GetMessageById (t : Tables) (id : Z) : result GetMessageByIdRow :=
  match joined t id with
  | row :: _ => Ok row
  | [] => Err ErrNoRows
  end.

(** No row of the three tables carries [id]. *)
Definition unused (id : Z) (t : Tables) : Prop :=
  Forall (fun mm => mm_mssg_id mm <> id) (message_meta t) /\
  Forall (fun mtm => mtm_mssg_id mtm <> id) (message_type_meta t) /\
  Forall (fun mt => mt_mssg_id mt <> id) (message_text t).

End messages.

(** ** Byte values *)

(** A value a Go [byte] can hold. *)
Definition is_byte (b : Z) : Prop := (0 <= b < 256)%Z.

(** * Properties *)

(** ** The cryptographic models meet their known answers *)

Example sha256_abc :
  sha256.Sum256 (bytes_of_string "abc")
  = bytes_of_hex "ba7816bf8f01cfea414140de5dae2223b00361a396177a9cb410ff61f20015ad".
Proof. vm_compute. reflexivity. Qed.

Example sha256_empty :
  sha256.Sum256 []
  = bytes_of_hex "e3b0c44298fc1c149afbf4c8996fb92427ae41e4649b934ca495991b7852b855".
Proof. vm_compute. reflexivity. Qed.

Example sha256_two_blocks :
  sha256.Sum256 (bytes_of_string "abcdbcdecdefdefgefghfghighijhijkijkljklmklmnlmnomnopnopq")
  = bytes_of_hex "248d6a61d20638b8e5c026930c3e6039a33ce45964ff2167f6ecedd419db06c1".
Proof. vm_compute. reflexivity. Qed.

(** RFC 4231, test case 2. *)
Example hmac_sha256_jefe :
  hmac.Sum sha256_New (bytes_of_string "Jefe")
           (bytes_of_string "what do ya want for nothing?")
  = bytes_of_hex "5bdcc146bf60754e6a042426089575c75a003f089d2739839dec58b964ec3843".
Proof. vm_compute. reflexivity. Qed.

(** RFC 7914, section 11: PBKDF2-HMAC-SHA-256, one iteration, 64 bytes. *)
Example pbkdf2_passwd_salt_1 :
  pbkdf2.Key (bytes_of_string "passwd") (bytes_of_string "salt") 1 64 sha256_New
  = bytes_of_hex
      "55ac046e56e3089fec1691c22544b605f94185216dde0465e68b9d57c20dacbc49ca9cccf179b645991664b39d77ef317c71b845b1e30bd509112041d3a19783".
Proof. vm_compute. reflexivity. Qed.

Example pbkdf2_password_salt_2 :
  pbkdf2.Key (bytes_of_string "password") (bytes_of_string "salt") 2 32 sha256_New
  = bytes_of_hex "ae4d0c95af6b46d32d0adff928f06dd02a303f8ef3c251dfd6e2d85a95474c43".
Proof. vm_compute. reflexivity. Qed.

(** ** The Salted Hasher has a fixed output length *)

Lemma Sum256_length (msg : bytes) : length (sha256.Sum256 msg) = 32%nat.
Proof. unfold sha256.Sum256. rewrite !length_app. reflexivity. Qed.

Lemma xor_into_length (T U : bytes) : length (pbkdf2.xor_into T U) = length T.
Proof.
  revert U. induction T as [|t T IH]; intros [|u U]; simpl; auto.
Qed.

Lemma F_length (prf : bytes -> bytes) (n : nat) (salt : bytes) (iter : Z) (blk : nat) :
  (forall m, length (prf m) = n) ->
  length (pbkdf2.F prf salt iter blk) = n.
Proof.
  intros Hprf. unfold pbkdf2.F.
  apply (N.iter_invariant _ _ _ (fun TU : bytes * bytes => length (fst TU) = n)).
  - intros [T U] HT. simpl in *. now rewrite xor_into_length.
  - apply Hprf.
Qed.

Lemma flat_map_length_const {A} (f : A -> bytes) (n : nat) (l : list A) :
  (forall a, length (f a) = n) ->
  length (flat_map f l) = (length l * n)%nat.
Proof.
  intros Hf. induction l as [|a l IH]; simpl; auto.
  now rewrite length_app, Hf, IH.
Qed.

Lemma saltyPassword_length (password salt : bytes) :
  length (saltyPassword password salt) = 512%nat.
Proof.
  unfold saltyPassword, pbkdf2.Key.
  rewrite length_firstn.
  rewrite (flat_map_length_const _ 32).
  - rewrite length_seq. reflexivity.
  - intros blk. apply F_length. intros m. apply Sum256_length.
Qed.

(** From here on the hash is a black box: nothing below depends on how
    its bytes are computed. *)
Global Opaque saltyPassword.

(** ** The Constant-Time Verifier *)

Lemma loop_total (x y : bytes) (fuel i : nat) (v : Z) :
  (i + fuel <= length x)%nat -> (i + fuel <= length y)%nat ->
  exists v', subtle.loop x y fuel i v = Some v'.
Proof.
  revert i v. induction fuel as [|fuel IH]; intros i v Hx Hy; simpl.
  - now exists v.
  - destruct (nth_error x i) as [xi|] eqn:Ex.
    2:{ apply nth_error_None in Ex. lia. }
    destruct (nth_error y i) as [yi|] eqn:Ey.
    2:{ apply nth_error_None in Ey. lia. }
    apply IH; lia.
Qed.

Lemma loop_same (x : bytes) (fuel i : nat) :
  (i + fuel <= length x)%nat -> subtle.loop x x fuel i 0 = Some 0%Z.
Proof.
  revert i. induction fuel as [|fuel IH]; intros i Hx; simpl; auto.
  destruct (nth_error x i) as [xi|] eqn:Ex.
  2:{ apply nth_error_None in Ex. lia. }
  rewrite Z.lxor_nilpotent. simpl. apply IH. lia.
Qed.

(** The verifier never panics: the length test guards every index. *)
Lemma ConstantTimeCompare_total (x y : bytes) :
  exists r, subtle.ConstantTimeCompare x y = Some r.
Proof.
  unfold subtle.ConstantTimeCompare.
  destruct (length x =? length y)%nat eqn:E; simpl.
  - apply Nat.eqb_eq in E.
    destruct (loop_total x y (length x) 0 0) as [v Hv]; try lia.
    rewrite Hv. eauto.
  - eauto.
Qed.

Lemma ConstantTimeCompare_same (x : bytes) :
  subtle.ConstantTimeCompare x x = Some 1%Z.
Proof.
  unfold subtle.ConstantTimeCompare.
  rewrite Nat.eqb_refl. simpl.
  rewrite loop_same by lia. reflexivity.
Qed.

Lemma ConstantTimeCompare_lengths (x y : bytes) :
  length x <> length y -> subtle.ConstantTimeCompare x y = Some 0%Z.
Proof.
  intros H. unfold subtle.ConstantTimeCompare.
  apply Nat.eqb_neq in H. now rewrite H.
Qed.

(** C6: hashing the same password with the same salt twice gives the same
    hash, and the verifier accepts that hash against itself. *)
Theorem verify_deriveHash_same (p s : bytes) :
  let h1 := saltyPassword p s in
  let h2 := saltyPassword p s in
  h1 = h2 /\ subtle.ConstantTimeCompare h1 h2 = Some 1%Z.
Proof.
  intros h1 h2. split.
  - reflexivity.
  - apply ConstantTimeCompare_same.
Qed.

(** C8: on two byte sequences of unequal length the verifier returns 0
    (false); it returns, it does not panic. *)
Theorem verify_length_mismatch (candidateHash storedHash : bytes) :
  length candidateHash <> length storedHash ->
  subtle.ConstantTimeCompare candidateHash storedHash = Some 0%Z.
Proof.
  intros H. unfold subtle.ConstantTimeCompare.
  destruct (length candidateHash =? length storedHash)%nat eqn:E.
  - apply Nat.eqb_eq in E. contradiction.
  - reflexivity.
Qed.

Lemma verify_length_mismatch_witness :
  length [1; 2; 3]%Z <> length [1; 2]%Z /\
  subtle.ConstantTimeCompare [1; 2; 3]%Z [1; 2]%Z = Some 0%Z.
Proof.
  split.
  - simpl. lia.
  - apply (verify_length_mismatch [1; 2; 3]%Z [1; 2]%Z). simpl. lia.
Defined.

(** ** Login *)

Ltac monad_step :=
  unfold respondInvalid, logCreateError;
  unfold RespondSuccess, RespondFailure, RespondValidationFailure,
    GetUserByName, CreateUser, UpdateLoggedInTime, UpdateUserDetails,
    DeleteUserDetails;
  unfold bind, try, query, respond, ret, time_Now, rand_Read, slog_Error;
  cbn [db calls ticks reads written logged fst snd].

Ltac fields_step := cbn [db calls ticks reads written logged fst snd].

Section Login.

Variable DB : Type.
Variable queries : Queries DB.
Variable now : nat -> Time.
Variable UserToToken : User -> result string.
Variable TokenPrefix : string.

(** The lookup finds no account. *)
Lemma handleLogin_unknown_user (r : Request) (s : St DB) (e : error) (d : DB) :
  validator.Struct (fields_loginUserData (loginUserData_of r)) = None ->
  qGetUserByName queries (lu_Username (loginUserData_of r)) (db s) = (Err e, d) ->
  handleLogin queries now UserToToken TokenPrefix r s
  = (Some tt,
     mkSt d (calls s ++ [CallGetUserByName (lu_Username (loginUserData_of r))])%list
          (ticks s) (reads s) (written s ++ [invalidCredentials])%list (logged s)).
Proof.
  intros Hv Hg. unfold handleLogin. cbv zeta.
  fold (loginUserData_of r). rewrite Hv.
  monad_step. rewrite Hg. reflexivity.
Qed.

(** The lookup finds the account, the password does not verify. *)
Lemma handleLogin_wrong_password (r : Request) (s : St DB) (u : User) (d : DB) :
  validator.Struct (fields_loginUserData (loginUserData_of r)) = None ->
  qGetUserByName queries (lu_Username (loginUserData_of r)) (db s) = (Ok u, d) ->
  subtle.ConstantTimeCompare
    (saltyPassword (bytes_of_string (lu_Password (loginUserData_of r)))
                   (PasswordSalt u))
    (Password u) <> Some 1%Z ->
  handleLogin queries now UserToToken TokenPrefix r s
  = (Some tt,
     mkSt d (calls s ++ [CallGetUserByName (lu_Username (loginUserData_of r))])%list
          (ticks s) (reads s) (written s ++ [invalidCredentials])%list (logged s)).
Proof.
  intros Hv Hg Hc. unfold handleLogin. cbv zeta.
  fold (loginUserData_of r). rewrite Hv.
  monad_step. rewrite Hg.
  destruct (ConstantTimeCompare_total
              (saltyPassword (bytes_of_string (lu_Password (loginUserData_of r)))
                             (PasswordSalt u))
              (Password u)) as [same Hsame].
  rewrite Hsame in *.
  destruct (same =? 1)%Z eqn:E.
  - apply Z.eqb_eq in E. subst same. contradiction.
  - reflexivity.
Qed.

Lemma handleLogin_verified (r : Request) (s : St DB) (u : User) (d d' : DB)
      (err : option error) :
  let stamp := mkUpdateLoggedInTimeParams (mkTimestamp (now (ticks s)) true)
                                          (PvtID u) in
  validator.Struct (fields_loginUserData (loginUserData_of r)) = None ->
  qGetUserByName queries (lu_Username (loginUserData_of r)) (db s) = (Ok u, d) ->
  subtle.ConstantTimeCompare
    (saltyPassword (bytes_of_string (lu_Password (loginUserData_of r)))
                   (PasswordSalt u))
    (Password u) = Some 1%Z ->
  qUpdateLoggedInTime queries stamp d = (err, d') ->
  handleLogin queries now UserToToken TokenPrefix r s
  = (Some tt,
     mkSt d'
          (calls s ++ [CallGetUserByName (lu_Username (loginUserData_of r))]
                   ++ [CallUpdateLoggedInTime stamp])%list
          (S (ticks s)) (reads s)
          (written s ++ afterTimestamp err ++ [afterToken UserToToken TokenPrefix u])%list
          (logged s)).
Proof.
  intros stamp Hv Hg Hc Hu. unfold handleLogin. cbv zeta.
  fold (loginUserData_of r). rewrite Hv.
  monad_step. rewrite Hg, Hc. cbn [Z.eqb Pos.eqb negb]. fields_step.
  fold stamp. rewrite Hu. unfold afterToken, afterTimestamp.
  destruct err; destruct (UserToToken u); fields_step;
    rewrite <- ?app_assoc; reflexivity.
Qed.

(** C4: a login naming a username with no account and a login naming an
    account with a wrong password (both past validation) are answered
    with the same failure, status and message. *)
Theorem login_unknown_user_same_as_wrong_password
        (r1 r2 : Request) (s1 s2 : St DB) (e : error) (u : User) (d1 d2 : DB) :
  validator.Struct (fields_loginUserData (loginUserData_of r1)) = None ->
  validator.Struct (fields_loginUserData (loginUserData_of r2)) = None ->
  qGetUserByName queries (lu_Username (loginUserData_of r1)) (db s1) = (Err e, d1) ->
  qGetUserByName queries (lu_Username (loginUserData_of r2)) (db s2) = (Ok u, d2) ->
  subtle.ConstantTimeCompare
    (saltyPassword (bytes_of_string (lu_Password (loginUserData_of r2)))
                   (PasswordSalt u))
    (Password u) <> Some 1%Z ->
  written (snd (handleLogin queries now UserToToken TokenPrefix r1 s1))
  = (written s1 ++ [invalidCredentials])%list /\
  written (snd (handleLogin queries now UserToToken TokenPrefix r2 s2))
  = (written s2 ++ [invalidCredentials])%list.
Proof.
  intros Hv1 Hv2 Hg1 Hg2 Hc. split.
  - now rewrite (handleLogin_unknown_user r1 s1 e d1).
  - now rewrite (handleLogin_wrong_password r2 s2 u d2).
Qed.

(** The same request gets the same answer whether its username has no
    account or has one against which its password does not verify: the
    answer tells nothing about the account's existence. *)
Lemma login_answer_hides_account_existence
      (r : Request) (s1 s2 : St DB) (e : error) (u : User) (d1 d2 : DB) :
  written s1 = written s2 ->
  qGetUserByName queries (lu_Username (loginUserData_of r)) (db s1) = (Err e, d1) ->
  qGetUserByName queries (lu_Username (loginUserData_of r)) (db s2) = (Ok u, d2) ->
  subtle.ConstantTimeCompare
    (saltyPassword (bytes_of_string (lu_Password (loginUserData_of r)))
                   (PasswordSalt u))
    (Password u) <> Some 1%Z ->
  written (snd (handleLogin queries now UserToToken TokenPrefix r s1))
  = written (snd (handleLogin queries now UserToToken TokenPrefix r s2)).
Proof.
  intros Hw Hg1 Hg2 Hc.
  destruct (validator.Struct (fields_loginUserData (loginUserData_of r)))
    as [err|] eqn:Hv.
  - unfold handleLogin. cbv zeta. fold (loginUserData_of r). rewrite Hv.
    destruct err; monad_step; now rewrite Hw.
  - rewrite (handleLogin_unknown_user r s1 e d1 Hv Hg1).
    rewrite (handleLogin_wrong_password r s2 u d2 Hv Hg2 Hc).
    fields_step. now rewrite Hw.
Qed.

(** Login always returns: no path of the handler panics. *)
Lemma handleLogin_returns (r : Request) (s : St DB) :
  fst (handleLogin queries now UserToToken TokenPrefix r s) = Some tt.
Proof.
  unfold handleLogin. cbv zeta. fold (loginUserData_of r).
  destruct (validator.Struct (fields_loginUserData (loginUserData_of r))) as [err|].
  { destruct err; reflexivity. }
  monad_step.
  destruct (qGetUserByName queries (lu_Username (loginUserData_of r)) (db s))
    as [[u|e] d1]; fields_step; [|reflexivity].
  destruct (ConstantTimeCompare_total
              (saltyPassword (bytes_of_string (lu_Password (loginUserData_of r)))
                             (PasswordSalt u))
              (Password u)) as [same Hsame].
  rewrite Hsame.
  destruct (negb (same =? 1)%Z); fields_step; [reflexivity|].
  destruct (qUpdateLoggedInTime queries
              (mkUpdateLoggedInTimeParams (mkTimestamp (now (ticks s)) true) (PvtID u))
              d1) as [err d2]; fields_step.
  destruct err; destruct (UserToToken u); reflexivity.
Qed.

End Login.

Lemma login_unknown_user_same_as_wrong_password_witness :
  let s := scenario.start scenario.two_accounts in
  let handler := handleLogin memdb.queries scenario.now scenario.UserToToken
                             scenario.TokenPrefix in
  written (snd (handler (scenario.login "nobody" "anything") s))
  = [invalidCredentials] /\
  written (snd (handler (scenario.login "bob4567" "wrongpass") s))
  = [invalidCredentials].
Proof.
  intros s handler.
  apply (login_unknown_user_same_as_wrong_password
           memdb.DB memdb.queries scenario.now scenario.UserToToken
           scenario.TokenPrefix
           (scenario.login "nobody" "anything")
           (scenario.login "bob4567" "wrongpass")
           s s ErrNoRows scenario.bob
           scenario.two_accounts scenario.two_accounts).
  - vm_compute. reflexivity.
  - vm_compute. reflexivity.
  - reflexivity.
  - reflexivity.
  - rewrite ConstantTimeCompare_lengths.
    + discriminate.
    + rewrite saltyPassword_length. simpl. lia.
Defined.

(** C5, at the failing input: alice logs in with her password and the
    timestamp update fails.  The handler goes on to issue the token, but
    it has first sent the caller a 507 failure; nothing is logged. *)
Theorem login_timestamp_failure_reaches_caller :
  let s' := snd (handleLogin memdb.queries scenario.now scenario.UserToToken
                             scenario.TokenPrefix
                             (scenario.login "alice12" "Secret123!")
                             (scenario.start scenario.flaky)) in
  written s'
  = [ Failure 507 (JString "could not login user at this time");
      Success 200
        (marshal_loginResponse
           (mkLoginResponse "token-of-alice" "Bearer" "alice12" "Alice A."
                            Timestamp_zero)) ] /\
  calls s'
  = [ CallGetUserByName "alice12";
      CallUpdateLoggedInTime (mkUpdateLoggedInTimeParams (mkTimestamp 1000 true) 1) ] /\
  logged s' = [].
Proof.
  rewrite (handleLogin_verified
             memdb.DB memdb.queries scenario.now scenario.UserToToken
             scenario.TokenPrefix
             (scenario.login "alice12" "Secret123!")
             (scenario.start scenario.flaky) scenario.alice
             (memdb.mkDB [scenario.alice] 2 [memdb.Fails (ErrOther "connection reset")])
             (memdb.mkDB [scenario.alice] 2 [])
             (Some (ErrOther "connection reset"))).
  - repeat split; reflexivity.
  - vm_compute. reflexivity.
  - reflexivity.
  - exact (ConstantTimeCompare_same _).
  - reflexivity.
Qed.

(** ** Registration *)

Lemma rand_Read_make {DB} (entropy : nat -> option (nat -> Z)) (s : St DB) :
  rand_Read entropy (make_bytes 128) s
  = (Some (match entropy (reads s) with
           | Some gen => (fresh_salt gen, None)
           | None => (make_bytes 128, Some (ErrOther "crypto/rand: read failed"))
           end),
     mkSt (db s) (calls s) (ticks s) (S (reads s)) (written s) (logged s)).
Proof. reflexivity. Qed.

Section Register.

Variable DB : Type.
Variable queries : Queries DB.
Variable now : nat -> Time.
Variable entropy : nat -> option (nat -> Z).

(** The register handler past validation and the pre-check, with a salt
    drawn: one create, and the answer follows its result. *)
Lemma handleRegister_creates (r : Request) (s : St DB) (e0 : error) (d1 d2 : DB)
      (gen : nat -> Z) (res : result User) :
  let ru := registerUserData_of r in
  let arg := registerParams ru (fresh_salt gen) (now (ticks s)) (now (S (ticks s))) in
  validator.Struct (fields_registerUserData ru) = None ->
  qGetUserByName queries (ru_Username ru) (db s) = (Err e0, d1) ->
  entropy (reads s) = Some gen ->
  qCreateUser queries arg d1 = (res, d2) ->
  handleRegister queries now entropy r s
  = (Some tt,
     mkSt d2
          (calls s ++ [CallGetUserByName (ru_Username ru)] ++ [CallCreateUser arg])%list
          (S (S (ticks s))) (S (reads s))
          (written s ++
             [match res with
              | Err _ => creationFailed
              | Ok user =>
                  Success StatusCreated
                    (marshal_registerResponse
                       (mkRegisterResponse (UserID user) (Username user)
                                           (DisplayName user) (CreatedAt user)))
              end])%list
          (logged s ++ match res with Err err => createErrorLog err | Ok _ => [] end)%list).
Proof.
  intros ru arg Hv Hg He Hc. unfold handleRegister. cbv zeta.
  fold (registerUserData_of r). fold ru. rewrite Hv.
  unfold bind at 1. unfold GetUserByName, query. rewrite Hg.
  unfold bind at 1. rewrite rand_Read_make. fields_step. rewrite He. fields_step.
  monad_step. fold (registerParams ru (fresh_salt gen) (now (ticks s)) (now (S (ticks s)))).
  fold arg. rewrite Hc.
  destruct res as [user|err]; fields_step.
  - rewrite <- !app_assoc, app_nil_r. reflexivity.
  - destruct err; fields_step; rewrite <- ?app_assoc, ?app_nil_r; reflexivity.
Qed.

End Register.

(** ** The two creating handlers *)

Lemma store_same_input (k : string) (v : JSON) (ru : registerUserData)
      (cu : createUserData) :
  same_input ru cu ->
  same_input (fst (store_registerUserData k v ru)) (fst (store_createUserData k v cu)).
Proof.
  intros (Hu & Hd & Hp).
  unfold store_registerUserData, store_createUserData, json.store_string, same_input.
  destruct (json.key_is k "username");
    [destruct v; cbn; rewrite ?Hu, ?Hd, ?Hp; auto|].
  destruct (json.key_is k "display_name");
    [destruct v; cbn; rewrite ?Hu, ?Hd, ?Hp; auto|].
  destruct (json.key_is k "password");
    [destruct v; cbn; rewrite ?Hu, ?Hd, ?Hp; auto|].
  destruct (json.key_is k "confirm_password");
    [destruct v; cbn; rewrite ?Hu, ?Hd, ?Hp; auto|].
  cbn. auto.
Qed.

Lemma fold_same_input (members : list (string * JSON)) :
  forall (ru : registerUserData) (cu : createUserData) (e1 e2 : option error),
    same_input ru cu ->
    same_input
      (fst (fold_left (fun (acc : registerUserData * option error) (kv : string * JSON) =>
                         let (t', e') := store_registerUserData (fst kv) (snd kv) (fst acc) in
                         (t', json.first_error (snd acc) e'))
                      members (ru, e1)))
      (fst (fold_left (fun (acc : createUserData * option error) (kv : string * JSON) =>
                         let (t', e') := store_createUserData (fst kv) (snd kv) (fst acc) in
                         (t', json.first_error (snd acc) e'))
                      members (cu, e2))).
Proof.
  induction members as [|[k v] members IH]; intros ru cu e1 e2 H; cbn [fold_left fst snd].
  - exact H.
  - pose proof (store_same_input k v ru cu H) as H'.
    destruct (store_registerUserData k v ru) as [ru' er].
    destruct (store_createUserData k v cu) as [cu' ec].
    apply IH. exact H'.
Qed.

Lemma decode_same_input (r : Request) :
  same_input (registerUserData_of r) (createUserData_of r).
Proof.
  unfold registerUserData_of, createUserData_of, json.Decode.
  destruct (reqBody r) as [| |v]; try (repeat split; reflexivity).
  destruct v; try (repeat split; reflexivity).
  apply fold_same_input. repeat split; reflexivity.
Qed.

(** Whatever passes the register handler's validation passes the create
    handler's. *)
Lemma register_valid_create_valid (ru : registerUserData) (cu : createUserData) :
  same_input ru cu ->
  validator.Struct (fields_registerUserData ru) = None ->
  validator.Struct (fields_createUserData cu) = None.
Proof.
  intros (Hu & Hd & Hp).
  unfold validator.Struct, validator.violations,
    fields_registerUserData, fields_createUserData.
  rewrite Hu, Hd, Hp.
  cbn [flat_map Name Val Tags run passes has_value str tag_name lookup].
  destruct (negb (String.eqb (ru_Username ru) "")); cbn [app]; [|discriminate].
  destruct (5 <=? utf8.RuneCountInString (ru_Username ru))%nat; cbn [app]; [|discriminate].
  destruct (utf8.RuneCountInString (ru_Username ru) <=? 50)%nat; cbn [app]; [|discriminate].
  destruct (negb (String.eqb (ru_DisplayName ru) "")); cbn [app]; [|discriminate].
  destruct (5 <=? utf8.RuneCountInString (ru_DisplayName ru))%nat; cbn [app]; [|discriminate].
  destruct (utf8.RuneCountInString (ru_DisplayName ru) <=? 150)%nat; cbn [app]; [|discriminate].
  destruct (negb (String.eqb (ru_Password ru) "")); cbn [app]; [|discriminate].
  destruct (is_printascii (ru_Password ru)); cbn [app]; [|discriminate].
  destruct (8 <=? utf8.RuneCountInString (ru_Password ru))%nat; cbn [app]; [|discriminate].
  reflexivity.
Qed.

Section Create.

Variable DB : Type.
Variable queries : Queries DB.
Variable now : nat -> Time.
Variable entropy : nat -> option (nat -> Z).
Variable SaltyPassword : bytes -> bytes -> bytes.

(** X21: on a request that passes the register handler's validation
    (which asks for confirm_password equal to password), and with the auth
    package's hasher being the one of saltyPassword, the register and the
    create handler make the same store calls, leave the same database and
    log, and send the same answer when it is a failure; a success of the
    create handler is the register handler's with two members appended,
    updated_at and last_logged_in, both zero-valued. *)
Theorem create_matches_register (r : Request) (s : St DB) :
  let s1 := snd (handleRegister queries now entropy r s) in
  let s2 := snd (handleCreateUser queries now entropy SaltyPassword r s) in
  (forall p salt, SaltyPassword p salt = saltyPassword p salt) ->
  validator.Struct (fields_registerUserData (registerUserData_of r)) = None ->
  db s2 = db s1 /\ calls s2 = calls s1 /\
  ticks s2 = ticks s1 /\ reads s2 = reads s1 /\ logged s2 = logged s1 /\
  exists out : list Rendered,
    written s1 = (written s ++ out)%list /\
    written s2 = (written s ++ map createView out)%list.
Proof.
  intros s1 s2 HS Hv. subst s1 s2.
  pose proof (decode_same_input r) as Hsame.
  pose proof (register_valid_create_valid _ _ Hsame Hv) as Hv'.
  destruct Hsame as (Hu & Hd & Hp).
  unfold handleRegister, handleCreateUser. cbv zeta.
  fold (registerUserData_of r). fold (createUserData_of r).
  rewrite Hv, Hv', Hu, Hd, Hp.
  monad_step.
  destruct (qGetUserByName queries (ru_Username (registerUserData_of r)) (db s))
    as [[found|e0] d1]; fields_step.
  - do 5 (split; [reflexivity|]).
    exists [usernameTaken]. split; reflexivity.
  - change (length (make_bytes 128)) with 128%nat.
    destruct (entropy (reads s)) as [gen|]; fields_step.
    + fold (fresh_salt gen). rewrite HS.
      destruct (qCreateUser queries
                  (mkCreateUserParams
                     (ru_Username (registerUserData_of r))
                     (ru_DisplayName (registerUserData_of r))
                     (saltyPassword
                        (bytes_of_string (ru_Password (registerUserData_of r)))
                        (fresh_salt gen))
                     (fresh_salt gen) (now (ticks s)) (now (S (ticks s)))) d1)
        as [[user|err] d2]; fields_step.
      * do 5 (split; [reflexivity|]).
        eexists [_]. split; reflexivity.
      * destruct err; fields_step; do 5 (split; [reflexivity|]);
          exists [creationFailed]; split; reflexivity.
    + do 5 (split; [reflexivity|]).
      exists [creationFailed]. split; reflexivity.
Qed.

End Create.

Lemma create_matches_register_witness :
  let r := scenario.register "alice12" "Alice A." "Secret123!" "Secret123!" in
  let s := scenario.start scenario.empty in
  let s1 := snd (handleRegister memdb.queries scenario.now scenario.entropy r s) in
  let s2 := snd (handleCreateUser memdb.queries scenario.now scenario.entropy
                                  saltyPassword r s) in
  db s2 = db s1 /\ calls s2 = calls s1 /\
  ticks s2 = ticks s1 /\ reads s2 = reads s1 /\ logged s2 = logged s1 /\
  exists out : list Rendered,
    written s1 = (written s ++ out)%list /\
    written s2 = (written s ++ map createView out)%list.
Proof.
  intros r s.
  apply (create_matches_register memdb.DB memdb.queries scenario.now
                                 scenario.entropy saltyPassword r s).
  - intros p salt. reflexivity.
  - vm_compute. reflexivity.
Defined.

(** C10, at the failing input: alice12 is created on an empty store, once
    through each handler.  Both store the same account, whose updated_at
    is the clock's second reading.  The register handler answers with
    four members.  The create handler answers with six: its
    PublicUserDetails literal leaves UpdatedAt and LastLoggedIn unset and
    tags them omitempty, which does not drop a struct, so the answer
    carries an updated_at of the zero time and a null last_logged_in, and
    the two externally visible outcomes differ. *)
Theorem create_and_register_answers_differ :
  let r := scenario.register "alice12" "Alice A." "Secret123!" "Secret123!" in
  let s := scenario.start scenario.empty in
  let s1 := snd (handleRegister memdb.queries scenario.now scenario.entropy r s) in
  let s2 := snd (handleCreateUser memdb.queries scenario.now scenario.entropy
                                  saltyPassword r s) in
  validator.Struct (fields_registerUserData (registerUserData_of r)) = None /\
  validator.Struct (fields_createUserData (createUserData_of r)) = None /\
  db s1 = db s2 /\
  option_map UpdatedAt (memdb.find_id 1 (memdb.rows (db s2))) = Some 1001%Z /\
  written s1
  = [ Success 201
        (JObject [ ("user_id", json.of_UUID (memdb.uuid_of 1));
                   ("username", JString "alice12");
                   ("display_name", JString "Alice A.");
                   ("created_at", JTime 1000) ]) ] /\
  written s2
  = [ Success 201
        (JObject [ ("user_id", json.of_UUID (memdb.uuid_of 1));
                   ("username", JString "alice12");
                   ("display_name", JString "Alice A.");
                   ("created_at", JTime 1000);
                   ("updated_at", JTime 0);
                   ("last_logged_in", JNull) ]) ] /\
  written s1 <> written s2.
Proof.
  intros r s s1 s2.
  assert (H1 : written s1
               = [ Success 201
                     (JObject [ ("user_id", json.of_UUID (memdb.uuid_of 1));
                                ("username", JString "alice12");
                                ("display_name", JString "Alice A.");
                                ("created_at", JTime 1000) ]) ])
    by reflexivity.
  assert (H2 : written s2
               = [ Success 201
                     (JObject [ ("user_id", json.of_UUID (memdb.uuid_of 1));
                                ("username", JString "alice12");
                                ("display_name", JString "Alice A.");
                                ("created_at", JTime 1000);
                                ("updated_at", JTime 0);
                                ("last_logged_in", JNull) ]) ])
    by reflexivity.
  split; [vm_compute; reflexivity|].
  split; [vm_compute; reflexivity|].
  split; [reflexivity|].
  split; [reflexivity|].
  split; [exact H1|].
  split; [exact H2|].
  rewrite H1, H2. discriminate.
Qed.

(** ** Update *)

Section Update.

Variable DB : Type.
Variable queries : Queries DB.
Variable now : nat -> Time.
Variable SaltyPassword : bytes -> bytes -> bytes.

(** No field supplied: the current profile, and nothing else happens. *)
Lemma handleUpdateUser_nothing (r : Request) (s : St DB) :
  updateUserData_is_zero (updateUserData_of r) = true ->
  handleUpdateUser queries now SaltyPassword r s
  = (Some tt,
     mkSt (db s) (calls s) (ticks s) (reads s)
          (written s ++ [Success StatusOK
                           (marshal_PublicUserDetails
                              (convertToPublicUser (reqUser r)))])%list
          (logged s)).
Proof.
  intros Hz. unfold handleUpdateUser. cbv zeta.
  fold (updateUserData_of r). rewrite Hz. reflexivity.
Qed.

(** Some field supplied, validation passed: one store update. *)
Lemma handleUpdateUser_updates (r : Request) (s : St DB) (res : result User)
      (d' : DB) :
  let ud := updateUserData_of r in
  let arg := updateParams SaltyPassword ud (reqUser r) (now (ticks s)) in
  updateUserData_is_zero ud = false ->
  validator.Struct (fields_updateUserData ud) = None ->
  qUpdateUserDetails queries arg (db s) = (res, d') ->
  handleUpdateUser queries now SaltyPassword r s
  = (Some tt,
     mkSt d' (calls s ++ [CallUpdateUserDetails arg])%list (S (ticks s)) (reads s)
          (written s ++
             [match res with
              | Err _ => Failure StatusInsufficientStorage
                                 (JString "could not update at this time")
              | Ok updUser => Success StatusOK
                                      (marshal_PublicUserDetails
                                         (convertToPublicUser updUser))
              end])%list
          (logged s)).
Proof.
  intros ud arg Hz Hv Hq. unfold handleUpdateUser. cbv zeta.
  fold (updateUserData_of r). fold ud. rewrite Hz, Hv.
  monad_step. fold (updateParams SaltyPassword ud (reqUser r) (now (ticks s))).
  fold arg. rewrite Hq.
  destruct res; reflexivity.
Qed.

(** C7: an update that supplies a password (and passes validation) makes
    exactly one store call, the update, which carries the hash of the
    new password under the account's existing salt together with the
    profile fields; no fresh salt is drawn. *)
Theorem update_rehashes_with_existing_salt (r : Request) (s : St DB) (p : string) :
  let ud := updateUserData_of r in
  let user := reqUser r in
  let s' := snd (handleUpdateUser queries now SaltyPassword r s) in
  ud_Password ud = Some p ->
  validator.Struct (fields_updateUserData ud) = None ->
  calls s'
  = (calls s ++
       [CallUpdateUserDetails
          (mkUpdateUserDetailsParams
             (match ud_Username ud with Some n => n | None => Username user end)
             (match ud_DisplayName ud with Some n => n | None => DisplayName user end)
             (SaltyPassword (bytes_of_string p) (PasswordSalt user))
             (now (ticks s))
             (PvtID user))])%list /\
  reads s' = reads s.
Proof.
  intros ud user s' Hp Hv. subst s'.
  assert (Hz : updateUserData_is_zero ud = false).
  { unfold updateUserData_is_zero. rewrite Hp.
    destruct (ud_Username ud), (ud_DisplayName ud); reflexivity. }
  destruct (qUpdateUserDetails queries
              (updateParams SaltyPassword ud user (now (ticks s))) (db s))
    as [res d'] eqn:Hq.
  rewrite (handleUpdateUser_updates r s res d' Hz Hv Hq). fields_step.
  unfold updateParams. fold ud. rewrite Hp. split; reflexivity.
Qed.

End Update.

Lemma update_rehashes_with_existing_salt_witness :
  let r := scenario.as_alice (scenario.body [("password", JString "NewSecret1!")]) in
  let s' := snd (handleUpdateUser memdb.queries scenario.now saltyPassword r
                                  (scenario.start scenario.quiet)) in
  calls s'
  = [ CallUpdateUserDetails
        (mkUpdateUserDetailsParams
           "alice12" "Alice A."
           (saltyPassword (bytes_of_string "NewSecret1!") scenario.salt)
           1000 1) ] /\
  reads s' = 0%nat.
Proof.
  intros r.
  apply (update_rehashes_with_existing_salt
           memdb.DB memdb.queries scenario.now saltyPassword r
           (scenario.start scenario.quiet) "NewSecret1!").
  - reflexivity.
  - reflexivity.
Defined.

(** ** Bodies that do not decode *)

(** C9, as the code has it: when the body is empty or is not JSON, the
    decode error is dropped and the input struct keeps its zero value; the
    login, register and create handlers then answer with the validation
    failure listing their required fields, while the update handler takes
    the zero struct for an update of nothing and answers with the current
    profile.  None of them calls the store, and none reports a decode
    error. *)
Theorem undecodable_body_is_taken_as_empty_input
        (DB : Type) (queries : Queries DB) (now : nat -> Time)
        (entropy : nat -> option (nat -> Z))
        (UserToToken : User -> result string) (TokenPrefix : string)
        (SaltyPassword : bytes -> bytes -> bytes)
        (r : Request) (s : St DB) :
  let answered (x : Rendered) : option unit * St DB :=
    (Some tt,
     mkSt (db s) (calls s) (ticks s) (reads s) (written s ++ [x])%list (logged s)) in
  not_wellformed (reqBody r) ->
  handleLogin queries now UserToToken TokenPrefix r s
  = answered (ValidationFailure [ mkFieldError "Username" "required";
                                  mkFieldError "Password" "required" ]) /\
  handleRegister queries now entropy r s
  = answered (ValidationFailure [ mkFieldError "Username" "required";
                                  mkFieldError "DisplayName" "required";
                                  mkFieldError "Password" "required";
                                  mkFieldError "ConfirmPassword" "required" ]) /\
  handleCreateUser queries now entropy SaltyPassword r s
  = answered (ValidationFailure [ mkFieldError "Username" "required";
                                  mkFieldError "DisplayName" "required";
                                  mkFieldError "Password" "required" ]) /\
  handleUpdateUser queries now SaltyPassword r s
  = answered (Success StatusOK
                      (marshal_PublicUserDetails (convertToPublicUser (reqUser r)))).
Proof.
  intros answered H. subst answered. destruct r as [b u]. cbn [reqBody reqUser] in *.
  destruct H as [H|H]; subst b;
    (split; [reflexivity|]; split; [reflexivity|]; split; reflexivity).
Qed.

Lemma undecodable_body_is_taken_as_empty_input_witness :
  let r := scenario.as_alice BodyMalformed in
  let s := scenario.start scenario.quiet in
  written (snd (handleLogin memdb.queries scenario.now scenario.UserToToken
                            scenario.TokenPrefix r s))
  = [ ValidationFailure [ mkFieldError "Username" "required";
                          mkFieldError "Password" "required" ] ] /\
  written (snd (handleUpdateUser memdb.queries scenario.now saltyPassword r s))
  = [ Success StatusOK
              (marshal_PublicUserDetails (convertToPublicUser scenario.alice)) ].
Proof.
  intros r s.
  destruct (undecodable_body_is_taken_as_empty_input
              memdb.DB memdb.queries scenario.now scenario.entropy
              scenario.UserToToken scenario.TokenPrefix saltyPassword r s)
    as (Hlogin & _ & _ & Hupdate).
  - right. reflexivity.
  - rewrite Hlogin, Hupdate. split; reflexivity.
Defined.

(** C9, as stated, fails for the update handler: on a body that is not
    JSON it answers 200 with alice's profile, not with a validation
    failure. *)
Lemma update_undecodable_body_succeeds :
  let r := scenario.as_alice BodyMalformed in
  let s' := snd (handleUpdateUser memdb.queries scenario.now saltyPassword r
                                  (scenario.start scenario.quiet)) in
  not_wellformed (reqBody r) /\
  written s'
  = [ Success 200
        (JObject [ ("user_id", json.of_UUID (memdb.uuid_of 1));
                   ("username", JString "alice12");
                   ("display_name", JString "Alice A.");
                   ("created_at", JTime 1000);
                   ("updated_at", JTime 1001);
                   ("last_logged_in", JNull) ]) ] /\
  forall ve, written s' <> [ValidationFailure ve].
Proof.
  intros r s'.
  assert (H : written s'
              = [ Success 200
                    (JObject [ ("user_id", json.of_UUID (memdb.uuid_of 1));
                               ("username", JString "alice12");
                               ("display_name", JString "Alice A.");
                               ("created_at", JTime 1000);
                               ("updated_at", JTime 1001);
                               ("last_logged_in", JNull) ]) ])
    by reflexivity.
  split; [right; reflexivity|].
  split; [exact H|].
  intros ve. rewrite H. discriminate.
Qed.

(** ** Delete, and what an answer tells about the account *)

(** The public representation does not depend on the password hash, the
    salt or the private identifier. *)
Lemma convertToPublicUser_ignores_secrets (u : User) (id : Z) (hash salt : bytes) :
  convertToPublicUser
    (mkUser id (UserID u) (Username u) (DisplayName u) hash salt
            (CreatedAt u) (UpdatedAt u) (LastLoggedIn u))
  = convertToPublicUser u.
Proof. reflexivity. Qed.

Lemma public_answer_keys (u : User) :
  json.keys (marshal_PublicUserDetails (convertToPublicUser u))
  = ["user_id"; "username"; "display_name"; "created_at"; "updated_at";
     "last_logged_in"].
Proof. reflexivity. Qed.

(** The encoding of the whole row determines all three. *)
Lemma marshal_User_tells_secrets (u u' : User) :
  marshal_User u = marshal_User u' ->
  PvtID u = PvtID u' /\ Password u = Password u' /\ PasswordSalt u = PasswordSalt u'.
Proof.
  unfold marshal_User. intros H. injection H as Hid _ _ _ Hp Hs _ _ _.
  auto.
Qed.

Lemma handleDeleteUser_deletes {DB} (queries : Queries DB) (r : Request) (s : St DB)
      (res : result User) (d' : DB) :
  qDeleteUserDetails queries (PvtID (reqUser r)) (db s) = (res, d') ->
  handleDeleteUser queries r s
  = (Some tt,
     mkSt d' (calls s ++ [CallDeleteUserDetails (PvtID (reqUser r))])%list
          (ticks s) (reads s)
          (written s ++
             [match res with
              | Err _ => Failure StatusInternalServerError
                                 (JString "could not delete at this time")
              | Ok delUser => Success StatusOK (marshal_User delUser)
              end])%list
          (logged s)).
Proof.
  intros Hq. unfold handleDeleteUser. cbv zeta. monad_step. rewrite Hq.
  destruct res; reflexivity.
Qed.

(** C1, at the failing input: alice deletes her account.  The success
    answer is the encoding of the whole row: it has the password hash, the
    salt and the private identifier among its members, and it is not the
    public representation the other handlers send. *)
Theorem delete_answer_carries_secrets :
  let r := scenario.as_alice BodyEmpty in
  let s' := snd (handleDeleteUser memdb.queries r (scenario.start scenario.quiet)) in
  let answer := marshal_User scenario.alice in
  written s' = [Success 200 answer] /\
  json.member "Password" answer = Some (JBytes (Password scenario.alice)) /\
  json.member "PasswordSalt" answer = Some (JBytes (PasswordSalt scenario.alice)) /\
  json.member "PvtID" answer = Some (JNumber (PvtID scenario.alice)) /\
  answer <> marshal_PublicUserDetails (convertToPublicUser scenario.alice).
Proof.
  intros r s' answer. subst s'.
  rewrite (handleDeleteUser_deletes memdb.queries r (scenario.start scenario.quiet)
                                    (Ok scenario.alice) (memdb.mkDB [] 2 []))
    by reflexivity.
  split; [reflexivity|].
  split; [reflexivity|].
  split; [reflexivity|].
  split; [reflexivity|].
  unfold answer, marshal_User, marshal_PublicUserDetails. discriminate.
Qed.

(** ** Usernames in the store *)

Lemma find_id_app (id : Z) (l : list User) (u x : User) :
  memdb.find_id id l = Some x -> memdb.find_id id (l ++ [u])%list = Some x.
Proof.
  unfold memdb.find_id. induction l as [|a l IH]; simpl; intros H.
  - discriminate.
  - destruct (PvtID a =? id)%Z; auto.
Qed.

Lemma find_id_map (id : Z) (f : User -> User) (l : list User) :
  (forall u, PvtID (f u) = PvtID u) ->
  memdb.find_id id (map f l) = option_map f (memdb.find_id id l).
Proof.
  intros Hf. unfold memdb.find_id. induction l as [|a l IH]; simpl; auto.
  rewrite Hf. destruct (PvtID a =? id)%Z; auto.
Qed.

Lemma find_id_filter_other (id id0 : Z) (l : list User) :
  id <> id0 ->
  memdb.find_id id (filter (fun u => negb (PvtID u =? id0)%Z) l) = memdb.find_id id l.
Proof.
  intros Hne. unfold memdb.find_id. induction l as [|a l IH]; simpl; auto.
  destruct (PvtID a =? id0)%Z eqn:E0; simpl.
  - apply Z.eqb_eq in E0.
    destruct (PvtID a =? id)%Z eqn:E; [apply Z.eqb_eq in E; congruence | exact IH].
  - destruct (PvtID a =? id)%Z; auto.
Qed.

Lemma find_id_filter_self (id : Z) (l : list User) :
  memdb.find_id id (filter (fun u => negb (PvtID u =? id)%Z) l) = None.
Proof.
  unfold memdb.find_id. induction l as [|a l IH]; simpl; auto.
  destruct (PvtID a =? id)%Z eqn:E; simpl; auto. now rewrite E.
Qed.

Lemma keeps_refl (d : memdb.DB) : keeps_usernames d d.
Proof. intros id name H. exact H. Qed.

Lemma keeps_trans (d1 d2 d3 : memdb.DB) :
  keeps_usernames d1 d2 -> keeps_usernames d2 d3 -> keeps_usernames d1 d3.
Proof. intros H12 H23 id name H. auto. Qed.

Lemma keeps_same_rows (d d' : memdb.DB) :
  memdb.rows d' = memdb.rows d -> keeps_usernames d d'.
Proof. intros E id name. unfold memdb.username_of. now rewrite E. Qed.

Lemma insert_keeps (arg : CreateUserParams) (d : memdb.DB) :
  keeps_usernames d (snd (memdb.insert arg d)).
Proof.
  unfold memdb.insert.
  destruct (memdb.find_name (cup_Username arg) (memdb.rows d)); simpl.
  - apply keeps_refl.
  - intros id name. unfold memdb.username_of. simpl.
    destruct (memdb.find_id id (memdb.rows d)) as [x|] eqn:E; [|discriminate].
    now rewrite (find_id_app _ _ _ _ E).
Qed.

(** The environment's moves keep the usernames; so does a statement whose
    own effect keeps them, from any database where [P] holds. *)
Lemma statement_keeps {A} (P : memdb.DB -> Prop) (failed : error -> A)
      (run : memdb.DB -> A * memdb.DB) (d : memdb.DB) :
  (forall d1 d2, keeps_usernames d1 d2 -> P d1 -> P d2) ->
  (forall d0, P d0 -> keeps_usernames d0 (snd (run d0))) ->
  P d ->
  keeps_usernames d (snd (memdb.statement failed run d)).
Proof.
  intros HP Hrun Hd. unfold memdb.statement.
  destruct (memdb.schedule d) as [|[ |e|arg] rest]; simpl.
  - auto.
  - set (d1 := memdb.mkDB (memdb.rows d) (memdb.nextID d) rest).
    assert (H1 : keeps_usernames d d1) by (apply keeps_same_rows; reflexivity).
    apply (keeps_trans _ d1); [exact H1|]. apply Hrun. apply (HP d); auto.
  - apply keeps_same_rows. reflexivity.
  - set (d1 := memdb.mkDB (memdb.rows d) (memdb.nextID d) rest).
    assert (H1 : keeps_usernames d d1) by (apply keeps_same_rows; reflexivity).
    assert (H2 : keeps_usernames d1 (snd (memdb.insert arg d1))) by apply insert_keeps.
    apply (keeps_trans _ d1); [exact H1|].
    apply (keeps_trans _ (snd (memdb.insert arg d1))); [exact H2|].
    apply Hrun. apply (HP d1); auto. apply (HP d); auto.
Qed.

Lemma GetUserByName_keeps (name : string) (d : memdb.DB) :
  keeps_usernames d (snd (memdb.GetUserByName name d)).
Proof.
  apply (statement_keeps (fun _ => True)); auto.
  intros d0 _. destruct (memdb.find_name name (memdb.rows d0)); apply keeps_refl.
Qed.

Lemma CreateUser_keeps (arg : CreateUserParams) (d : memdb.DB) :
  keeps_usernames d (snd (memdb.CreateUser arg d)).
Proof.
  apply (statement_keeps (fun _ => True)); auto.
  intros d0 _. apply insert_keeps.
Qed.

Lemma UpdateLoggedInTime_keeps (arg : UpdateLoggedInTimeParams) (d : memdb.DB) :
  keeps_usernames d (snd (memdb.UpdateLoggedInTime arg d)).
Proof.
  apply (statement_keeps (fun _ => True)); auto.
  intros d0 _ id name. unfold memdb.username_of. simpl.
  rewrite find_id_map.
  - destruct (memdb.find_id id (memdb.rows d0)) as [x|]; [|discriminate].
    simpl. destruct (PvtID x =? ulp_PvtID arg)%Z; auto.
  - intros u. destruct (PvtID u =? ulp_PvtID arg)%Z; reflexivity.
Qed.

Lemma keeps_then_removes (d1 d2 d3 : memdb.DB) :
  keeps_usernames d1 d2 -> keeps_or_removes d2 d3 -> keeps_or_removes d1 d3.
Proof. intros H12 H23 id name H. auto. Qed.

Lemma statement_keeps_or_removes {A} (failed : error -> A)
      (run : memdb.DB -> A * memdb.DB) (d : memdb.DB) :
  (forall d0, keeps_or_removes d0 (snd (run d0))) ->
  keeps_or_removes d (snd (memdb.statement failed run d)).
Proof.
  intros Hrun. unfold memdb.statement.
  destruct (memdb.schedule d) as [|[ |e|arg] rest]; simpl.
  - apply Hrun.
  - eapply keeps_then_removes; [|apply Hrun].
    apply keeps_same_rows. reflexivity.
  - intros id name H. left. exact H.
  - eapply keeps_then_removes; [|apply Hrun].
    eapply keeps_trans; [|apply insert_keeps].
    apply keeps_same_rows. reflexivity.
Qed.

Lemma DeleteUserDetails_keeps_or_removes (id0 : Z) (d : memdb.DB) :
  keeps_or_removes d (snd (memdb.DeleteUserDetails id0 d)).
Proof.
  apply statement_keeps_or_removes.
  intros d0 id name H.
  destruct (memdb.find_id id0 (memdb.rows d0)); simpl; [|now left].
  unfold memdb.username_of in *. simpl.
  destruct (Z.eq_dec id id0) as [->|Hne].
  - right. now rewrite find_id_filter_self.
  - left. now rewrite find_id_filter_other.
Qed.

(** *** Which database each handler leaves *)

Lemma handleLogin_db {DB} (queries : Queries DB) (now : nat -> Time)
      (UserToToken : User -> result string) (TokenPrefix : string)
      (r : Request) (s : St DB) :
  let d1 := snd (qGetUserByName queries (lu_Username (loginUserData_of r)) (db s)) in
  let d' := db (snd (handleLogin queries now UserToToken TokenPrefix r s)) in
  d' = db s \/ d' = d1 \/ exists arg, d' = snd (qUpdateLoggedInTime queries arg d1).
Proof.
  intros d1 d'. subst d1 d'. unfold handleLogin. cbv zeta.
  fold (loginUserData_of r).
  destruct (validator.Struct (fields_loginUserData (loginUserData_of r))) as [err|].
  { left. destruct err; reflexivity. }
  right. monad_step.
  destruct (qGetUserByName queries (lu_Username (loginUserData_of r)) (db s))
    as [[u|e] d1]; fields_step; [|now left].
  destruct (subtle.ConstantTimeCompare
              (saltyPassword (bytes_of_string (lu_Password (loginUserData_of r)))
                             (PasswordSalt u)) (Password u)) as [same|];
    fields_step; [|now left].
  destruct (negb (same =? 1)%Z); fields_step; [now left|].
  right.
  exists (mkUpdateLoggedInTimeParams (mkTimestamp (now (ticks s)) true) (PvtID u)).
  destruct (qUpdateLoggedInTime queries
              (mkUpdateLoggedInTimeParams (mkTimestamp (now (ticks s)) true) (PvtID u))
              d1) as [err d2]; fields_step.
  destruct err; destruct (UserToToken u); reflexivity.
Qed.

Lemma handleRegister_db {DB} (queries : Queries DB) (now : nat -> Time)
      (entropy : nat -> option (nat -> Z)) (r : Request) (s : St DB) :
  let d1 := snd (qGetUserByName queries (ru_Username (registerUserData_of r)) (db s)) in
  let d' := db (snd (handleRegister queries now entropy r s)) in
  d' = db s \/ d' = d1 \/ exists arg, d' = snd (qCreateUser queries arg d1).
Proof.
  intros d1 d'. subst d1 d'. unfold handleRegister. cbv zeta.
  fold (registerUserData_of r).
  destruct (validator.Struct (fields_registerUserData (registerUserData_of r)))
    as [err|].
  { left. destruct err; reflexivity. }
  right. monad_step.
  destruct (qGetUserByName queries (ru_Username (registerUserData_of r)) (db s))
    as [[u|e] d1]; fields_step; [now left|].
  destruct (entropy (reads s)) as [gen|]; fields_step; [|now left].
  right. eexists.
  match goal with
  | |- context [qCreateUser queries ?a d1] =>
      destruct (qCreateUser queries a d1) as [[user|err] d2] eqn:E
  end; fields_step.
  - instantiate (1 := mkCreateUserParams _ _ _ _ _ _). rewrite E. reflexivity.
  - rewrite E. destruct err; reflexivity.
Qed.

Lemma handleCreateUser_db {DB} (queries : Queries DB) (now : nat -> Time)
      (entropy : nat -> option (nat -> Z)) (SaltyPassword : bytes -> bytes -> bytes)
      (r : Request) (s : St DB) :
  let d1 := snd (qGetUserByName queries (cu_Username (createUserData_of r)) (db s)) in
  let d' := db (snd (handleCreateUser queries now entropy SaltyPassword r s)) in
  d' = db s \/ d' = d1 \/ exists arg, d' = snd (qCreateUser queries arg d1).
Proof.
  intros d1 d'. subst d1 d'. unfold handleCreateUser. cbv zeta.
  fold (createUserData_of r).
  destruct (validator.Struct (fields_createUserData (createUserData_of r)))
    as [err|].
  { left. destruct err; reflexivity. }
  right. monad_step.
  destruct (qGetUserByName queries (cu_Username (createUserData_of r)) (db s))
    as [[u|e] d1]; fields_step; [now left|].
  destruct (entropy (reads s)) as [gen|]; fields_step; [|now left].
  right. eexists.
  match goal with
  | |- context [qCreateUser queries ?a d1] =>
      destruct (qCreateUser queries a d1) as [[user|err] d2] eqn:E
  end; fields_step.
  - instantiate (1 := mkCreateUserParams _ _ _ _ _ _). rewrite E. reflexivity.
  - rewrite E. destruct err; reflexivity.
Qed.

Lemma handleUpdateUser_db {DB} (queries : Queries DB) (now : nat -> Time)
      (SaltyPassword : bytes -> bytes -> bytes) (r : Request) (s : St DB) :
  let arg := updateParams SaltyPassword (updateUserData_of r) (reqUser r)
                          (now (ticks s)) in
  let d' := db (snd (handleUpdateUser queries now SaltyPassword r s)) in
  d' = db s \/ d' = snd (qUpdateUserDetails queries arg (db s)).
Proof.
  intros arg d'. subst d'.
  destruct (updateUserData_is_zero (updateUserData_of r)) eqn:Hz.
  { left. now rewrite handleUpdateUser_nothing. }
  destruct (validator.Struct (fields_updateUserData (updateUserData_of r)))
    as [err|] eqn:Hv.
  { left. unfold handleUpdateUser. cbv zeta. fold (updateUserData_of r).
    rewrite Hz, Hv. destruct err; reflexivity. }
  right.
  destruct (qUpdateUserDetails queries arg (db s)) as [res d1] eqn:Hq.
  now rewrite (handleUpdateUser_updates DB queries now SaltyPassword r s res d1 Hz Hv Hq).
Qed.

(** The environment's move leaves a database that keeps the usernames;
    the statement then runs on it, or fails and leaves it. *)
Lemma statement_cases {A} (failed : error -> A) (run : memdb.DB -> A * memdb.DB)
      (d : memdb.DB) :
  exists d1,
    keeps_usernames d d1 /\
    (memdb.statement failed run d = run d1 \/
     exists e, memdb.statement failed run d = (failed e, d1)).
Proof.
  unfold memdb.statement.
  destruct (memdb.schedule d) as [|[ |e|arg] rest].
  - exists d. split; [apply keeps_refl|]. left. reflexivity.
  - exists (memdb.mkDB (memdb.rows d) (memdb.nextID d) rest).
    split; [apply keeps_same_rows; reflexivity|]. left. reflexivity.
  - exists (memdb.mkDB (memdb.rows d) (memdb.nextID d) rest).
    split; [apply keeps_same_rows; reflexivity|]. right. exists e. reflexivity.
  - exists (snd (memdb.insert arg (memdb.mkDB (memdb.rows d) (memdb.nextID d) rest))).
    split; [|left; reflexivity].
    eapply keeps_trans; [|apply insert_keeps].
    apply keeps_same_rows. reflexivity.
Qed.

Lemma find_id_PvtID (id : Z) (l : list User) (u : User) :
  memdb.find_id id l = Some u -> PvtID u = id.
Proof.
  unfold memdb.find_id. intros H. apply find_some in H.
  destruct H as [_ H]. apply Z.eqb_eq. exact H.
Qed.

(** Under every private identifier an update leaves the username there
    was, or, under the identifier of the call, the username of the call. *)
Lemma UpdateUserDetails_usernames (arg : UpdateUserDetailsParams) (d : memdb.DB)
      (id : Z) (name : string) :
  memdb.username_of d id = Some name ->
  memdb.username_of (snd (memdb.UpdateUserDetails arg d)) id = Some name \/
  (id = uup_PvtID arg /\
   memdb.username_of (snd (memdb.UpdateUserDetails arg d)) id
   = Some (uup_Username arg)).
Proof.
  intros H. unfold memdb.UpdateUserDetails.
  match goal with
  | |- context [memdb.statement ?f ?run d] =>
      destruct (statement_cases f run d) as (d1 & K & [E|[e E]]); rewrite E
  end; [|left; apply K; exact H].
  apply K in H. cbv beta.
  destruct (memdb.find_id (uup_PvtID arg) (memdb.rows d1)) as [u|]; [|left; exact H].
  destruct (memdb.taken (uup_Username arg) (uup_PvtID arg) (memdb.rows d1));
    [left; exact H|].
  unfold memdb.username_of in *. cbn [snd memdb.rows].
  rewrite find_id_map
    by (intros u0; destruct (PvtID u0 =? uup_PvtID arg)%Z; reflexivity).
  destruct (memdb.find_id id (memdb.rows d1)) as [x|] eqn:Ex; [|discriminate H].
  cbn [option_map] in *.
  destruct (PvtID x =? uup_PvtID arg)%Z eqn:E1.
  - right. apply Z.eqb_eq in E1. apply find_id_PvtID in Ex.
    split; [congruence|reflexivity].
  - left. exact H.
Qed.

(** An update that returns a row has stored the username and the hash of
    the call under the identifier of the call. *)
Lemma UpdateUserDetails_stores (arg : UpdateUserDetailsParams) (d d' : memdb.DB)
      (u' : User) :
  memdb.UpdateUserDetails arg d = (Ok u', d') ->
  memdb.find_id (uup_PvtID arg) (memdb.rows d') = Some u' /\
  Username u' = uup_Username arg /\
  Password u' = uup_Password arg.
Proof.
  unfold memdb.UpdateUserDetails.
  match goal with
  | |- context [memdb.statement ?f ?run d] =>
      destruct (statement_cases f run d) as (d1 & _ & [E|[e E]]); rewrite E
  end; [|discriminate].
  cbv beta.
  destruct (memdb.find_id (uup_PvtID arg) (memdb.rows d1)) as [u|] eqn:Eu;
    [|discriminate].
  destruct (memdb.taken (uup_Username arg) (uup_PvtID arg) (memdb.rows d1));
    [discriminate|].
  intros H. injection H as <- <-. cbn [memdb.rows].
  rewrite find_id_map
    by (intros u0; destruct (PvtID u0 =? uup_PvtID arg)%Z; reflexivity).
  rewrite Eu. cbn [option_map].
  rewrite (proj2 (Z.eqb_eq _ _) (find_id_PvtID _ _ _ Eu)).
  split; [reflexivity|]. split; reflexivity.
Qed.

(** C3, as the code has it: the stored username of an account is kept by
    login, registration, creation and get-detail, and kept (or gone with
    the account) by delete.  A profile update keeps the username of every
    account but the one of its request's context; to that one it leaves
    the username it had, or gives the username its store call carries:
    the request's username field if there is one, else the username the
    context holds.  When a non-empty update is answered with a success,
    the account's stored username is the one the call carried.  So an
    update without a username field keeps the stored username if the
    context holds that same username. *)
Theorem username_changes_only_through_update :
  (forall now UserToToken TokenPrefix r (s : St memdb.DB),
      keeps_usernames
        (db s) (db (snd (handleLogin memdb.queries now UserToToken TokenPrefix r s)))) /\
  (forall now entropy r (s : St memdb.DB),
      keeps_usernames
        (db s) (db (snd (handleRegister memdb.queries now entropy r s)))) /\
  (forall now entropy SaltyPassword r (s : St memdb.DB),
      keeps_usernames
        (db s)
        (db (snd (handleCreateUser memdb.queries now entropy SaltyPassword r s)))) /\
  (forall r (s : St memdb.DB),
      keeps_usernames (db s) (db (snd (handleGetUserDetail r s)))) /\
  (forall r (s : St memdb.DB),
      keeps_or_removes (db s) (db (snd (handleDeleteUser memdb.queries r s)))) /\
  (forall now SaltyPassword r (s : St memdb.DB) (id : Z) (name : string),
      let d' := db (snd (handleUpdateUser memdb.queries now SaltyPassword r s)) in
      memdb.username_of (db s) id = Some name ->
      memdb.username_of d' id = Some name \/
      (id = PvtID (reqUser r) /\
       memdb.username_of d' id
       = Some (match ud_Username (updateUserData_of r) with
               | Some n => n
               | None => Username (reqUser r)
               end))) /\
  (forall now SaltyPassword r (s : St memdb.DB) (status : Z) (data : JSON),
      let s' := snd (handleUpdateUser memdb.queries now SaltyPassword r s) in
      updateUserData_is_zero (updateUserData_of r) = false ->
      written s' = (written s ++ [Success status data])%list ->
      memdb.username_of (db s') (PvtID (reqUser r))
      = Some (match ud_Username (updateUserData_of r) with
              | Some n => n
              | None => Username (reqUser r)
              end)) /\
  (forall now SaltyPassword r (s : St memdb.DB),
      ud_Username (updateUserData_of r) = None ->
      memdb.username_of (db s) (PvtID (reqUser r)) = Some (Username (reqUser r)) ->
      keeps_usernames
        (db s) (db (snd (handleUpdateUser memdb.queries now SaltyPassword r s)))).
Proof.
  assert (Hupd :
    forall now SaltyPassword r (s : St memdb.DB) (id : Z) (name : string),
      memdb.username_of (db s) id = Some name ->
      memdb.username_of
        (db (snd (handleUpdateUser memdb.queries now SaltyPassword r s))) id
      = Some name \/
      (id = PvtID (reqUser r) /\
       memdb.username_of
         (db (snd (handleUpdateUser memdb.queries now SaltyPassword r s))) id
       = Some (match ud_Username (updateUserData_of r) with
               | Some n => n
               | None => Username (reqUser r)
               end))).
  { intros now SaltyPassword r s id name H.
    destruct (handleUpdateUser_db memdb.queries now SaltyPassword r s) as [E|E];
      rewrite E; [left; exact H|].
    exact (UpdateUserDetails_usernames
             (updateParams SaltyPassword (updateUserData_of r) (reqUser r)
                           (now (ticks s))) (db s) id name H). }
  split; [|split; [|split; [|split; [|split; [|split; [|split]]]]]].
  - intros now UserToToken TokenPrefix r s.
    destruct (handleLogin_db memdb.queries now UserToToken TokenPrefix r s)
      as [E|[E|[arg E]]]; rewrite E.
    + apply keeps_refl.
    + apply GetUserByName_keeps.
    + eapply keeps_trans; [apply GetUserByName_keeps|apply UpdateLoggedInTime_keeps].
  - intros now entropy r s.
    destruct (handleRegister_db memdb.queries now entropy r s)
      as [E|[E|[arg E]]]; rewrite E.
    + apply keeps_refl.
    + apply GetUserByName_keeps.
    + eapply keeps_trans; [apply GetUserByName_keeps|apply CreateUser_keeps].
  - intros now entropy SaltyPassword r s.
    destruct (handleCreateUser_db memdb.queries now entropy SaltyPassword r s)
      as [E|[E|[arg E]]]; rewrite E.
    + apply keeps_refl.
    + apply GetUserByName_keeps.
    + eapply keeps_trans; [apply GetUserByName_keeps|apply CreateUser_keeps].
  - intros r s. apply keeps_refl.
  - intros r s.
    destruct (qDeleteUserDetails memdb.queries (PvtID (reqUser r)) (db s))
      as [res d'] eqn:Hq.
    rewrite (handleDeleteUser_deletes memdb.queries r s res d' Hq). fields_step.
    replace d' with (snd (memdb.DeleteUserDetails (PvtID (reqUser r)) (db s))).
    + apply DeleteUserDetails_keeps_or_removes.
    + simpl in Hq. now rewrite Hq.
  - intros now SaltyPassword r s id name d'. subst d'. apply Hupd.
  - intros now SaltyPassword r s status data s' Hz Hw. subst s'.
    destruct (validator.Struct (fields_updateUserData (updateUserData_of r)))
      as [err|] eqn:Hv.
    { exfalso. revert Hw. unfold handleUpdateUser. cbv zeta.
      fold (updateUserData_of r). rewrite Hz, Hv.
      destruct err; monad_step; intros Hw; apply app_inv_head in Hw;
        discriminate Hw. }
    destruct (qUpdateUserDetails memdb.queries
                (updateParams SaltyPassword (updateUserData_of r) (reqUser r)
                              (now (ticks s))) (db s)) as [res d'] eqn:Hq.
    rewrite (handleUpdateUser_updates memdb.DB memdb.queries now SaltyPassword
                                      r s res d' Hz Hv Hq) in Hw |- *.
    cbn [snd written db] in Hw |- *. apply app_inv_head in Hw.
    destruct res as [u'|e]; [|discriminate Hw].
    destruct (UpdateUserDetails_stores _ _ _ _ Hq) as (Hfound & Hname & _).
    unfold memdb.username_of.
    change (PvtID (reqUser r))
      with (uup_PvtID (updateParams SaltyPassword (updateUserData_of r) (reqUser r)
                                    (now (ticks s)))).
    rewrite Hfound. cbn [option_map]. rewrite Hname. reflexivity.
  - intros now SaltyPassword r s Hnone Hstored id name H.
    destruct (Hupd now SaltyPassword r s id name H) as [K|[-> K]]; [exact K|].
    rewrite K, Hnone. rewrite Hstored in H. exact H.
Qed.

Lemma username_changes_only_through_update_witness :
  let renaming := scenario.as_alice (scenario.body [("username", JString "alice99")]) in
  let other := scenario.as_alice (scenario.body [("display_name", JString "Alice B.")]) in
  let s := scenario.start scenario.quiet in
  let late := scenario.start scenario2.moved_on in
  (memdb.username_of (db s) 1 = Some "alice12" /\
   memdb.username_of
     (db (snd (handleUpdateUser memdb.queries scenario.now saltyPassword renaming s))) 1
   = Some "alice99" /\
   keeps_usernames
     (db s)
     (db (snd (handleUpdateUser memdb.queries scenario.now saltyPassword other s)))) /\
  (memdb.username_of (db late) 1 = Some "alice99" /\
   memdb.username_of
     (db (snd (handleUpdateUser memdb.queries scenario.now saltyPassword other late))) 1
   = Some "alice12").
Proof.
  intros renaming other s late.
  destruct username_changes_only_through_update
    as (_ & _ & _ & _ & _ & _ & Hdone & Hkeep).
  split; [split; [reflexivity|split]|split; [reflexivity|]].
  - eapply (Hdone scenario.now saltyPassword renaming s); lazy; reflexivity.
  - apply (Hkeep scenario.now saltyPassword other s); reflexivity.
  - eapply (Hdone scenario.now saltyPassword other late); lazy; reflexivity.
Defined.

(** C3, as stated, fails: alice sends an update with a username field, and
    the account stored under her private identifier goes from alice12 to
    alice99; the answer shows the new name. *)
Lemma update_changes_username :
  let r := scenario.as_alice (scenario.body [("username", JString "alice99")]) in
  let s := scenario.start scenario.quiet in
  let s' := snd (handleUpdateUser memdb.queries scenario.now saltyPassword r s) in
  memdb.username_of (db s) 1 = Some "alice12" /\
  memdb.username_of (db s') 1 = Some "alice99" /\
  memdb.username_of (db s') 1 <> memdb.username_of (db s) 1 /\
  written s'
  = [ Success 200
        (JObject [ ("user_id", json.of_UUID (memdb.uuid_of 1));
                   ("username", JString "alice99");
                   ("display_name", JString "Alice A.");
                   ("created_at", JTime 1000);
                   ("updated_at", JTime 1000);
                   ("last_logged_in", JNull) ]) ].
Proof.
  intros r s s'.
  assert (H0 : memdb.username_of (db s) 1 = Some "alice12") by reflexivity.
  assert (H1 : memdb.username_of (db s') 1 = Some "alice99") by reflexivity.
  split; [exact H0|].
  split; [exact H1|].
  split; [rewrite H0, H1; discriminate|].
  reflexivity.
Qed.

(** ** The stored hash after a password change *)

(** After an update that supplies a password, on a quiet store, the
    account's hash is the hash of the new password under the salt it
    already had, and the salt is the same. *)
Lemma update_stores_new_hash (now : nat -> Time)
      (SaltyPassword : bytes -> bytes -> bytes) (r : Request) (s : St memdb.DB)
      (p : string) :
  let user := reqUser r in
  let arg := updateParams SaltyPassword (updateUserData_of r) user (now (ticks s)) in
  memdb.schedule (db s) = [] ->
  memdb.find_id (PvtID user) (memdb.rows (db s)) = Some user ->
  memdb.taken (uup_Username arg) (PvtID user) (memdb.rows (db s)) = false ->
  validator.Struct (fields_updateUserData (updateUserData_of r)) = None ->
  ud_Password (updateUserData_of r) = Some p ->
  exists u',
    memdb.find_id (PvtID user)
                  (memdb.rows (db (snd (handleUpdateUser memdb.queries now
                                                         SaltyPassword r s))))
    = Some u' /\
    Password u' = SaltyPassword (bytes_of_string p) (PasswordSalt user) /\
    PasswordSalt u' = PasswordSalt user.
Proof.
  intros user arg Hquiet Hstored Hfree Hv Hp.
  assert (Hz : updateUserData_is_zero (updateUserData_of r) = false).
  { unfold updateUserData_is_zero. rewrite Hp.
    destruct (ud_Username (updateUserData_of r)),
             (ud_DisplayName (updateUserData_of r)); reflexivity. }
  assert (Hq : qUpdateUserDetails memdb.queries arg (db s)
               = (Ok (memdb.set_details arg user),
                  memdb.mkDB
                    (map (fun u => if (PvtID u =? uup_PvtID arg)%Z
                                   then memdb.set_details arg u else u)
                         (memdb.rows (db s)))
                    (memdb.nextID (db s)) (memdb.schedule (db s)))).
  { simpl. unfold memdb.UpdateUserDetails, memdb.statement.
    rewrite Hquiet.
    change (uup_PvtID arg) with (PvtID user). now rewrite Hstored, Hfree. }
  rewrite (handleUpdateUser_updates memdb.DB memdb.queries now SaltyPassword
                                    r s _ _ Hz Hv Hq). fields_step.
  exists (memdb.set_details arg user). simpl.
  rewrite find_id_map.
  - change (uup_PvtID arg) with (PvtID user). rewrite Hstored. simpl.
    unfold memdb.find_id in Hstored. apply find_some in Hstored.
    destruct Hstored as [_ Hid]. rewrite Hid.
    split; [reflexivity|]. split; [|reflexivity].
    unfold arg, updateParams. simpl. now rewrite Hp.
  - intros u0. destruct (PvtID u0 =? PvtID user)%Z; reflexivity.
Qed.

(** * Further properties of the handlers *)

From Stdlib Require Import Setoid Morphisms_Prop.

(** ** Validation *)

Lemma login_valid_iff (lu : loginUserData) :
  validator.Struct (fields_loginUserData lu) = None
  <-> username_ok (lu_Username lu) = true /\ password_ok (lu_Password lu) = true.
Proof.
  unfold validator.Struct, validator.violations, fields_loginUserData,
    username_ok, password_ok.
  cbn [flat_map Name Val Tags run passes has_value str tag_name lookup].
  destruct (negb (String.eqb (lu_Username lu) ""));
    destruct (5 <=? utf8.RuneCountInString (lu_Username lu))%nat;
    destruct (utf8.RuneCountInString (lu_Username lu) <=? 50)%nat;
    destruct (negb (String.eqb (lu_Password lu) ""));
    destruct (is_printascii (lu_Password lu));
    destruct (8 <=? utf8.RuneCountInString (lu_Password lu))%nat;
    cbn; split; intros H; try discriminate; try (destruct H; discriminate); auto.
Qed.

Lemma Struct_None_iff (fields : list Field) :
  validator.Struct fields = None <-> validator.violations fields = [].
Proof.
  unfold validator.Struct. destruct (validator.violations fields); split;
    intros H; try reflexivity; discriminate.
Qed.

Lemma app_nil_iff {A} (l l' : list A) : (l ++ l')%list = [] <-> l = [] /\ l' = [].
Proof.
  split.
  - apply app_eq_nil.
  - intros [-> ->]. reflexivity.
Qed.

Lemma one_or_none_nil {A} (o : option A) :
  match o with Some fe => [fe] | None => [] end = [] <-> o = None.
Proof. destruct o; split; intros H; try reflexivity; discriminate. Qed.

Lemma run_username (fields : list Field) (name : string) (s : string) :
  validator.run fields name (VString s) [required; min 5; max 50] = None
  <-> username_ok s = true.
Proof.
  unfold username_ok. cbn [run passes has_value str].
  destruct (negb (String.eqb s ""));
    destruct (5 <=? utf8.RuneCountInString s)%nat;
    destruct (utf8.RuneCountInString s <=? 50)%nat;
    cbn; split; intros H; try discriminate; auto.
Qed.

Lemma run_displayName (fields : list Field) (name : string) (s : string) :
  validator.run fields name (VString s) [required; min 5; max 150] = None
  <-> displayName_ok s = true.
Proof.
  unfold displayName_ok. cbn [run passes has_value str].
  destruct (negb (String.eqb s ""));
    destruct (5 <=? utf8.RuneCountInString s)%nat;
    destruct (utf8.RuneCountInString s <=? 150)%nat;
    cbn; split; intros H; try discriminate; auto.
Qed.

Lemma run_password (fields : list Field) (name : string) (s : string) :
  validator.run fields name (VString s) [required; printascii; min 8] = None
  <-> password_ok s = true.
Proof.
  unfold password_ok. cbn [run passes has_value str].
  destruct (negb (String.eqb s ""));
    destruct (is_printascii s);
    destruct (8 <=? utf8.RuneCountInString s)%nat;
    cbn; split; intros H; try discriminate; auto.
Qed.

Lemma create_valid_iff (cu : createUserData) :
  validator.Struct (fields_createUserData cu) = None
  <-> username_ok (cu_Username cu) = true /\
      displayName_ok (cu_DisplayName cu) = true /\
      password_ok (cu_Password cu) = true.
Proof.
  rewrite Struct_None_iff.
  unfold validator.violations, fields_createUserData.
  cbn [flat_map Name Val Tags].
  rewrite !app_nil_iff, !one_or_none_nil, run_username, run_displayName, run_password.
  tauto.
Qed.

Lemma register_valid_iff (ru : registerUserData) :
  validator.Struct (fields_registerUserData ru) = None
  <-> username_ok (ru_Username ru) = true /\
      displayName_ok (ru_DisplayName ru) = true /\
      password_ok (ru_Password ru) = true /\
      ru_ConfirmPassword ru = ru_Password ru.
Proof.
  rewrite Struct_None_iff.
  unfold validator.violations, fields_registerUserData.
  cbn [flat_map Name Val Tags].
  rewrite !app_nil_iff, !one_or_none_nil, run_username, run_displayName.
  unfold password_ok.
  cbn [run passes has_value str lookup Name Val String.eqb Ascii.eqb Bool.eqb].
  destruct (String.eqb_spec (ru_Password ru) (ru_ConfirmPassword ru)) as [E|E].
  - rewrite <- E.
    destruct (negb (String.eqb (ru_Password ru) ""));
      destruct (is_printascii (ru_Password ru));
      destruct (8 <=? utf8.RuneCountInString (ru_Password ru))%nat;
      cbn; intuition (try discriminate; auto).
  - destruct (negb (String.eqb (ru_Password ru) ""));
      destruct (is_printascii (ru_Password ru));
      destruct (8 <=? utf8.RuneCountInString (ru_Password ru))%nat;
      destruct (negb (String.eqb (ru_ConfirmPassword ru) ""));
      cbn; intuition (try discriminate; try congruence).
Qed.

Lemma run_username_ptr (fields : list Field) (name : string) (s : string) :
  validator.run fields name (VPtr (Some s)) [omitnil; min 5; max 50] = None
  <-> username_ok s = true.
Proof.
  unfold username_ok. cbn [run passes has_value str].
  destruct (String.eqb_spec s "") as [->|_]; [cbn; split; discriminate|].
  destruct (5 <=? utf8.RuneCountInString s)%nat;
    destruct (utf8.RuneCountInString s <=? 50)%nat;
    cbn; split; intros H; try discriminate; auto.
Qed.

Lemma run_displayName_ptr (fields : list Field) (name : string) (s : string) :
  validator.run fields name (VPtr (Some s)) [omitnil; min 5; max 150] = None
  <-> displayName_ok s = true.
Proof.
  unfold displayName_ok. cbn [run passes has_value str].
  destruct (String.eqb_spec s "") as [->|_]; [cbn; split; discriminate|].
  destruct (5 <=? utf8.RuneCountInString s)%nat;
    destruct (utf8.RuneCountInString s <=? 150)%nat;
    cbn; split; intros H; try discriminate; auto.
Qed.

Lemma run_password_ptr (fields : list Field) (name : string) (s : string) :
  validator.run fields name (VPtr (Some s)) [omitnil; printascii; min 8] = None
  <-> password_ok s = true.
Proof.
  unfold password_ok. cbn [run passes has_value str].
  destruct (String.eqb_spec s "") as [->|_]; [cbn; split; discriminate|].
  destruct (is_printascii s);
    destruct (8 <=? utf8.RuneCountInString s)%nat;
    cbn; split; intros H; try discriminate; auto.
Qed.

Lemma update_valid_iff (ud : updateUserData) :
  validator.Struct (fields_updateUserData ud) = None
  <-> supplied_ok username_ok (ud_Username ud) /\
      supplied_ok displayName_ok (ud_DisplayName ud) /\
      supplied_ok password_ok (ud_Password ud).
Proof.
  rewrite Struct_None_iff.
  unfold validator.violations, fields_updateUserData.
  cbn [flat_map Name Val Tags].
  rewrite !app_nil_iff, !one_or_none_nil.
  destruct (ud_Username ud) as [n|]; destruct (ud_DisplayName ud) as [dn|];
    destruct (ud_Password ud) as [p|]; unfold supplied_ok;
    rewrite ?run_username_ptr, ?run_displayName_ptr, ?run_password_ptr;
    cbn [run]; intuition reflexivity.
Qed.

(** On a string of ASCII bytes the runes are the bytes. *)
Lemma count_ascii (b : bytes) (fuel : nat) :
  forallb (fun c => (0x20 <=? c)%Z && (c <=? 0x7E)%Z) b = true ->
  (length b <= fuel)%nat ->
  utf8.count fuel b = length b.
Proof.
  revert fuel. induction b as [|c b IH]; intros fuel Hb Hf.
  - destruct fuel; reflexivity.
  - destruct fuel as [|fuel]; [simpl in Hf; lia|].
    cbn [forallb] in Hb. apply andb_prop in Hb. destruct Hb as [Hc Hb].
    apply andb_prop in Hc. destruct Hc as [Hlo Hhi].
    apply Z.leb_le in Hhi.
    cbn [utf8.count utf8.width].
    assert (Hlt : (c <? 0x80)%Z = true) by (apply Z.ltb_lt; lia).
    rewrite Hlt. cbn [skipn length]. f_equal. apply IH; auto. simpl in Hf. lia.
Qed.

Lemma printascii_runes (s : string) :
  validator.is_printascii s = true ->
  utf8.RuneCountInString s = length (bytes_of_string s).
Proof.
  intros H. unfold utf8.RuneCountInString. apply count_ascii; auto.
Qed.

(** X1: a password that passes the register handler's validation, the one
    that is hashed and stored, is at least 8 bytes long, all of them
    printable ASCII, and equals the confirmation. *)
Theorem registered_password_shape (ru : registerUserData) :
  validator.Struct (fields_registerUserData ru) = None ->
  (8 <= length (bytes_of_string (ru_Password ru)))%nat /\
  Forall (fun b => (0x20 <= b <= 0x7E)%Z) (bytes_of_string (ru_Password ru)) /\
  ru_ConfirmPassword ru = ru_Password ru.
Proof.
  intros H. apply register_valid_iff in H. destruct H as (_ & _ & Hp & Hc).
  unfold password_ok in Hp.
  apply andb_prop in Hp. destruct Hp as [Hp H8].
  apply andb_prop in Hp. destruct Hp as [_ Hascii].
  rewrite (printascii_runes _ Hascii) in H8. apply Nat.leb_le in H8.
  split; [exact H8|]. split; [|exact Hc].
  unfold validator.is_printascii in Hascii.
  rewrite forallb_forall in Hascii. apply Forall_forall. intros b Hb.
  specialize (Hascii b Hb). apply andb_prop in Hascii.
  destruct Hascii as [Hlo Hhi]. apply Z.leb_le in Hlo. apply Z.leb_le in Hhi. lia.
Qed.

Lemma registered_password_shape_witness :
  let ru := mkRegisterUserData "alice12" "Alice A." "Secret123!" "Secret123!" in
  (8 <= length (bytes_of_string (ru_Password ru)))%nat /\
  Forall (fun b => (0x20 <= b <= 0x7E)%Z) (bytes_of_string (ru_Password ru)) /\
  ru_ConfirmPassword ru = ru_Password ru.
Proof.
  intros ru. apply (registered_password_shape ru). vm_compute. reflexivity.
Defined.

(** X2: a username and password that pass the validation of the register,
    the create or the update handler pass the validation of the login
    handler: what can be stored as credentials can be submitted at login. *)
Theorem stored_credentials_pass_login_validation :
  (forall ru : registerUserData,
      validator.Struct (fields_registerUserData ru) = None ->
      validator.Struct
        (fields_loginUserData (mkLoginUserData (ru_Username ru) (ru_Password ru)))
      = None) /\
  (forall cu : createUserData,
      validator.Struct (fields_createUserData cu) = None ->
      validator.Struct
        (fields_loginUserData (mkLoginUserData (cu_Username cu) (cu_Password cu)))
      = None) /\
  (forall (ud : updateUserData) (lu : loginUserData),
      validator.Struct (fields_updateUserData ud) = None ->
      validator.Struct (fields_loginUserData lu) = None ->
      validator.Struct
        (fields_loginUserData
           (mkLoginUserData
              (match ud_Username ud with Some n => n | None => lu_Username lu end)
              (match ud_Password ud with Some p => p | None => lu_Password lu end)))
      = None).
Proof.
  split; [|split].
  - intros ru H. apply register_valid_iff in H. apply login_valid_iff. cbn. tauto.
  - intros cu H. apply create_valid_iff in H. apply login_valid_iff. cbn. tauto.
  - intros ud lu Hu Hl. apply update_valid_iff in Hu. apply login_valid_iff in Hl.
    apply login_valid_iff. cbn.
    destruct Hu as (Hn & _ & Hp). destruct Hl as (Hn' & Hp').
    destruct (ud_Username ud), (ud_Password ud); cbn in *; auto.
Qed.

Lemma stored_credentials_pass_login_validation_witness :
  validator.Struct (fields_loginUserData (mkLoginUserData "alice12" "Secret123!"))
  = None /\
  validator.Struct (fields_loginUserData (mkLoginUserData "alice99" "Secret123!"))
  = None.
Proof.
  destruct stored_credentials_pass_login_validation as (Hreg & _ & Hupd).
  split.
  - apply (Hreg (mkRegisterUserData "alice12" "Alice A." "Secret123!" "Secret123!")).
    vm_compute. reflexivity.
  - apply (Hupd (mkUpdateUserData (Some "alice99") None None)
                (mkLoginUserData "alice12" "Secret123!")).
    + vm_compute. reflexivity.
    + vm_compute. reflexivity.
Defined.

(** ** Requests that fail validation *)

Lemma respondInvalid_rejected {DB} (err : validator.Error) (s : St DB) :
  rejected s (snd (respondInvalid err s)).
Proof.
  unfold rejected. destruct err; monad_step; repeat (split; [reflexivity|]);
    eexists; (split; [reflexivity|]); intros status data; discriminate.
Qed.

(** X3: a request that fails validation is answered at once: the login,
    register, create and update handlers make no store call, read no
    clock, draw no salt, leave the database as it is and send one answer,
    which is not a success. *)
Theorem invalid_input_never_reaches_the_store
        (DB : Type) (queries : Queries DB) (now : nat -> Time)
        (entropy : nat -> option (nat -> Z))
        (UserToToken : User -> result string) (TokenPrefix : string)
        (SaltyPassword : bytes -> bytes -> bytes)
        (r : Request) (s : St DB) :
  (validator.Struct (fields_loginUserData (loginUserData_of r)) <> None ->
   rejected s (snd (handleLogin queries now UserToToken TokenPrefix r s))) /\
  (validator.Struct (fields_registerUserData (registerUserData_of r)) <> None ->
   rejected s (snd (handleRegister queries now entropy r s))) /\
  (validator.Struct (fields_createUserData (createUserData_of r)) <> None ->
   rejected s (snd (handleCreateUser queries now entropy SaltyPassword r s))) /\
  (updateUserData_is_zero (updateUserData_of r) = false ->
   validator.Struct (fields_updateUserData (updateUserData_of r)) <> None ->
   rejected s (snd (handleUpdateUser queries now SaltyPassword r s))).
Proof.
  split; [|split; [|split]].
  - intros H. unfold handleLogin. cbv zeta. fold (loginUserData_of r).
    destruct (validator.Struct (fields_loginUserData (loginUserData_of r)))
      as [err|]; [|contradiction].
    apply respondInvalid_rejected.
  - intros H. unfold handleRegister. cbv zeta. fold (registerUserData_of r).
    destruct (validator.Struct (fields_registerUserData (registerUserData_of r)))
      as [err|]; [|contradiction].
    apply respondInvalid_rejected.
  - intros H. unfold handleCreateUser. cbv zeta. fold (createUserData_of r).
    destruct (validator.Struct (fields_createUserData (createUserData_of r)))
      as [err|]; [|contradiction].
    apply respondInvalid_rejected.
  - intros Hz H. unfold handleUpdateUser. cbv zeta. fold (updateUserData_of r).
    rewrite Hz.
    destruct (validator.Struct (fields_updateUserData (updateUserData_of r)))
      as [err|]; [|contradiction].
    apply respondInvalid_rejected.
Qed.

Lemma invalid_input_never_reaches_the_store_witness :
  let s := scenario.start scenario.quiet in
  rejected s (snd (handleLogin memdb.queries scenario.now scenario.UserToToken
                               scenario.TokenPrefix
                               (scenario.login "alice12" "short") s)) /\
  rejected s (snd (handleUpdateUser memdb.queries scenario.now saltyPassword
                     (scenario.as_alice (scenario.body [("username", JString "al")]))
                     s)).
Proof.
  intros s.
  destruct (invalid_input_never_reaches_the_store
              memdb.DB memdb.queries scenario.now scenario.entropy
              scenario.UserToToken scenario.TokenPrefix saltyPassword
              (scenario.login "alice12" "short") s) as (Hlogin & _).
  destruct (invalid_input_never_reaches_the_store
              memdb.DB memdb.queries scenario.now scenario.entropy
              scenario.UserToToken scenario.TokenPrefix saltyPassword
              (scenario.as_alice (scenario.body [("username", JString "al")])) s)
    as (_ & _ & _ & Hupdate).
  split.
  - apply Hlogin. vm_compute. discriminate.
  - apply Hupdate; [reflexivity|]. lazy. discriminate.
Defined.

Lemma run_password_unconfirmed (fields : list Field) (pw confirm : string) :
  validator.lookup "ConfirmPassword" fields = Some (VString confirm) ->
  confirm <> pw ->
  exists tag,
    validator.run fields "Password" (VString pw)
                  [required; printascii; min 8; eqfield "ConfirmPassword"]
    = Some (mkFieldError "Password" tag).
Proof.
  intros Hl Hne. cbn [run passes has_value str]. rewrite Hl. cbn [str].
  destruct (negb (String.eqb pw "")); [|eexists; reflexivity].
  destruct (is_printascii pw); [|eexists; reflexivity].
  destruct (8 <=? utf8.RuneCountInString pw)%nat; [|eexists; reflexivity].
  destruct (String.eqb_spec pw confirm) as [E|E]; [congruence|].
  eexists; reflexivity.
Qed.

(** X4: a registration whose confirm_password differs from its password is
    answered with a validation failure that names the Password field, and
    nothing else happens: no lookup, no salt, no account. *)
Theorem register_rejects_unconfirmed_password
        (DB : Type) (queries : Queries DB) (now : nat -> Time)
        (entropy : nat -> option (nat -> Z)) (r : Request) (s : St DB) :
  ru_ConfirmPassword (registerUserData_of r) <> ru_Password (registerUserData_of r) ->
  exists (ve : list FieldError) (tag : string),
    In (mkFieldError "Password" tag) ve /\
    handleRegister queries now entropy r s
    = (Some tt,
       mkSt (db s) (calls s) (ticks s) (reads s)
            (written s ++ [ValidationFailure ve])%list (logged s)).
Proof.
  intros Hne. unfold handleRegister. cbv zeta. fold (registerUserData_of r).
  set (ru := registerUserData_of r) in *.
  destruct (run_password_unconfirmed
              (fields_registerUserData ru) (ru_Password ru) (ru_ConfirmPassword ru)
              eq_refl Hne) as [tag Htag].
  assert (Hin : In (mkFieldError "Password" tag)
                   (validator.violations (fields_registerUserData ru))).
  { unfold validator.violations, fields_registerUserData.
    cbn [flat_map Name Val Tags]. fold (fields_registerUserData ru).
    rewrite Htag. rewrite !in_app_iff. right. right. left. left. reflexivity. }
  unfold validator.Struct.
  destruct (validator.violations (fields_registerUserData ru)) as [|fe ve] eqn:E;
    [destruct Hin|].
  exists (fe :: ve), tag. split; [exact Hin|]. reflexivity.
Qed.

Lemma register_rejects_unconfirmed_password_witness :
  exists (ve : list FieldError) (tag : string),
    In (mkFieldError "Password" tag) ve /\
    handleRegister memdb.queries scenario.now scenario.entropy
                   (scenario.register "alice12" "Alice A." "Secret123!" "Secret124!")
                   (scenario.start scenario.empty)
    = (Some tt,
       mkSt scenario.empty [] 0 0 [ValidationFailure ve] []).
Proof.
  apply (register_rejects_unconfirmed_password
           memdb.DB memdb.queries scenario.now scenario.entropy
           (scenario.register "alice12" "Alice A." "Secret123!" "Secret124!")
           (scenario.start scenario.empty)).
  vm_compute. discriminate.
Defined.

(** ** The creating handlers, path by path *)

Section CreatePaths.

Variable DB : Type.
Variable queries : Queries DB.
Variable now : nat -> Time.
Variable entropy : nat -> option (nat -> Z).
Variable SaltyPassword : bytes -> bytes -> bytes.

Lemma handleRegister_taken (r : Request) (s : St DB) (u : User) (d1 : DB) :
  let ru := registerUserData_of r in
  validator.Struct (fields_registerUserData ru) = None ->
  qGetUserByName queries (ru_Username ru) (db s) = (Ok u, d1) ->
  handleRegister queries now entropy r s
  = (Some tt,
     mkSt d1 (calls s ++ [CallGetUserByName (ru_Username ru)])%list
          (ticks s) (reads s) (written s ++ [usernameTaken])%list (logged s)).
Proof.
  intros ru Hv Hg. unfold handleRegister. cbv zeta.
  fold (registerUserData_of r). fold ru. rewrite Hv.
  monad_step. rewrite Hg. reflexivity.
Qed.

Lemma handleRegister_no_entropy (r : Request) (s : St DB) (e0 : error) (d1 : DB) :
  let ru := registerUserData_of r in
  validator.Struct (fields_registerUserData ru) = None ->
  qGetUserByName queries (ru_Username ru) (db s) = (Err e0, d1) ->
  entropy (reads s) = None ->
  handleRegister queries now entropy r s
  = (Some tt,
     mkSt d1 (calls s ++ [CallGetUserByName (ru_Username ru)])%list
          (ticks s) (S (reads s)) (written s ++ [creationFailed])%list (logged s)).
Proof.
  intros ru Hv Hg He. unfold handleRegister. cbv zeta.
  fold (registerUserData_of r). fold ru. rewrite Hv.
  monad_step. rewrite Hg. fields_step. rewrite He. reflexivity.
Qed.

Lemma handleCreateUser_taken (r : Request) (s : St DB) (u : User) (d1 : DB) :
  let cu := createUserData_of r in
  validator.Struct (fields_createUserData cu) = None ->
  qGetUserByName queries (cu_Username cu) (db s) = (Ok u, d1) ->
  handleCreateUser queries now entropy SaltyPassword r s
  = (Some tt,
     mkSt d1 (calls s ++ [CallGetUserByName (cu_Username cu)])%list
          (ticks s) (reads s) (written s ++ [usernameTaken])%list (logged s)).
Proof.
  intros cu Hv Hg. unfold handleCreateUser. cbv zeta.
  fold (createUserData_of r). fold cu. rewrite Hv.
  monad_step. rewrite Hg. reflexivity.
Qed.

Lemma handleCreateUser_no_entropy (r : Request) (s : St DB) (e0 : error) (d1 : DB) :
  let cu := createUserData_of r in
  validator.Struct (fields_createUserData cu) = None ->
  qGetUserByName queries (cu_Username cu) (db s) = (Err e0, d1) ->
  entropy (reads s) = None ->
  handleCreateUser queries now entropy SaltyPassword r s
  = (Some tt,
     mkSt d1 (calls s ++ [CallGetUserByName (cu_Username cu)])%list
          (ticks s) (S (reads s)) (written s ++ [creationFailed])%list (logged s)).
Proof.
  intros cu Hv Hg He. unfold handleCreateUser. cbv zeta.
  fold (createUserData_of r). fold cu. rewrite Hv.
  monad_step. rewrite Hg. fields_step. rewrite He. reflexivity.
Qed.

Lemma handleCreateUser_creates (r : Request) (s : St DB) (e0 : error) (d1 d2 : DB)
      (gen : nat -> Z) (res : result User) :
  let cu := createUserData_of r in
  let arg := createParams SaltyPassword cu (fresh_salt gen)
                          (now (ticks s)) (now (S (ticks s))) in
  validator.Struct (fields_createUserData cu) = None ->
  qGetUserByName queries (cu_Username cu) (db s) = (Err e0, d1) ->
  entropy (reads s) = Some gen ->
  qCreateUser queries arg d1 = (res, d2) ->
  handleCreateUser queries now entropy SaltyPassword r s
  = (Some tt,
     mkSt d2
          (calls s ++ [CallGetUserByName (cu_Username cu)] ++ [CallCreateUser arg])%list
          (S (S (ticks s))) (S (reads s))
          (written s ++
             [match res with
              | Err _ => creationFailed
              | Ok user =>
                  Success StatusCreated
                    (marshal_PublicUserDetails
                       (mkPublicUserDetails (UserID user) (Username user)
                                            (DisplayName user) (CreatedAt user)
                                            0 Timestamp_zero))
              end])%list
          (logged s ++ match res with Err err => createErrorLog err | Ok _ => [] end)%list).
Proof.
  intros cu arg Hv Hg He Hc. unfold handleCreateUser. cbv zeta.
  fold (createUserData_of r). fold cu. rewrite Hv.
  unfold bind at 1. unfold GetUserByName, query. rewrite Hg.
  unfold bind at 1. rewrite rand_Read_make. fields_step. rewrite He. fields_step.
  monad_step.
  fold (createParams SaltyPassword cu (fresh_salt gen) (now (ticks s)) (now (S (ticks s)))).
  fold arg. rewrite Hc.
  destruct res as [user|err]; fields_step.
  - rewrite <- !app_assoc, app_nil_r. reflexivity.
  - destruct err; fields_step; rewrite <- ?app_assoc, ?app_nil_r; reflexivity.
Qed.

(** X5: when the pre-check lookup finds the username, the register and the
    create handler answer 406 "already exists" and stop: the lookup is the
    only store call, no salt is drawn, the clock is not read. *)
Theorem taken_username_stops_creation (r : Request) (s : St DB) (u : User) (d1 : DB) :
  (validator.Struct (fields_registerUserData (registerUserData_of r)) = None ->
   qGetUserByName queries (ru_Username (registerUserData_of r)) (db s) = (Ok u, d1) ->
   handleRegister queries now entropy r s
   = (Some tt,
      mkSt d1
           (calls s ++ [CallGetUserByName (ru_Username (registerUserData_of r))])%list
           (ticks s) (reads s)
           (written s ++
              [Failure 406 (JObject [("username", JString "already exists")])])%list
           (logged s))) /\
  (validator.Struct (fields_createUserData (createUserData_of r)) = None ->
   qGetUserByName queries (cu_Username (createUserData_of r)) (db s) = (Ok u, d1) ->
   handleCreateUser queries now entropy SaltyPassword r s
   = (Some tt,
      mkSt d1
           (calls s ++ [CallGetUserByName (cu_Username (createUserData_of r))])%list
           (ticks s) (reads s)
           (written s ++
              [Failure 406 (JObject [("username", JString "already exists")])])%list
           (logged s))).
Proof.
  split; intros Hv Hg.
  - exact (handleRegister_taken r s u d1 Hv Hg).
  - exact (handleCreateUser_taken r s u d1 Hv Hg).
Qed.

(** X6: when the random source fails, the register and the create handler
    answer 507 "could not create user at this moment" and no account is
    created: the pre-check lookup stays the only store call. *)
Theorem failed_salt_stops_creation (r : Request) (s : St DB) (e0 : error) (d1 : DB) :
  entropy (reads s) = None ->
  (validator.Struct (fields_registerUserData (registerUserData_of r)) = None ->
   qGetUserByName queries (ru_Username (registerUserData_of r)) (db s) = (Err e0, d1) ->
   handleRegister queries now entropy r s
   = (Some tt,
      mkSt d1
           (calls s ++ [CallGetUserByName (ru_Username (registerUserData_of r))])%list
           (ticks s) (S (reads s))
           (written s ++
              [Failure 507 (JString "could not create user at this moment")])%list
           (logged s))) /\
  (validator.Struct (fields_createUserData (createUserData_of r)) = None ->
   qGetUserByName queries (cu_Username (createUserData_of r)) (db s) = (Err e0, d1) ->
   handleCreateUser queries now entropy SaltyPassword r s
   = (Some tt,
      mkSt d1
           (calls s ++ [CallGetUserByName (cu_Username (createUserData_of r))])%list
           (ticks s) (S (reads s))
           (written s ++
              [Failure 507 (JString "could not create user at this moment")])%list
           (logged s))).
Proof.
  intros He. split; intros Hv Hg.
  - exact (handleRegister_no_entropy r s e0 d1 Hv Hg He).
  - exact (handleCreateUser_no_entropy r s e0 d1 Hv Hg He).
Qed.

End CreatePaths.

Lemma taken_username_stops_creation_witness :
  let r := scenario.register "alice12" "Alice Again" "Password1" "Password1" in
  let s := scenario.start scenario.quiet in
  written (snd (handleRegister memdb.queries scenario.now scenario.entropy r s))
  = [usernameTaken] /\
  written (snd (handleCreateUser memdb.queries scenario.now scenario.entropy
                                 saltyPassword r s))
  = [usernameTaken].
Proof.
  intros r s.
  destruct (taken_username_stops_creation
              memdb.DB memdb.queries scenario.now scenario.entropy saltyPassword
              r s scenario.alice scenario.quiet) as [Hreg Hcre].
  rewrite Hreg, Hcre; try reflexivity.
  split; reflexivity.
Defined.

Lemma failed_salt_stops_creation_witness :
  let r := scenario.register "carol77" "Carol C." "Password1" "Password1" in
  let s := scenario.start scenario.quiet in
  let dry (n : nat) : option (nat -> Z) := None in
  written (snd (handleRegister memdb.queries scenario.now dry r s))
  = [creationFailed] /\
  written (snd (handleCreateUser memdb.queries scenario.now dry saltyPassword r s))
  = [creationFailed].
Proof.
  intros r s dry.
  destruct (failed_salt_stops_creation
              memdb.DB memdb.queries scenario.now dry saltyPassword
              r s ErrNoRows scenario.quiet eq_refl) as [Hreg Hcre].
  rewrite Hreg, Hcre; try reflexivity.
  split; reflexivity.
Defined.

Lemma fresh_salt_length (gen : nat -> Z) : length (fresh_salt gen) = 128%nat.
Proof. unfold fresh_salt. now rewrite length_map, length_seq. Qed.

Lemma fresh_salt_bytes (gen : nat -> Z) :
  Forall (fun b => (0 <= b < 256)%Z) (fresh_salt gen).
Proof.
  unfold fresh_salt. apply Forall_forall. intros b Hb.
  apply in_map_iff in Hb. destruct Hb as (i & <- & _).
  apply Z.mod_pos_bound. lia.
Qed.

Lemma handleRegister_calls
      (DB : Type) (queries : Queries DB) (now : nat -> Time)
      (entropy : nat -> option (nat -> Z)) (r : Request) (s : St DB) :
  exists new,
    calls (snd (handleRegister queries now entropy r s)) = (calls s ++ new)%list /\
    creation_calls saltyPassword now s
                   (ru_Username (registerUserData_of r))
                   (ru_DisplayName (registerUserData_of r))
                   (ru_Password (registerUserData_of r)) new.
Proof.
  destruct (validator.Struct (fields_registerUserData (registerUserData_of r)))
    as [err|] eqn:Hv.
  { exists []. split; [|now left].
    unfold handleRegister. cbv zeta. fold (registerUserData_of r). rewrite Hv.
    rewrite app_nil_r. destruct err; reflexivity. }
  destruct (qGetUserByName queries (ru_Username (registerUserData_of r)) (db s))
    as [[u|e0] d1] eqn:Hg.
  { eexists. rewrite (handleRegister_taken DB queries now entropy r s u d1 Hv Hg).
    split; [reflexivity|]. right. now left. }
  destruct (entropy (reads s)) as [gen|] eqn:He.
  2:{ eexists.
      rewrite (handleRegister_no_entropy DB queries now entropy r s e0 d1 Hv Hg He).
      split; [reflexivity|]. right. now left. }
  destruct (qCreateUser queries
              (registerParams (registerUserData_of r) (fresh_salt gen)
                              (now (ticks s)) (now (S (ticks s)))) d1)
    as [res d2] eqn:Hc.
  eexists.
  rewrite (handleRegister_creates DB queries now entropy r s e0 d1 d2 gen res
                                  Hv Hg He Hc).
  split; [reflexivity|]. right. right.
  exists (fresh_salt gen).
  split; [apply fresh_salt_length|]. split; [apply fresh_salt_bytes|]. reflexivity.
Qed.

Lemma handleCreateUser_calls
      (DB : Type) (queries : Queries DB) (now : nat -> Time)
      (entropy : nat -> option (nat -> Z))
      (SaltyPassword : bytes -> bytes -> bytes) (r : Request) (s : St DB) :
  exists new,
    calls (snd (handleCreateUser queries now entropy SaltyPassword r s))
    = (calls s ++ new)%list /\
    creation_calls SaltyPassword now s
                   (cu_Username (createUserData_of r))
                   (cu_DisplayName (createUserData_of r))
                   (cu_Password (createUserData_of r)) new.
Proof.
  destruct (validator.Struct (fields_createUserData (createUserData_of r)))
    as [err|] eqn:Hv.
  { exists []. split; [|now left].
    unfold handleCreateUser. cbv zeta. fold (createUserData_of r). rewrite Hv.
    rewrite app_nil_r. destruct err; reflexivity. }
  destruct (qGetUserByName queries (cu_Username (createUserData_of r)) (db s))
    as [[u|e0] d1] eqn:Hg.
  { eexists.
    rewrite (handleCreateUser_taken DB queries now entropy SaltyPassword
                                    r s u d1 Hv Hg).
    split; [reflexivity|]. right. now left. }
  destruct (entropy (reads s)) as [gen|] eqn:He.
  2:{ eexists.
      rewrite (handleCreateUser_no_entropy DB queries now entropy SaltyPassword
                                           r s e0 d1 Hv Hg He).
      split; [reflexivity|]. right. now left. }
  destruct (qCreateUser queries
              (createParams SaltyPassword (createUserData_of r) (fresh_salt gen)
                            (now (ticks s)) (now (S (ticks s)))) d1)
    as [res d2] eqn:Hc.
  eexists.
  rewrite (handleCreateUser_creates DB queries now entropy SaltyPassword
                                    r s e0 d1 d2 gen res Hv Hg He Hc).
  split; [reflexivity|]. right. right.
  exists (fresh_salt gen).
  split; [apply fresh_salt_length|]. split; [apply fresh_salt_bytes|]. reflexivity.
Qed.

(** X7: the store calls of the register and of the create handler, on any
    request and any store: none, or the lookup of the requested username,
    or that lookup followed by one create of an account with the
    requested username and display name, a 128-byte salt and the hash of
    the submitted password under that salt.  A create is never made
    without the lookup before it. *)
Theorem creation_store_calls
        (DB : Type) (queries : Queries DB) (now : nat -> Time)
        (entropy : nat -> option (nat -> Z))
        (SaltyPassword : bytes -> bytes -> bytes) (r : Request) (s : St DB) :
  (exists new,
      calls (snd (handleRegister queries now entropy r s)) = (calls s ++ new)%list /\
      creation_calls saltyPassword now s
                     (ru_Username (registerUserData_of r))
                     (ru_DisplayName (registerUserData_of r))
                     (ru_Password (registerUserData_of r)) new) /\
  (exists new,
      calls (snd (handleCreateUser queries now entropy SaltyPassword r s))
      = (calls s ++ new)%list /\
      creation_calls SaltyPassword now s
                     (cu_Username (createUserData_of r))
                     (cu_DisplayName (createUserData_of r))
                     (cu_Password (createUserData_of r)) new).
Proof.
  split.
  - apply handleRegister_calls.
  - apply handleCreateUser_calls.
Qed.

(** X8: every account the register handler asks the store to create has a
    salt of 128 bytes and a password hash of 512 bytes. *)
Theorem registered_salt_and_hash_sizes
        (DB : Type) (queries : Queries DB) (now : nat -> Time)
        (entropy : nat -> option (nat -> Z)) (r : Request) (s : St DB)
        (before : list StoreCall) (arg : CreateUserParams) :
  calls (snd (handleRegister queries now entropy r s))
  = (calls s ++ before ++ [CallCreateUser arg])%list ->
  length (cup_PasswordSalt arg) = 128%nat /\
  length (cup_Password arg) = 512%nat.
Proof.
  intros H.
  destruct (handleRegister_calls DB queries now entropy r s)
    as (new & Hnew & Hshape).
  rewrite Hnew in H. apply app_inv_head in H. subst new.
  destruct Hshape as [E|[E|(salt & Hlen & _ & E)]].
  - destruct before; discriminate.
  - destruct before as [|c [|c' before]]; discriminate.
  - destruct before as [|c [|c' before]]; try discriminate.
    + injection E as _ E. subst arg. cbn. split; [exact Hlen|].
      apply saltyPassword_length.
    + destruct before; discriminate.
Qed.

Lemma registered_salt_and_hash_sizes_witness :
  let r := scenario.register "alice12" "Alice A." "Secret123!" "Secret123!" in
  let s := scenario.start scenario.empty in
  let arg := registerParams (registerUserData_of r) (fresh_salt (fun i => Z.of_nat i))
                            1000 1001 in
  length (cup_PasswordSalt arg) = 128%nat /\
  length (cup_Password arg) = 512%nat.
Proof.
  intros r s arg.
  apply (registered_salt_and_hash_sizes
           memdb.DB memdb.queries scenario.now scenario.entropy r s
           [CallGetUserByName "alice12"] arg).
  reflexivity.
Defined.

(** ** How many answers a request gets *)

Ltac answered := fields_step; split; [reflexivity | eexists; reflexivity].

Lemma respondInvalid_once {DB} (err : validator.Error) (s : St DB) :
  answers_once (respondInvalid err) s.
Proof. unfold answers_once. destruct err; monad_step; answered. Qed.

Lemma handleRegister_once
      (DB : Type) (queries : Queries DB) (now : nat -> Time)
      (entropy : nat -> option (nat -> Z)) (r : Request) (s : St DB) :
  answers_once (handleRegister queries now entropy r) s.
Proof.
  destruct (validator.Struct (fields_registerUserData (registerUserData_of r)))
    as [err|] eqn:Hv.
  { pose proof (respondInvalid_once err s) as H.
    unfold handleRegister. cbv zeta. fold (registerUserData_of r). rewrite Hv. exact H. }
  unfold answers_once.
  destruct (qGetUserByName queries (ru_Username (registerUserData_of r)) (db s))
    as [[u|e0] d1] eqn:Hg.
  { rewrite (handleRegister_taken DB queries now entropy r s u d1 Hv Hg). answered. }
  destruct (entropy (reads s)) as [gen|] eqn:He.
  2:{ rewrite (handleRegister_no_entropy DB queries now entropy r s e0 d1 Hv Hg He).
      answered. }
  destruct (qCreateUser queries
              (registerParams (registerUserData_of r) (fresh_salt gen)
                              (now (ticks s)) (now (S (ticks s)))) d1)
    as [res d2] eqn:Hc.
  rewrite (handleRegister_creates DB queries now entropy r s e0 d1 d2 gen res
                                  Hv Hg He Hc).
  answered.
Qed.

Lemma handleCreateUser_once
      (DB : Type) (queries : Queries DB) (now : nat -> Time)
      (entropy : nat -> option (nat -> Z))
      (SaltyPassword : bytes -> bytes -> bytes) (r : Request) (s : St DB) :
  answers_once (handleCreateUser queries now entropy SaltyPassword r) s.
Proof.
  destruct (validator.Struct (fields_createUserData (createUserData_of r)))
    as [err|] eqn:Hv.
  { pose proof (respondInvalid_once err s) as H.
    unfold handleCreateUser. cbv zeta. fold (createUserData_of r). rewrite Hv. exact H. }
  unfold answers_once.
  destruct (qGetUserByName queries (cu_Username (createUserData_of r)) (db s))
    as [[u|e0] d1] eqn:Hg.
  { rewrite (handleCreateUser_taken DB queries now entropy SaltyPassword r s u d1 Hv Hg).
    answered. }
  destruct (entropy (reads s)) as [gen|] eqn:He.
  2:{ rewrite (handleCreateUser_no_entropy DB queries now entropy SaltyPassword
                                           r s e0 d1 Hv Hg He).
      answered. }
  destruct (qCreateUser queries
              (createParams SaltyPassword (createUserData_of r) (fresh_salt gen)
                            (now (ticks s)) (now (S (ticks s)))) d1)
    as [res d2] eqn:Hc.
  rewrite (handleCreateUser_creates DB queries now entropy SaltyPassword
                                    r s e0 d1 d2 gen res Hv Hg He Hc).
  answered.
Qed.

Lemma handleUpdateUser_once
      (DB : Type) (queries : Queries DB) (now : nat -> Time)
      (SaltyPassword : bytes -> bytes -> bytes) (r : Request) (s : St DB) :
  answers_once (handleUpdateUser queries now SaltyPassword r) s.
Proof.
  unfold answers_once.
  destruct (updateUserData_is_zero (updateUserData_of r)) eqn:Hz.
  { rewrite (handleUpdateUser_nothing DB queries now SaltyPassword r s Hz). answered. }
  destruct (validator.Struct (fields_updateUserData (updateUserData_of r)))
    as [err|] eqn:Hv.
  { pose proof (respondInvalid_once err s) as H.
    unfold handleUpdateUser. cbv zeta. fold (updateUserData_of r).
    rewrite Hz, Hv. exact H. }
  destruct (qUpdateUserDetails queries
              (updateParams SaltyPassword (updateUserData_of r) (reqUser r)
                            (now (ticks s))) (db s))
    as [res d1] eqn:Hq.
  rewrite (handleUpdateUser_updates DB queries now SaltyPassword r s res d1 Hz Hv Hq).
  answered.
Qed.

Lemma handleDeleteUser_once
      (DB : Type) (queries : Queries DB) (r : Request) (s : St DB) :
  answers_once (handleDeleteUser queries r) s.
Proof.
  unfold answers_once.
  destruct (qDeleteUserDetails queries (PvtID (reqUser r)) (db s)) as [res d1] eqn:Hq.
  rewrite (handleDeleteUser_deletes queries r s res d1 Hq). answered.
Qed.

(** X9: the register, create, get-detail, update and delete handlers
    return on every request and every store, and send exactly one answer. *)
Theorem one_answer_per_request
        (DB : Type) (queries : Queries DB) (now : nat -> Time)
        (entropy : nat -> option (nat -> Z))
        (SaltyPassword : bytes -> bytes -> bytes) (r : Request) (s : St DB) :
  answers_once (handleRegister queries now entropy r) s /\
  answers_once (handleCreateUser queries now entropy SaltyPassword r) s /\
  answers_once (handleGetUserDetail r) s /\
  answers_once (handleUpdateUser queries now SaltyPassword r) s /\
  answers_once (handleDeleteUser queries r) s.
Proof.
  split; [apply handleRegister_once|].
  split; [apply handleCreateUser_once|].
  split; [unfold answers_once, handleGetUserDetail; monad_step; answered|].
  split; [apply handleUpdateUser_once|apply handleDeleteUser_once].
Qed.

(** X10: the login handler returns on every request and every store, having
    called the store at most twice (the lookup, then the timestamp update
    of the account the lookup found), drawn no salt and sent one answer,
    or two: the 507 failure of the timestamp update followed by the
    outcome of the token issuer. *)
Theorem login_answers_once_or_twice
        (DB : Type) (queries : Queries DB) (now : nat -> Time)
        (UserToToken : User -> result string) (TokenPrefix : string)
        (r : Request) (s : St DB) :
  let out := handleLogin queries now UserToToken TokenPrefix r s in
  let name := lu_Username (loginUserData_of r) in
  fst out = Some tt /\
  reads (snd out) = reads s /\
  (calls (snd out) = calls s \/
   calls (snd out) = (calls s ++ [CallGetUserByName name])%list \/
   exists u d1,
     qGetUserByName queries name (db s) = (Ok u, d1) /\
     calls (snd out)
     = (calls s ++ [ CallGetUserByName name;
                     CallUpdateLoggedInTime
                       (mkUpdateLoggedInTimeParams
                          (mkTimestamp (now (ticks s)) true) (PvtID u)) ])%list) /\
  exists x,
    written (snd out) = (written s ++ [x])%list \/
    written (snd out)
    = (written s ++ [Failure 507 (JString "could not login user at this time"); x])%list.
Proof.
  intros out name. subst out name.
  destruct (validator.Struct (fields_loginUserData (loginUserData_of r)))
    as [err|] eqn:Hv.
  { unfold handleLogin. cbv zeta. fold (loginUserData_of r). rewrite Hv.
    destruct err; monad_step; (repeat split; auto); eauto. }
  destruct (qGetUserByName queries (lu_Username (loginUserData_of r)) (db s))
    as [[u|e0] d1] eqn:Hg.
  2:{ rewrite (handleLogin_unknown_user DB queries now UserToToken TokenPrefix
                                        r s e0 d1 Hv Hg).
      fields_step. repeat split; auto. eauto. }
  destruct (subtle.ConstantTimeCompare
              (saltyPassword (bytes_of_string (lu_Password (loginUserData_of r)))
                             (PasswordSalt u))
              (Password u)) as [same|] eqn:Hc.
  2:{ destruct (ConstantTimeCompare_total
                  (saltyPassword (bytes_of_string (lu_Password (loginUserData_of r)))
                                 (PasswordSalt u))
                  (Password u)) as [x Hx].
      rewrite Hx in Hc. discriminate Hc. }
  destruct (Z.eq_dec same 1) as [->|Hne].
  - destruct (qUpdateLoggedInTime queries
                (mkUpdateLoggedInTimeParams (mkTimestamp (now (ticks s)) true) (PvtID u))
                d1) as [err d2] eqn:Hu.
    rewrite (handleLogin_verified DB queries now UserToToken TokenPrefix
                                  r s u d1 d2 err Hv Hg Hc Hu).
    fields_step. split; [reflexivity|]. split; [reflexivity|].
    split; [right; right; exists u, d1; split; reflexivity|].
    exists (afterToken UserToToken TokenPrefix u).
    destruct err; [right|left]; reflexivity.
  - rewrite (handleLogin_wrong_password DB queries now UserToToken TokenPrefix
                                        r s u d1 Hv Hg).
    + fields_step. repeat split; auto. eauto.
    + rewrite Hc. congruence.
Qed.

(** ** Login, once the password has verified *)

(** X11: a successful login answers 200 with the token, the username, the
    display name and the last_logged_in value the lookup returned, that
    is, the time of the login before this one (null at a first login),
    while the store has been asked to set it to the present instant. *)
Theorem login_answer_shows_previous_login
        (DB : Type) (queries : Queries DB) (now : nat -> Time)
        (UserToToken : User -> result string) (TokenPrefix : string)
        (r : Request) (s : St DB) (u : User) (d1 d2 : DB) (token : string) :
  let lu := loginUserData_of r in
  let stamp := mkUpdateLoggedInTimeParams (mkTimestamp (now (ticks s)) true) (PvtID u) in
  let s' := snd (handleLogin queries now UserToToken TokenPrefix r s) in
  validator.Struct (fields_loginUserData lu) = None ->
  qGetUserByName queries (lu_Username lu) (db s) = (Ok u, d1) ->
  subtle.ConstantTimeCompare
    (saltyPassword (bytes_of_string (lu_Password lu)) (PasswordSalt u))
    (Password u) = Some 1%Z ->
  qUpdateLoggedInTime queries stamp d1 = (None, d2) ->
  UserToToken u = Ok token ->
  calls s' = (calls s ++ [CallGetUserByName (lu_Username lu);
                          CallUpdateLoggedInTime stamp])%list /\
  exists answer,
    written s' = (written s ++ [Success 200 answer])%list /\
    json.keys answer
    = ["token"; "token_type"; "username"; "display_name"; "last_logged_in"] /\
    json.member "token" answer = Some (JString token) /\
    json.member "token_type" answer = Some (JString TokenPrefix) /\
    json.member "username" answer = Some (JString (Username u)) /\
    json.member "display_name" answer = Some (JString (DisplayName u)) /\
    json.member "last_logged_in" answer = Some (json.of_Timestamp (LastLoggedIn u)).
Proof.
  intros lu stamp s' Hv Hg Hc Hu Ht. subst s'.
  rewrite (handleLogin_verified DB queries now UserToToken TokenPrefix
                                r s u d1 d2 None Hv Hg Hc Hu).
  fields_step. unfold afterToken. rewrite Ht. split; [reflexivity|].
  eexists. split; [reflexivity|]. repeat split; reflexivity.
Qed.

Lemma login_answer_shows_previous_login_witness :
  let r := scenario.login "alice12" "Secret123!" in
  let s' := snd (handleLogin memdb.queries scenario.now scenario.UserToToken
                             scenario.TokenPrefix r (scenario.start scenario.quiet)) in
  (exists answer,
      written s' = [Success 200 answer] /\
      json.member "last_logged_in" answer = Some JNull) /\
  option_map LastLoggedIn (memdb.find_id 1 (memdb.rows (db s')))
  = Some (mkTimestamp 1000 true).
Proof.
  intros r s'.
  destruct (login_answer_shows_previous_login
              memdb.DB memdb.queries scenario.now scenario.UserToToken
              scenario.TokenPrefix r (scenario.start scenario.quiet)
              scenario.alice scenario.quiet
              (memdb.mkDB [memdb.set_LastLoggedIn (mkTimestamp 1000 true) scenario.alice]
                          2 [])
              "token-of-alice")
    as (_ & answer & Hw & _ & _ & _ & _ & _ & Hlast).
  - reflexivity.
  - reflexivity.
  - exact (ConstantTimeCompare_same _).
  - reflexivity.
  - reflexivity.
  - split.
    + exists answer. split; [exact Hw | exact Hlast].
    + subst s'.
      rewrite (handleLogin_verified
                 memdb.DB memdb.queries scenario.now scenario.UserToToken
                 scenario.TokenPrefix r (scenario.start scenario.quiet)
                 scenario.alice scenario.quiet
                 (memdb.mkDB
                    [memdb.set_LastLoggedIn (mkTimestamp 1000 true) scenario.alice] 2 [])
                 None).
      * reflexivity.
      * reflexivity.
      * reflexivity.
      * exact (ConstantTimeCompare_same _).
      * reflexivity.
Defined.

(** X12: when the password verifies but the token issuer fails, the caller
    gets 500 "could not login user at this time" and no token; the
    timestamp update has been made all the same, so the store records a
    login that the caller was refused. *)
Theorem login_without_token_still_stamps
        (DB : Type) (queries : Queries DB) (now : nat -> Time)
        (UserToToken : User -> result string) (TokenPrefix : string)
        (r : Request) (s : St DB) (u : User) (d1 d2 : DB) (e : error) :
  let lu := loginUserData_of r in
  let stamp := mkUpdateLoggedInTimeParams (mkTimestamp (now (ticks s)) true) (PvtID u) in
  let s' := snd (handleLogin queries now UserToToken TokenPrefix r s) in
  validator.Struct (fields_loginUserData lu) = None ->
  qGetUserByName queries (lu_Username lu) (db s) = (Ok u, d1) ->
  subtle.ConstantTimeCompare
    (saltyPassword (bytes_of_string (lu_Password lu)) (PasswordSalt u))
    (Password u) = Some 1%Z ->
  qUpdateLoggedInTime queries stamp d1 = (None, d2) ->
  UserToToken u = Err e ->
  written s'
  = (written s ++ [Failure 500 (JString "could not login user at this time")])%list /\
  calls s' = (calls s ++ [CallGetUserByName (lu_Username lu);
                          CallUpdateLoggedInTime stamp])%list /\
  db s' = d2.
Proof.
  intros lu stamp s' Hv Hg Hc Hu Ht. subst s'.
  rewrite (handleLogin_verified DB queries now UserToToken TokenPrefix
                                r s u d1 d2 None Hv Hg Hc Hu).
  fields_step. unfold afterToken. rewrite Ht. repeat split; reflexivity.
Qed.

Lemma login_without_token_still_stamps_witness :
  let r := scenario.login "alice12" "Secret123!" in
  let s' := snd (handleLogin memdb.queries scenario.now scenario2.NoToken
                             scenario.TokenPrefix r (scenario.start scenario.quiet)) in
  written s' = [Failure 500 (JString "could not login user at this time")] /\
  calls s' = [ CallGetUserByName "alice12";
               CallUpdateLoggedInTime
                 (mkUpdateLoggedInTimeParams (mkTimestamp 1000 true) 1) ] /\
  db s' = memdb.mkDB [memdb.set_LastLoggedIn (mkTimestamp 1000 true) scenario.alice]
                     2 [].
Proof.
  intros r.
  apply (login_without_token_still_stamps
           memdb.DB memdb.queries scenario.now scenario2.NoToken
           scenario.TokenPrefix r (scenario.start scenario.quiet)
           scenario.alice scenario.quiet
           (memdb.mkDB [memdb.set_LastLoggedIn (mkTimestamp 1000 true) scenario.alice]
                       2 [])
           (ErrOther "signing failed")).
  - reflexivity.
  - reflexivity.
  - exact (ConstantTimeCompare_same _).
  - reflexivity.
  - reflexivity.
Defined.

(** ** Update and delete act on the caller's account *)

(** X13: an update whose request has no password field (but some other
    field, and passes validation) makes one store call, and the hash that
    call carries is the one held by the account of the request's context:
    the handler derives no hash and writes the context's copy back,
    whatever the store holds by then. *)
Theorem update_without_password_sends_context_hash
        (DB : Type) (queries : Queries DB) (now : nat -> Time)
        (SaltyPassword : bytes -> bytes -> bytes) (r : Request) (s : St DB) :
  let ud := updateUserData_of r in
  let user := reqUser r in
  let s' := snd (handleUpdateUser queries now SaltyPassword r s) in
  ud_Password ud = None ->
  updateUserData_is_zero ud = false ->
  validator.Struct (fields_updateUserData ud) = None ->
  calls s'
  = (calls s ++
       [CallUpdateUserDetails
          (mkUpdateUserDetailsParams
             (match ud_Username ud with Some n => n | None => Username user end)
             (match ud_DisplayName ud with Some n => n | None => DisplayName user end)
             (Password user)
             (now (ticks s))
             (PvtID user))])%list.
Proof.
  intros ud user s' Hp Hz Hv. subst s'.
  destruct (qUpdateUserDetails queries
              (updateParams SaltyPassword ud user (now (ticks s))) (db s))
    as [res d'] eqn:Hq.
  rewrite (handleUpdateUser_updates DB queries now SaltyPassword r s res d' Hz Hv Hq).
  fields_step. unfold updateParams. fold ud. rewrite Hp. reflexivity.
Qed.

Lemma update_without_password_sends_context_hash_witness :
  let r := scenario.as_alice (scenario.body [("display_name", JString "Alice B.")]) in
  option_map Password (memdb.find_id 1 (memdb.rows scenario2.moved_on))
  = Some (saltyPassword (bytes_of_string "NewSecret1!") scenario.salt) /\
  calls (snd (handleUpdateUser memdb.queries scenario.now saltyPassword r
                               (scenario.start scenario2.moved_on)))
  = [ CallUpdateUserDetails
        (mkUpdateUserDetailsParams
           "alice12" "Alice B."
           (saltyPassword (bytes_of_string "Secret123!") scenario.salt)
           1000 1) ].
Proof.
  intros r. split; [reflexivity|].
  apply (update_without_password_sends_context_hash
           memdb.DB memdb.queries scenario.now saltyPassword r
           (scenario.start scenario2.moved_on)); reflexivity.
Defined.

(** X14: whatever the request body says, the update handler calls the store
    at most once, with an update keyed by the private identifier of the
    account in the request's context, the delete handler makes exactly
    one call, the delete of that identifier, and the get-detail handler
    makes none. *)
Theorem account_handlers_act_on_the_caller
        (DB : Type) (queries : Queries DB) (now : nat -> Time)
        (SaltyPassword : bytes -> bytes -> bytes) (r : Request) (s : St DB) :
  (calls (snd (handleUpdateUser queries now SaltyPassword r s)) = calls s \/
   exists arg,
     uup_PvtID arg = PvtID (reqUser r) /\
     calls (snd (handleUpdateUser queries now SaltyPassword r s))
     = (calls s ++ [CallUpdateUserDetails arg])%list) /\
  calls (snd (handleDeleteUser queries r s))
  = (calls s ++ [CallDeleteUserDetails (PvtID (reqUser r))])%list /\
  calls (snd (handleGetUserDetail r s)) = calls s.
Proof.
  split; [|split].
  - destruct (updateUserData_is_zero (updateUserData_of r)) eqn:Hz.
    { left. now rewrite (handleUpdateUser_nothing DB queries now SaltyPassword r s Hz). }
    destruct (validator.Struct (fields_updateUserData (updateUserData_of r)))
      as [err|] eqn:Hv.
    { left. unfold handleUpdateUser. cbv zeta. fold (updateUserData_of r).
      rewrite Hz, Hv. destruct err; reflexivity. }
    right.
    destruct (qUpdateUserDetails queries
                (updateParams SaltyPassword (updateUserData_of r) (reqUser r)
                              (now (ticks s))) (db s))
      as [res d'] eqn:Hq.
    rewrite (handleUpdateUser_updates DB queries now SaltyPassword r s res d' Hz Hv Hq).
    eexists. split; [|reflexivity]. reflexivity.
  - destruct (qDeleteUserDetails queries (PvtID (reqUser r)) (db s)) as [res d'] eqn:Hq.
    now rewrite (handleDeleteUser_deletes queries r s res d' Hq).
  - reflexivity.
Qed.

(** ** Answers of the five handlers that convert *)

Lemma public_PublicUserDetails (status : Z) (p : PublicUserDetails) :
  public_answer (Success status (marshal_PublicUserDetails p)).
Proof.
  split; [eexists; reflexivity|].
  intros k Hk. cbn in Hk. unfold public_keys. cbn.
  intuition auto.
Qed.

Lemma public_registerResponse (status : Z) (p : registerResponse) :
  public_answer (Success status (marshal_registerResponse p)).
Proof.
  split; [eexists; reflexivity|].
  intros k Hk. cbn in Hk. unfold public_keys. cbn.
  intuition auto.
Qed.

Lemma public_loginResponse (status : Z) (p : loginResponse) :
  public_answer (Success status (marshal_loginResponse p)).
Proof.
  split; [eexists; reflexivity|].
  intros k Hk. cbn in Hk. unfold public_keys. cbn.
  intuition auto.
Qed.

Lemma public_message (status : Z) (msg : string) :
  public_answer (Failure status (JString msg)).
Proof. left. eexists. reflexivity. Qed.

Lemma respondInvalid_public {DB} (err : validator.Error) (s : St DB) :
  exists x, written (snd (respondInvalid err s)) = (written s ++ [x])%list /\
            public_answer x.
Proof.
  destruct err; monad_step; eexists; (split; [reflexivity|]).
  - apply public_message.
  - exact I.
Qed.

Lemma handleRegister_public
      (DB : Type) (queries : Queries DB) (now : nat -> Time)
      (entropy : nat -> option (nat -> Z)) (r : Request) (s : St DB) :
  exists out,
    written (snd (handleRegister queries now entropy r s)) = (written s ++ out)%list /\
    Forall public_answer out.
Proof.
  destruct (validator.Struct (fields_registerUserData (registerUserData_of r)))
    as [err|] eqn:Hv.
  { destruct (respondInvalid_public err s) as (x & Hx & Hp).
    exists [x]. split; [|auto].
    unfold handleRegister. cbv zeta. fold (registerUserData_of r). rewrite Hv.
    exact Hx. }
  destruct (qGetUserByName queries (ru_Username (registerUserData_of r)) (db s))
    as [[u|e0] d1] eqn:Hg.
  { rewrite (handleRegister_taken DB queries now entropy r s u d1 Hv Hg).
    eexists. split; [reflexivity|]. constructor; [|constructor]. now right. }
  destruct (entropy (reads s)) as [gen|] eqn:He.
  2:{ rewrite (handleRegister_no_entropy DB queries now entropy r s e0 d1 Hv Hg He).
      eexists. split; [reflexivity|]. constructor; [|constructor].
      apply public_message. }
  destruct (qCreateUser queries
              (registerParams (registerUserData_of r) (fresh_salt gen)
                              (now (ticks s)) (now (S (ticks s)))) d1)
    as [res d2] eqn:Hc.
  rewrite (handleRegister_creates DB queries now entropy r s e0 d1 d2 gen res
                                  Hv Hg He Hc).
  eexists. split; [reflexivity|]. constructor; [|constructor].
  destruct res; [apply public_registerResponse|apply public_message].
Qed.

Lemma handleCreateUser_public
      (DB : Type) (queries : Queries DB) (now : nat -> Time)
      (entropy : nat -> option (nat -> Z))
      (SaltyPassword : bytes -> bytes -> bytes) (r : Request) (s : St DB) :
  exists out,
    written (snd (handleCreateUser queries now entropy SaltyPassword r s))
    = (written s ++ out)%list /\
    Forall public_answer out.
Proof.
  destruct (validator.Struct (fields_createUserData (createUserData_of r)))
    as [err|] eqn:Hv.
  { destruct (respondInvalid_public err s) as (x & Hx & Hp).
    exists [x]. split; [|auto].
    unfold handleCreateUser. cbv zeta. fold (createUserData_of r). rewrite Hv.
    exact Hx. }
  destruct (qGetUserByName queries (cu_Username (createUserData_of r)) (db s))
    as [[u|e0] d1] eqn:Hg.
  { rewrite (handleCreateUser_taken DB queries now entropy SaltyPassword r s u d1 Hv Hg).
    eexists. split; [reflexivity|]. constructor; [|constructor]. now right. }
  destruct (entropy (reads s)) as [gen|] eqn:He.
  2:{ rewrite (handleCreateUser_no_entropy DB queries now entropy SaltyPassword
                                           r s e0 d1 Hv Hg He).
      eexists. split; [reflexivity|]. constructor; [|constructor].
      apply public_message. }
  destruct (qCreateUser queries
              (createParams SaltyPassword (createUserData_of r) (fresh_salt gen)
                            (now (ticks s)) (now (S (ticks s)))) d1)
    as [res d2] eqn:Hc.
  rewrite (handleCreateUser_creates DB queries now entropy SaltyPassword
                                    r s e0 d1 d2 gen res Hv Hg He Hc).
  eexists. split; [reflexivity|]. constructor; [|constructor].
  destruct res; [apply public_PublicUserDetails|apply public_message].
Qed.

Lemma handleUpdateUser_public
      (DB : Type) (queries : Queries DB) (now : nat -> Time)
      (SaltyPassword : bytes -> bytes -> bytes) (r : Request) (s : St DB) :
  exists out,
    written (snd (handleUpdateUser queries now SaltyPassword r s))
    = (written s ++ out)%list /\
    Forall public_answer out.
Proof.
  destruct (updateUserData_is_zero (updateUserData_of r)) eqn:Hz.
  { rewrite (handleUpdateUser_nothing DB queries now SaltyPassword r s Hz).
    eexists. split; [reflexivity|]. constructor; [|constructor].
    apply public_PublicUserDetails. }
  destruct (validator.Struct (fields_updateUserData (updateUserData_of r)))
    as [err|] eqn:Hv.
  { destruct (respondInvalid_public err s) as (x & Hx & Hp).
    exists [x]. split; [|auto].
    unfold handleUpdateUser. cbv zeta. fold (updateUserData_of r).
    rewrite Hz, Hv. exact Hx. }
  destruct (qUpdateUserDetails queries
              (updateParams SaltyPassword (updateUserData_of r) (reqUser r)
                            (now (ticks s))) (db s))
    as [res d1] eqn:Hq.
  rewrite (handleUpdateUser_updates DB queries now SaltyPassword r s res d1 Hz Hv Hq).
  eexists. split; [reflexivity|]. constructor; [|constructor].
  destruct res; [apply public_PublicUserDetails|apply public_message].
Qed.

Lemma handleLogin_public
      (DB : Type) (queries : Queries DB) (now : nat -> Time)
      (UserToToken : User -> result string) (TokenPrefix : string)
      (r : Request) (s : St DB) :
  exists out,
    written (snd (handleLogin queries now UserToToken TokenPrefix r s))
    = (written s ++ out)%list /\
    Forall public_answer out.
Proof.
  destruct (validator.Struct (fields_loginUserData (loginUserData_of r)))
    as [err|] eqn:Hv.
  { destruct (respondInvalid_public err s) as (x & Hx & Hp).
    exists [x]. split; [|auto].
    unfold handleLogin. cbv zeta. fold (loginUserData_of r). rewrite Hv.
    exact Hx. }
  destruct (qGetUserByName queries (lu_Username (loginUserData_of r)) (db s))
    as [[u|e0] d1] eqn:Hg.
  2:{ rewrite (handleLogin_unknown_user DB queries now UserToToken TokenPrefix
                                        r s e0 d1 Hv Hg).
      eexists. split; [reflexivity|]. constructor; [|constructor].
      apply public_message. }
  destruct (subtle.ConstantTimeCompare
              (saltyPassword (bytes_of_string (lu_Password (loginUserData_of r)))
                             (PasswordSalt u))
              (Password u)) as [same|] eqn:Hc.
  2:{ destruct (ConstantTimeCompare_total
                  (saltyPassword (bytes_of_string (lu_Password (loginUserData_of r)))
                                 (PasswordSalt u))
                  (Password u)) as [x Hx].
      rewrite Hx in Hc. discriminate Hc. }
  destruct (Z.eq_dec same 1) as [->|Hne].
  - destruct (qUpdateLoggedInTime queries
                (mkUpdateLoggedInTimeParams (mkTimestamp (now (ticks s)) true) (PvtID u))
                d1) as [err d2] eqn:Hu.
    rewrite (handleLogin_verified DB queries now UserToToken TokenPrefix
                                  r s u d1 d2 err Hv Hg Hc Hu).
    eexists. split; [reflexivity|].
    apply Forall_app. split.
    + destruct err; cbn; [constructor; [apply public_message|constructor]|constructor].
    + constructor; [|constructor]. unfold afterToken.
      destruct (UserToToken u); [apply public_loginResponse|apply public_message].
  - rewrite (handleLogin_wrong_password DB queries now UserToToken TokenPrefix
                                        r s u d1 Hv Hg).
    + eexists. split; [reflexivity|]. constructor; [|constructor].
      apply public_message.
    + rewrite Hc. congruence.
Qed.

(** X15: on every request and every store, whatever the login, register,
    create, get-detail and update handlers send is public: a success is an
    object with no member beyond token, token_type, user_id, username,
    display_name, created_at, updated_at and last_logged_in (no password
    hash, no salt, no private identifier), and a failure is a plain
    message or the username conflict. *)
Theorem converting_handlers_answer_public_fields_only
        (DB : Type) (queries : Queries DB) (now : nat -> Time)
        (entropy : nat -> option (nat -> Z))
        (UserToToken : User -> result string) (TokenPrefix : string)
        (SaltyPassword : bytes -> bytes -> bytes) (r : Request) (s : St DB) :
  let sends (h : M DB unit) : Prop :=
    exists out, written (snd (h s)) = (written s ++ out)%list /\
                Forall public_answer out in
  sends (handleLogin queries now UserToToken TokenPrefix r) /\
  sends (handleRegister queries now entropy r) /\
  sends (handleCreateUser queries now entropy SaltyPassword r) /\
  sends (handleGetUserDetail r) /\
  sends (handleUpdateUser queries now SaltyPassword r).
Proof.
  intros sends. subst sends. cbv beta.
  split; [apply handleLogin_public|].
  split; [apply handleRegister_public|].
  split; [apply handleCreateUser_public|].
  split; [|apply handleUpdateUser_public].
  unfold handleGetUserDetail. monad_step.
  eexists. split; [reflexivity|]. constructor; [|constructor].
  apply public_PublicUserDetails.
Qed.

(** ** From one request to the next *)

Lemma handleRegister_create_means_valid
      (DB : Type) (queries : Queries DB) (now : nat -> Time)
      (entropy : nat -> option (nat -> Z)) (r : Request) (s : St DB)
      (before : list StoreCall) (arg : CreateUserParams) :
  calls (snd (handleRegister queries now entropy r s))
  = (calls s ++ before ++ [CallCreateUser arg])%list ->
  validator.Struct (fields_registerUserData (registerUserData_of r)) = None /\
  cup_Username arg = ru_Username (registerUserData_of r) /\
  cup_Password arg
  = saltyPassword (bytes_of_string (ru_Password (registerUserData_of r)))
                  (cup_PasswordSalt arg).
Proof.
  intros H.
  destruct (validator.Struct (fields_registerUserData (registerUserData_of r)))
    as [err|] eqn:Hv.
  { exfalso. revert H. unfold handleRegister. cbv zeta.
    fold (registerUserData_of r). rewrite Hv.
    rewrite <- (app_nil_r (calls s)) at 1.
    destruct err; monad_step; rewrite app_nil_r; intros H;
      rewrite <- (app_nil_r (calls s)) in H at 1;
      apply app_inv_head in H; destruct before; discriminate. }
  split; [reflexivity|].
  destruct (handleRegister_calls DB queries now entropy r s) as (new & Hnew & Hshape).
  rewrite Hnew in H. apply app_inv_head in H. subst new.
  destruct Hshape as [E|[E|(salt & _ & _ & E)]].
  - destruct before; discriminate.
  - destruct before as [|c [|c' before]]; discriminate.
  - destruct before as [|c [|c' before]]; try discriminate.
    + injection E as _ E. subst arg. split; reflexivity.
    + destruct before; discriminate.
Qed.

(** X16: the account the register handler has asked the store to create can
    log in: when a later login submits the same username and password and
    the lookup returns an account with the hash and salt of that create,
    the password verifies, and the answer is the token issuer's outcome
    (after the 507 of a failed timestamp update, if that fails), never
    the invalid-credentials failure. *)
Theorem registered_account_can_log_in
        (DB : Type) (queries : Queries DB) (now : nat -> Time)
        (entropy : nat -> option (nat -> Z))
        (UserToToken : User -> result string) (TokenPrefix : string)
        (r : Request) (s : St DB) (before : list StoreCall) (arg : CreateUserParams)
        (r' : Request) (s' : St DB) (u : User) (d1 d2 : DB) (err : option error) :
  let lu := loginUserData_of r' in
  let stamp := mkUpdateLoggedInTimeParams (mkTimestamp (now (ticks s')) true)
                                          (PvtID u) in
  calls (snd (handleRegister queries now entropy r s))
  = (calls s ++ before ++ [CallCreateUser arg])%list ->
  lu_Username lu = ru_Username (registerUserData_of r) ->
  lu_Password lu = ru_Password (registerUserData_of r) ->
  qGetUserByName queries (lu_Username lu) (db s') = (Ok u, d1) ->
  Password u = cup_Password arg ->
  PasswordSalt u = cup_PasswordSalt arg ->
  qUpdateLoggedInTime queries stamp d1 = (err, d2) ->
  written (snd (handleLogin queries now UserToToken TokenPrefix r' s'))
  = (written s' ++ afterTimestamp err ++ [afterToken UserToToken TokenPrefix u])%list.
Proof.
  intros lu stamp Hcalls Hn Hp Hg Hhash Hsalt Hu.
  destruct (handleRegister_create_means_valid DB queries now entropy r s before arg
                                              Hcalls) as (Hv & _ & Harg).
  assert (Hv' : validator.Struct (fields_loginUserData lu) = None).
  { apply register_valid_iff in Hv. apply login_valid_iff.
    rewrite Hn, Hp. tauto. }
  assert (Hc : subtle.ConstantTimeCompare
                 (saltyPassword (bytes_of_string (lu_Password lu)) (PasswordSalt u))
                 (Password u) = Some 1%Z).
  { rewrite Hhash, Hsalt, Hp, Harg. apply ConstantTimeCompare_same. }
  now rewrite (handleLogin_verified DB queries now UserToToken TokenPrefix
                                    r' s' u d1 d2 err Hv' Hg Hc Hu).
Qed.

Lemma registered_account_can_log_in_witness :
  let r := scenario.register "alice12" "Alice A." "Secret123!" "Secret123!" in
  let s := scenario.start scenario.empty in
  let s' := snd (handleRegister memdb.queries scenario.now scenario.entropy r s) in
  exists answer,
    written (snd (handleLogin memdb.queries scenario.now scenario.UserToToken
                              scenario.TokenPrefix
                              (scenario.login "alice12" "Secret123!") s'))
    = (written s' ++ [Success 200 answer])%list /\
    json.member "token" answer = Some (JString "token-of-alice").
Proof.
  intros r s s'.
  eexists. split.
  - eapply (registered_account_can_log_in
              memdb.DB memdb.queries scenario.now scenario.entropy
              scenario.UserToToken scenario.TokenPrefix
              r s [CallGetUserByName "alice12"]
              (registerParams (registerUserData_of r) (fresh_salt (fun i => Z.of_nat i))
                              1000 1001)
              (scenario.login "alice12" "Secret123!") s'
              (mkUser 1 (memdb.uuid_of 1) "alice12" "Alice A."
                      (saltyPassword (bytes_of_string "Secret123!")
                                     (fresh_salt (fun i => Z.of_nat i)))
                      (fresh_salt (fun i => Z.of_nat i)) 1000 1001 Timestamp_zero)
              _ _ None); lazy; reflexivity.
  - reflexivity.
Defined.

(** X17: after a password change the new password logs in: when the update
    handler has rehashed a supplied password, the auth package's hasher
    being the derivation of saltyPassword, and a later login submits that
    password and gets from the lookup an account with the hash of the
    update call and the salt it had, the password verifies. *)
Theorem changed_password_can_log_in
        (DB : Type) (queries : Queries DB) (now : nat -> Time)
        (UserToToken : User -> result string) (TokenPrefix : string)
        (SaltyPassword : bytes -> bytes -> bytes)
        (r : Request) (s : St DB) (arg : UpdateUserDetailsParams) (p : string)
        (r' : Request) (s' : St DB) (u : User) (d1 d2 : DB) (err : option error) :
  let lu := loginUserData_of r' in
  let stamp := mkUpdateLoggedInTimeParams (mkTimestamp (now (ticks s')) true)
                                          (PvtID u) in
  (forall pw salt, SaltyPassword pw salt = saltyPassword pw salt) ->
  ud_Password (updateUserData_of r) = Some p ->
  calls (snd (handleUpdateUser queries now SaltyPassword r s))
  = (calls s ++ [CallUpdateUserDetails arg])%list ->
  validator.Struct (fields_loginUserData lu) = None ->
  lu_Password lu = p ->
  qGetUserByName queries (lu_Username lu) (db s') = (Ok u, d1) ->
  Password u = uup_Password arg ->
  PasswordSalt u = PasswordSalt (reqUser r) ->
  qUpdateLoggedInTime queries stamp d1 = (err, d2) ->
  written (snd (handleLogin queries now UserToToken TokenPrefix r' s'))
  = (written s' ++ afterTimestamp err ++ [afterToken UserToToken TokenPrefix u])%list.
Proof.
  intros lu stamp HS Hp Hcalls Hv' Hlp Hg Hhash Hsalt Hu.
  assert (Harg : uup_Password arg
                 = saltyPassword (bytes_of_string p) (PasswordSalt (reqUser r))).
  { destruct (updateUserData_is_zero (updateUserData_of r)) eqn:Hz.
    { unfold updateUserData_is_zero in Hz. rewrite Hp in Hz.
      destruct (ud_Username (updateUserData_of r)),
               (ud_DisplayName (updateUserData_of r)); discriminate. }
    destruct (validator.Struct (fields_updateUserData (updateUserData_of r)))
      as [e|] eqn:Hv.
    { exfalso. revert Hcalls. unfold handleUpdateUser. cbv zeta.
      fold (updateUserData_of r). rewrite Hz, Hv.
      destruct e; monad_step; intros H;
        rewrite <- (app_nil_r (calls s)) in H at 1;
        apply app_inv_head in H; discriminate. }
    destruct (qUpdateUserDetails queries
                (updateParams SaltyPassword (updateUserData_of r) (reqUser r)
                              (now (ticks s))) (db s)) as [res d'] eqn:Hq.
    rewrite (handleUpdateUser_updates DB queries now SaltyPassword r s res d' Hz Hv Hq)
      in Hcalls.
    fields_step. cbn [snd calls] in Hcalls. apply app_inv_head in Hcalls.
    injection Hcalls as <-. unfold updateParams. cbn. rewrite Hp. apply HS. }
  assert (Hc : subtle.ConstantTimeCompare
                 (saltyPassword (bytes_of_string (lu_Password lu)) (PasswordSalt u))
                 (Password u) = Some 1%Z).
  { rewrite Hhash, Hsalt, Hlp, Harg. apply ConstantTimeCompare_same. }
  now rewrite (handleLogin_verified DB queries now UserToToken TokenPrefix
                                    r' s' u d1 d2 err Hv' Hg Hc Hu).
Qed.

Lemma changed_password_can_log_in_witness :
  let r := scenario.as_alice (scenario.body [("password", JString "NewSecret1!")]) in
  let s := scenario.start scenario.quiet in
  let s' := snd (handleUpdateUser memdb.queries scenario.now saltyPassword r s) in
  exists answer,
    written (snd (handleLogin memdb.queries scenario.now scenario.UserToToken
                              scenario.TokenPrefix
                              (scenario.login "alice12" "NewSecret1!") s'))
    = (written s' ++ [Success 200 answer])%list /\
    json.member "token" answer = Some (JString "token-of-alice").
Proof.
  intros r s s'.
  eexists. split.
  - eapply (changed_password_can_log_in
              memdb.DB memdb.queries scenario.now
              scenario.UserToToken scenario.TokenPrefix saltyPassword
              r s
              (mkUpdateUserDetailsParams
                 "alice12" "Alice A."
                 (saltyPassword (bytes_of_string "NewSecret1!") scenario.salt)
                 1000 1)
              "NewSecret1!"
              (scenario.login "alice12" "NewSecret1!") s'
              (mkUser 1 (memdb.uuid_of 1) "alice12" "Alice A."
                      (saltyPassword (bytes_of_string "NewSecret1!") scenario.salt)
                      scenario.salt 1000 1000 Timestamp_zero)
              _ _ None); lazy; reflexivity.
  - reflexivity.
Defined.

(** ** The message queries *)

Lemma filter_none {A} (f : A -> bool) (l : list A) :
  Forall (fun x => f x = false) l -> filter f l = [].
Proof.
  induction 1 as [|x l Hx _ IH]; simpl; auto. now rewrite Hx.
Qed.

Lemma filter_nil_iff {A} (f : A -> bool) (l : list A) :
  filter f l = [] <-> forall x, In x l -> f x = false.
Proof.
  induction l as [|a l IH]; simpl.
  - split; [intros _ x []|reflexivity].
  - destruct (f a) eqn:E; split.
    + discriminate.
    + intros H. specialize (H a (or_introl eq_refl)). congruence.
    + intros H x [<-|Hx]; [exact E|]. now apply IH.
    + intros H. apply IH. intros x Hx. apply H. now right.
Qed.

Lemma joined_In (t : messages.Tables) (id : Z) (row : messages.GetMessageByIdRow) :
  In row (messages.joined t id) <->
  exists mm mtm mt,
    In mm (messages.message_meta t) /\
    In mtm (messages.message_type_meta t) /\
    In mt (messages.message_text t) /\
    messages.mm_mssg_id mm = id /\
    messages.mtm_mssg_id mtm = id /\
    messages.mt_mssg_id mt = id /\
    row = messages.mkGetMessageByIdRow mm (messages.mtm_mssg_type mtm)
                                       (messages.mtm_attach_mssg_id mtm)
                                       (messages.mt_mssg_body mt).
Proof.
  unfold messages.joined. rewrite in_flat_map. split.
  - intros (mm & Hmm & H). apply filter_In in Hmm. destruct Hmm as [Hmm Hid].
    apply Z.eqb_eq in Hid.
    apply in_flat_map in H. destruct H as (mtm & Hmtm & H).
    apply filter_In in Hmtm. destruct Hmtm as [Hmtm Hid2]. apply Z.eqb_eq in Hid2.
    apply in_map_iff in H. destruct H as (mt & Hrow & Hmt).
    apply filter_In in Hmt. destruct Hmt as [Hmt Hid3]. apply Z.eqb_eq in Hid3.
    exists mm, mtm, mt. repeat split; auto; congruence.
  - intros (mm & mtm & mt & Hmm & Hmtm & Hmt & Hid & Hid2 & Hid3 & ->).
    exists mm. split.
    + apply filter_In. split; [exact Hmm|]. now apply Z.eqb_eq.
    + apply in_flat_map. exists mtm. split.
      * apply filter_In. split; [exact Hmtm|]. apply Z.eqb_eq. congruence.
      * apply in_map_iff. exists mt. split; [reflexivity|].
        apply filter_In. split; [exact Hmt|]. apply Z.eqb_eq. congruence.
Qed.

(** X18: GetMessageById finds a message exactly when each of the three
    tables has a row with that mssg_id, and the row it returns is put
    together from three such rows; a message with no type row or no text
    row is not found. *)
Theorem GetMessageById_needs_all_three_rows (t : messages.Tables) (id : Z) :
  (forall row,
      messages.GetMessageById t id = Ok row ->
      exists mm mtm mt,
        In mm (messages.message_meta t) /\
        In mtm (messages.message_type_meta t) /\
        In mt (messages.message_text t) /\
        messages.mm_mssg_id mm = id /\
        messages.mtm_mssg_id mtm = id /\
        messages.mt_mssg_id mt = id /\
        row = messages.mkGetMessageByIdRow mm (messages.mtm_mssg_type mtm)
                                           (messages.mtm_attach_mssg_id mtm)
                                           (messages.mt_mssg_body mt)) /\
  (messages.GetMessageById t id = Err ErrNoRows <->
   (forall mm, In mm (messages.message_meta t) -> messages.mm_mssg_id mm <> id) \/
   (forall mtm, In mtm (messages.message_type_meta t) ->
                messages.mtm_mssg_id mtm <> id) \/
   (forall mt, In mt (messages.message_text t) -> messages.mt_mssg_id mt <> id)).
Proof.
  split.
  - intros row H. unfold messages.GetMessageById in H.
    destruct (messages.joined t id) as [|row' rest] eqn:E; [discriminate|].
    injection H as <-. apply (joined_In t id). rewrite E. now left.
  - unfold messages.GetMessageById.
    destruct (messages.joined t id) as [|row' rest] eqn:E.
    + split; [intros _|reflexivity].
      destruct (filter (fun mm => (messages.mm_mssg_id mm =? id)%Z)
                       (messages.message_meta t)) as [|mm ms] eqn:Em.
      { left. intros mm Hmm Hid.
        pose proof (proj1 (filter_nil_iff _ _) Em mm Hmm) as Hf.
        apply Z.eqb_neq in Hf. contradiction. }
      destruct (filter (fun mtm => (messages.mtm_mssg_id mtm =? id)%Z)
                       (messages.message_type_meta t)) as [|mtm mtms] eqn:Et.
      { right. left. intros mtm Hmtm Hid.
        pose proof (proj1 (filter_nil_iff _ _) Et mtm Hmtm) as Hf.
        apply Z.eqb_neq in Hf. contradiction. }
      right. right. intros mt Hmt Hid.
      assert (Hmm : In mm (filter (fun mm => (messages.mm_mssg_id mm =? id)%Z)
                                  (messages.message_meta t)))
        by (rewrite Em; now left).
      assert (Hmtm : In mtm (filter (fun mtm => (messages.mtm_mssg_id mtm =? id)%Z)
                                    (messages.message_type_meta t)))
        by (rewrite Et; now left).
      apply filter_In in Hmm. destruct Hmm as [Hmm Hi1]. apply Z.eqb_eq in Hi1.
      apply filter_In in Hmtm. destruct Hmtm as [Hmtm Hi2]. apply Z.eqb_eq in Hi2.
      assert (Hin : In (messages.mkGetMessageByIdRow
                          mm (messages.mtm_mssg_type mtm)
                          (messages.mtm_attach_mssg_id mtm)
                          (messages.mt_mssg_body mt))
                       (messages.joined t id)).
      { apply joined_In. exists mm, mtm, mt. repeat split; auto. }
      rewrite E in Hin. destruct Hin.
    + split; [discriminate|]. intros H. exfalso.
      assert (Hin : In row' (messages.joined t id)) by (rewrite E; now left).
      apply joined_In in Hin.
      destruct Hin as (mm & mtm & mt & Hmm & Hmtm & Hmt & Hi1 & Hi2 & Hi3 & _).
      destruct H as [H|[H|H]]; [apply (H mm)|apply (H mtm)|apply (H mt)]; auto.
Qed.

Lemma filter_last_out {A} (f : A -> bool) (l : list A) (x : A) :
  f x = false -> filter f (l ++ [x]) = filter f l.
Proof. intros H. rewrite filter_app. simpl. rewrite H. apply app_nil_r. Qed.

Lemma filter_last_in {A} (f : A -> bool) (l : list A) (x : A) :
  f x = true -> filter f (l ++ [x]) = (filter f l ++ [x])%list.
Proof. intros H. rewrite filter_app. simpl. now rewrite H. Qed.

Lemma flat_map_ext_In {A B} (f g : A -> list B) (l : list A) :
  (forall a, In a l -> f a = g a) -> flat_map f l = flat_map g l.
Proof.
  induction l as [|a l IH]; simpl; intros H; auto.
  rewrite (H a (or_introl eq_refl)). f_equal. apply IH. intros b Hb. apply H. now right.
Qed.

(** The join for [id'] does not see rows carrying another id. *)
Lemma joined_other (t : messages.Tables) (id' : Z)
      (mms : list messages.MessageMeta) (mtms : list messages.MessageTypeMeta)
      (mts : list messages.MessageText) :
  Forall (fun mm => messages.mm_mssg_id mm <> id') mms ->
  Forall (fun mtm => messages.mtm_mssg_id mtm <> id') mtms ->
  Forall (fun mt => messages.mt_mssg_id mt <> id') mts ->
  messages.joined
    (messages.mkTables (messages.message_meta t ++ mms)
                       (messages.message_type_meta t ++ mtms)
                       (messages.message_text t ++ mts)) id'
  = messages.joined t id'.
Proof.
  intros Hm Ht Hx. unfold messages.joined. cbn [messages.message_meta
    messages.message_type_meta messages.message_text].
  rewrite filter_app.
  rewrite (filter_none _ mms), app_nil_r.
  2:{ eapply Forall_impl; [|exact Hm]. intros mm H. now apply Z.eqb_neq. }
  apply flat_map_ext_In. intros mm Hmm.
  apply filter_In in Hmm. destruct Hmm as [_ Hid]. apply Z.eqb_eq in Hid.
  rewrite !filter_app.
  rewrite (filter_none _ mtms).
  2:{ eapply Forall_impl; [|exact Ht]. intros mtm H. apply Z.eqb_neq. congruence. }
  rewrite (filter_none _ mts).
  2:{ eapply Forall_impl; [|exact Hx]. intros mt H. apply Z.eqb_neq. congruence. }
  rewrite !app_nil_r. reflexivity.
Qed.

(** X19: a message is found once it is complete: after CreateMessage has
    given a new message an unused mssg_id, GetMessageById does not find
    it, nor after CreateMessageType; after CreateMessageText it returns
    the row put together from the three inserts.  The lookups of other
    ids are as before the inserts. *)
Theorem message_found_once_complete
        (t : messages.Tables) (id : Z) (arg : messages.CreateMessageParams)
        (mssg_type : string) (attach_mssg_id : option Z) (mssg_body : string) :
  let mm := fst (messages.CreateMessage id arg t) in
  let t1 := snd (messages.CreateMessage id arg t) in
  let t2 := snd (messages.CreateMessageType
                   (messages.mkMessageTypeMeta id mssg_type attach_mssg_id) t1) in
  let t3 := snd (messages.CreateMessageText
                   (messages.mkMessageText id mssg_body) t2) in
  messages.unused id t ->
  messages.GetMessageById t1 id = Err ErrNoRows /\
  messages.GetMessageById t2 id = Err ErrNoRows /\
  messages.GetMessageById t3 id
  = Ok (messages.mkGetMessageByIdRow mm mssg_type attach_mssg_id mssg_body) /\
  messages.mm_mssg_id mm = id /\
  forall id', id' <> id ->
              messages.GetMessageById t3 id' = messages.GetMessageById t id'.
Proof.
  intros mm t1 t2 t3 (Hm & Ht & Hx).
  assert (Fm : filter (fun mm => (messages.mm_mssg_id mm =? id)%Z)
                      (messages.message_meta t) = []).
  { apply filter_none. eapply Forall_impl; [|exact Hm].
    intros x H. now apply Z.eqb_neq. }
  assert (Ft : filter (fun mtm => (messages.mtm_mssg_id mtm =? id)%Z)
                      (messages.message_type_meta t) = []).
  { apply filter_none. eapply Forall_impl; [|exact Ht].
    intros x H. now apply Z.eqb_neq. }
  assert (Fx : filter (fun mt => (messages.mt_mssg_id mt =? id)%Z)
                      (messages.message_text t) = []).
  { apply filter_none. eapply Forall_impl; [|exact Hx].
    intros x H. now apply Z.eqb_neq. }
  subst mm t1 t2 t3.
  unfold messages.GetMessageById, messages.joined, messages.CreateMessage,
    messages.CreateMessageType, messages.CreateMessageText.
  cbn [fst snd messages.message_meta messages.message_type_meta
       messages.message_text].
  rewrite !filter_last_in by (cbn; apply Z.eqb_refl).
  rewrite Fm. cbn [app flat_map messages.mm_mssg_id].
  rewrite !filter_last_in by (cbn; apply Z.eqb_refl).
  rewrite Ft, Fx. cbn.
  repeat split; try reflexivity.
  intros id' Hne.
  change (match messages.joined
                  (messages.mkTables
                     (messages.message_meta t
                      ++ [messages.mkMessageMeta
                            id (messages.cm_from_pvt_id arg) (messages.cm_to_pvt_id arg)
                            (messages.cm_mssg_status arg) (messages.cm_created_at arg)
                            (messages.cm_updated_at arg)])
                     (messages.message_type_meta t
                      ++ [messages.mkMessageTypeMeta id mssg_type attach_mssg_id])
                     (messages.message_text t ++ [messages.mkMessageText id mssg_body]))
                  id'
          with
          | [] => Err ErrNoRows
          | row :: _ => Ok row
          end
          = match messages.joined t id' with
            | [] => Err ErrNoRows
            | row :: _ => Ok row
            end).
  rewrite joined_other; [reflexivity| | |];
    (constructor; [cbn; congruence|constructor]).
Qed.

Lemma message_found_once_complete_witness :
  let t := messages.mkTables
             [messages.mkMessageMeta 1 1 2 "sent" 1000 1000]
             [messages.mkMessageTypeMeta 1 "text" None]
             [messages.mkMessageText 1 "hello"] in
  let arg := messages.mkCreateMessageParams 2 1 "sent" 1005 1005 in
  let t1 := snd (messages.CreateMessage 2 arg t) in
  let t2 := snd (messages.CreateMessageType
                   (messages.mkMessageTypeMeta 2 "reply" (Some 1%Z)) t1) in
  let t3 := snd (messages.CreateMessageText (messages.mkMessageText 2 "hi") t2) in
  messages.GetMessageById t2 2 = Err ErrNoRows /\
  messages.GetMessageById t3 2
  = Ok (messages.mkGetMessageByIdRow
          (messages.mkMessageMeta 2 2 1 "sent" 1005 1005) "reply" (Some 1%Z) "hi").
Proof.
  intros t arg t1 t2 t3.
  destruct (message_found_once_complete t 2 arg "reply" (Some 1%Z) "hi")
    as (_ & H2 & H3 & _).
  - repeat split; repeat constructor; cbn; lia.
  - split; [exact H2 | exact H3].
Defined.

Lemma GetMessageById_needs_all_three_rows_witness :
  let t := messages.mkTables
             [messages.mkMessageMeta 1 1 2 "sent" 1000 1000]
             [messages.mkMessageTypeMeta 1 "text" None]
             [] in
  messages.GetMessageById t 1 = Err ErrNoRows.
Proof.
  intros t.
  destruct (GetMessageById_needs_all_three_rows t 1) as [_ H].
  apply H. right. right. intros mt [].
Defined.

(** ** What a successful login proves *)

Lemma is_byte_shiftr (b : Z) : is_byte b <-> Z.shiftr b 8 = 0%Z.
Proof.
  unfold is_byte. rewrite Z.shiftr_div_pow2 by lia.
  change (2 ^ 8)%Z with 256%Z. split.
  - intros H. apply Z.div_small. exact H.
  - intros H. apply Z.div_small_iff in H; lia.
Qed.

Lemma is_byte_lxor (a b : Z) : is_byte a -> is_byte b -> is_byte (Z.lxor a b).
Proof.
  rewrite !is_byte_shiftr. intros Ha Hb. now rewrite Z.shiftr_lxor, Ha, Hb.
Qed.

Lemma is_byte_lor (a b : Z) : is_byte a -> is_byte b -> is_byte (Z.lor a b).
Proof.
  rewrite !is_byte_shiftr. intros Ha Hb. now rewrite Z.shiftr_lor, Ha, Hb.
Qed.

Lemma is_byte_land_FF (a : Z) : is_byte (Z.land a 0xFF).
Proof.
  rewrite is_byte_shiftr, Z.shiftr_land. change (Z.shiftr 0xFF 8) with 0%Z.
  apply Z.land_0_r.
Qed.

(** The loop ends on 0 only if it began on 0 and met equal bytes. *)
Lemma loop_zero (x y : bytes) (fuel i : nat) (v : Z) :
  subtle.loop x y fuel i v = Some 0%Z ->
  v = 0%Z /\
  forall j, (i <= j < i + fuel)%nat -> nth_error x j = nth_error y j.
Proof.
  revert i v. induction fuel as [|fuel IH]; intros i v H; simpl in H.
  - injection H as ->. split; [reflexivity|]. intros j Hj. lia.
  - destruct (nth_error x i) as [xi|] eqn:Ex; [|discriminate].
    destruct (nth_error y i) as [yi|] eqn:Ey; [|discriminate].
    apply IH in H. destruct H as [Hv Hrest].
    apply Z.lor_eq_0_iff in Hv. destruct Hv as [Hv Hxor].
    apply Z.lxor_eq in Hxor. subst yi.
    split; [exact Hv|]. intros j Hj.
    destruct (Nat.eq_dec j i) as [->|Hne]; [congruence|].
    apply Hrest. lia.
Qed.

Lemma loop_byte (x y : bytes) (fuel i : nat) (v v' : Z) :
  Forall is_byte x -> Forall is_byte y -> is_byte v ->
  subtle.loop x y fuel i v = Some v' -> is_byte v'.
Proof.
  intros Hx Hy. revert i v. induction fuel as [|fuel IH]; intros i v Hv H; simpl in H.
  - injection H as <-. exact Hv.
  - destruct (nth_error x i) as [xi|] eqn:Ex; [|discriminate].
    destruct (nth_error y i) as [yi|] eqn:Ey; [|discriminate].
    apply (IH (S i) (Z.lor v (Z.lxor xi yi))); [|exact H].
    apply is_byte_lor; [exact Hv|]. apply is_byte_lxor.
    + apply nth_error_In in Ex. rewrite Forall_forall in Hx. auto.
    + apply nth_error_In in Ey. rewrite Forall_forall in Hy. auto.
Qed.

Lemma ConstantTimeByteEq_one (v : Z) :
  is_byte v -> subtle.ConstantTimeByteEq v 0 = 1%Z -> v = 0%Z.
Proof.
  unfold is_byte, subtle.ConstantTimeByteEq. intros Hv H.
  rewrite Z.lxor_0_r in H.
  destruct (Z.eq_dec v 0) as [E|E]; [exact E|].
  rewrite Z.mod_small in H by lia.
  rewrite Z.shiftr_div_pow2 in H by lia.
  rewrite Z.div_small in H; [discriminate|]. lia.
Qed.

(** On byte sequences, the verifier says 1 only for equal sequences. *)
Lemma ConstantTimeCompare_one (x y : bytes) :
  Forall is_byte x -> Forall is_byte y ->
  subtle.ConstantTimeCompare x y = Some 1%Z -> x = y.
Proof.
  intros Hx Hy. unfold subtle.ConstantTimeCompare.
  destruct (length x =? length y)%nat eqn:E; cbn [negb]; [|discriminate].
  apply Nat.eqb_eq in E.
  destruct (subtle.loop x y (length x) 0 0) as [v|] eqn:Hl; [|discriminate].
  intros H. injection H as H.
  assert (Hv : is_byte v).
  { apply (loop_byte x y (length x) 0 0 v Hx Hy); [unfold is_byte; lia|exact Hl]. }
  apply ConstantTimeByteEq_one in H; [|exact Hv]. subst v.
  apply loop_zero in Hl. destruct Hl as [_ Hn].
  apply nth_error_ext. intros j.
  destruct (Nat.lt_ge_cases j (length x)) as [Hj|Hj].
  - apply Hn. lia.
  - rewrite (proj2 (nth_error_None x j)) by lia.
    rewrite (proj2 (nth_error_None y j)) by lia. reflexivity.
Qed.

Lemma xor_into_bytes (T U : bytes) :
  Forall is_byte T -> Forall is_byte U -> Forall is_byte (pbkdf2.xor_into T U).
Proof.
  intros HT. revert U. induction HT as [|t T Ht HT IH]; intros U HU; simpl.
  - constructor.
  - destruct U as [|u U]; [constructor; assumption|].
    inversion HU; subst. constructor; [now apply is_byte_lxor|]. now apply IH.
Qed.

Lemma be32_bytes (w : Z) : Forall is_byte (sha256.be32 w).
Proof.
  unfold sha256.be32. repeat (constructor; [apply is_byte_land_FF|]). constructor.
Qed.

Lemma Sum256_bytes (msg : bytes) : Forall is_byte (sha256.Sum256 msg).
Proof.
  unfold sha256.Sum256. cbv zeta.
  repeat (apply Forall_app; split); apply be32_bytes.
Qed.

Lemma firstn_bytes (n : nat) (l : bytes) :
  Forall is_byte l -> Forall is_byte (firstn n l).
Proof.
  intros H. revert n. induction H as [|x l Hx _ IH]; intros [|n]; simpl;
    constructor; auto.
Qed.

Lemma F_bytes (prf : bytes -> bytes) (salt : bytes) (iter : Z) (blk : nat) :
  (forall m, Forall is_byte (prf m)) -> Forall is_byte (pbkdf2.F prf salt iter blk).
Proof.
  intros Hprf. unfold pbkdf2.F. cbv zeta.
  generalize (Z.to_N (iter - 1)). intros n.
  apply (N.iter_invariant
           n _ _
           (fun TU : bytes * bytes => Forall is_byte (fst TU) /\ Forall is_byte (snd TU))).
  - intros [T U] [HT HU]. cbn [fst snd] in *. split.
    + apply xor_into_bytes; [exact HT|]. apply Hprf.
    + apply Hprf.
  - cbn [fst snd]. split; apply Hprf.
Qed.

Lemma Key_bytes (password salt : bytes) (iter : Z) (keyLen : nat) (h : Hash) :
  (forall m, Forall is_byte (hashSum h m)) ->
  Forall is_byte (pbkdf2.Key password salt iter keyLen h).
Proof.
  intros Hh. unfold pbkdf2.Key. cbv zeta. apply firstn_bytes.
  generalize (seq 1 ((keyLen + hashSize h - 1) / hashSize h)). intros blks.
  induction blks as [|blk blks IH]; simpl; [constructor|].
  apply Forall_app. split; [|exact IH].
  apply F_bytes. intros m. unfold hmac.Sum. cbv zeta. apply Hh.
Qed.

Local Transparent saltyPassword.

Lemma saltyPassword_bytes (password salt : bytes) :
  Forall is_byte (saltyPassword password salt).
Proof.
  unfold saltyPassword. cbv zeta. apply Key_bytes.
  intros m. change (hashSum sha256_New m) with (sha256.Sum256 m).
  apply Sum256_bytes.
Qed.

Global Opaque saltyPassword.

(** X20: the login handler sends a success only when the lookup found an
    account, the token issuer gave a token for it, and the verifier
    accepted the hash of the submitted password under the account's salt;
    the stored hash being a sequence of bytes, that hash is then equal to
    it byte for byte. *)
Theorem login_success_means_hash_match
        (DB : Type) (queries : Queries DB) (now : nat -> Time)
        (UserToToken : User -> result string) (TokenPrefix : string)
        (r : Request) (s : St DB) (out : list Rendered) (status : Z) (data : JSON) :
  let lu := loginUserData_of r in
  written (snd (handleLogin queries now UserToToken TokenPrefix r s))
  = (written s ++ out)%list ->
  In (Success status data) out ->
  exists (u : User) (d1 : DB) (token : string),
    validator.Struct (fields_loginUserData lu) = None /\
    qGetUserByName queries (lu_Username lu) (db s) = (Ok u, d1) /\
    UserToToken u = Ok token /\
    (Forall is_byte (Password u) ->
     saltyPassword (bytes_of_string (lu_Password lu)) (PasswordSalt u) = Password u).
Proof.
  intros lu Hw Hin. subst lu.
  destruct (validator.Struct (fields_loginUserData (loginUserData_of r)))
    as [err|] eqn:Hv.
  { exfalso. revert Hw. unfold handleLogin. cbv zeta.
    fold (loginUserData_of r). rewrite Hv.
    destruct err; monad_step; intros Hw; apply app_inv_head in Hw; subst out;
      destruct Hin as [H|[]]; discriminate. }
  destruct (qGetUserByName queries (lu_Username (loginUserData_of r)) (db s))
    as [[u|e0] d1] eqn:Hg.
  2:{ exfalso.
      rewrite (handleLogin_unknown_user DB queries now UserToToken TokenPrefix
                                        r s e0 d1 Hv Hg) in Hw.
      cbn [snd written] in Hw. apply app_inv_head in Hw. subst out.
      destruct Hin as [H|[]]; discriminate. }
  destruct (ConstantTimeCompare_total
              (saltyPassword (bytes_of_string (lu_Password (loginUserData_of r)))
                             (PasswordSalt u))
              (Password u)) as [same Hc].
  destruct (Z.eq_dec same 1) as [->|Hne].
  - destruct (qUpdateLoggedInTime queries
                (mkUpdateLoggedInTimeParams (mkTimestamp (now (ticks s)) true) (PvtID u))
                d1) as [err d2] eqn:Hu.
    rewrite (handleLogin_verified DB queries now UserToToken TokenPrefix
                                  r s u d1 d2 err Hv Hg Hc Hu) in Hw.
    cbn [snd written] in Hw. apply app_inv_head in Hw. subst out.
    apply in_app_or in Hin. destruct Hin as [Hin|Hin].
    { exfalso. destruct err; cbn [afterTimestamp In] in Hin;
        [destruct Hin as [H|[]]; discriminate H | destruct Hin]. }
    destruct Hin as [Hin|[]]. unfold afterToken in Hin.
    destruct (UserToToken u) as [token|e] eqn:Ht; [|discriminate Hin].
    exists u, d1, token.
    split; [reflexivity|]. split; [reflexivity|]. split; [exact Ht|].
    intros Hbytes. apply ConstantTimeCompare_one.
    + apply saltyPassword_bytes.
    + exact Hbytes.
    + exact Hc.
  - exfalso.
    rewrite (handleLogin_wrong_password DB queries now UserToToken TokenPrefix
                                        r s u d1 Hv Hg) in Hw.
    + cbn [snd written] in Hw. apply app_inv_head in Hw. subst out.
      destruct Hin as [H|[]]; discriminate H.
    + rewrite Hc. intros H. injection H as H. exact (Hne H).
Qed.

Lemma login_success_means_hash_match_witness :
  let r := scenario.login "alice12" "Secret123!" in
  exists (u : User) (d1 : memdb.DB) (token : string),
    validator.Struct (fields_loginUserData (loginUserData_of r)) = None /\
    qGetUserByName memdb.queries (lu_Username (loginUserData_of r))
                   (db (scenario.start scenario.quiet)) = (Ok u, d1) /\
    scenario.UserToToken u = Ok token /\
    (Forall is_byte (Password u) ->
     saltyPassword (bytes_of_string (lu_Password (loginUserData_of r)))
                   (PasswordSalt u) = Password u).
Proof.
  intros r.
  apply (login_success_means_hash_match
           memdb.DB memdb.queries scenario.now scenario.UserToToken
           scenario.TokenPrefix r (scenario.start scenario.quiet)
           [Success 200
              (marshal_loginResponse
                 (mkLoginResponse "token-of-alice" "Bearer" "alice12" "Alice A."
                                  Timestamp_zero))]
           200
           (marshal_loginResponse
              (mkLoginResponse "token-of-alice" "Bearer" "alice12" "Alice A."
                               Timestamp_zero))).
  - rewrite (handleLogin_verified
               memdb.DB memdb.queries scenario.now scenario.UserToToken
               scenario.TokenPrefix r (scenario.start scenario.quiet)
               scenario.alice scenario.quiet
               (memdb.mkDB
                  [memdb.set_LastLoggedIn (mkTimestamp 1000 true) scenario.alice] 2 [])
               None).
    + reflexivity.
    + reflexivity.
    + reflexivity.
    + exact (ConstantTimeCompare_same _).
    + reflexivity.
  - left. reflexivity.
Defined.

(** * The registration answers *)

(** C2, as the code has it: when a registration passes validation and the
    pre-check and the creation then fails, with a uniqueness conflict or
    with any other error, the caller gets the generic creation failure,
    and a conflict shows only in the log.  The username-taken answer
    (406) is among the answers of a registration exactly when the
    request passes validation and the pre-check lookup finds the
    username. *)
Theorem register_create_error_is_generic
        (DB : Type) (queries : Queries DB) (now : nat -> Time)
        (entropy : nat -> option (nat -> Z)) (r : Request) (s : St DB) :
  let ru := registerUserData_of r in
  let s' := snd (handleRegister queries now entropy r s) in
  (forall (e0 err : error) (d1 d2 : DB) (gen : nat -> Z),
      let arg := registerParams ru (fresh_salt gen) (now (ticks s))
                                (now (S (ticks s))) in
      validator.Struct (fields_registerUserData ru) = None ->
      qGetUserByName queries (ru_Username ru) (db s) = (Err e0, d1) ->
      entropy (reads s) = Some gen ->
      qCreateUser queries arg d1 = (Err err, d2) ->
      written s' = (written s ++ [creationFailed])%list /\
      logged s' = (logged s ++ createErrorLog err)%list) /\
  (forall out : list Rendered,
      written s' = (written s ++ out)%list ->
      (In usernameTaken out <->
       validator.Struct (fields_registerUserData ru) = None /\
       exists (u : User) (d1 : DB),
         qGetUserByName queries (ru_Username ru) (db s) = (Ok u, d1))).
Proof.
  intros ru s'. subst ru s'. split.
  - intros e0 err d1 d2 gen arg Hv Hg He Hc.
    rewrite (handleRegister_creates DB queries now entropy r s e0 d1 d2 gen (Err err)
                                    Hv Hg He Hc).
    split; reflexivity.
  - intros out Hw. split.
    + intros Hin.
      destruct (validator.Struct (fields_registerUserData (registerUserData_of r)))
        as [verr|] eqn:Hv.
      { exfalso. revert Hw. unfold handleRegister. cbv zeta.
        fold (registerUserData_of r). rewrite Hv.
        destruct verr; monad_step; intros Hw; apply app_inv_head in Hw; subst out;
          destruct Hin as [H|[]]; discriminate H. }
      split; [reflexivity|].
      destruct (qGetUserByName queries (ru_Username (registerUserData_of r)) (db s))
        as [[u|e0] d1] eqn:Hg.
      { exists u, d1. reflexivity. }
      exfalso.
      destruct (entropy (reads s)) as [gen|] eqn:He.
      * destruct (qCreateUser queries
                    (registerParams (registerUserData_of r) (fresh_salt gen)
                                    (now (ticks s)) (now (S (ticks s)))) d1)
          as [res d2] eqn:Hc.
        rewrite (handleRegister_creates DB queries now entropy r s e0 d1 d2 gen res
                                        Hv Hg He Hc) in Hw.
        cbn [snd written] in Hw. apply app_inv_head in Hw. subst out.
        destruct Hin as [H|[]]. destruct res; discriminate H.
      * rewrite (handleRegister_no_entropy DB queries now entropy r s e0 d1 Hv Hg He)
          in Hw.
        cbn [snd written] in Hw. apply app_inv_head in Hw. subst out.
        destruct Hin as [H|[]]. discriminate H.
    + intros (Hv & u & d1 & Hg).
      rewrite (handleRegister_taken DB queries now entropy r s u d1 Hv Hg) in Hw.
      cbn [snd written] in Hw. apply app_inv_head in Hw. subst out.
      left. reflexivity.
Qed.

Lemma register_create_error_is_generic_witness :
  let s' := snd (handleRegister memdb.queries scenario.now scenario.entropy
                   (scenario.register "alice12" "Alice A." "Secret123!" "Secret123!")
                   (scenario.start scenario.racy)) in
  written s' = [creationFailed] /\
  logged s' = createErrorLog memdb.unique_violation.
Proof.
  eapply (proj1 (register_create_error_is_generic
                   memdb.DB memdb.queries scenario.now scenario.entropy
                   (scenario.register "alice12" "Alice A." "Secret123!" "Secret123!")
                   (scenario.start scenario.racy))
                ErrNoRows memdb.unique_violation).
  - vm_compute. reflexivity.
  - reflexivity.
  - reflexivity.
  - reflexivity.
Defined.

(** C2, as stated, fails: the registration of alice12 passes validation
    and the pre-check, a concurrent registration of the same name commits,
    the creation fails on the unique constraint (the log shows code
    23505), and the caller is told of a storage failure, not that the
    username is taken. *)
Lemma register_conflict_is_not_username_taken :
  let r := scenario.register "alice12" "Alice A." "Secret123!" "Secret123!" in
  let s' := snd (handleRegister memdb.queries scenario.now scenario.entropy r
                                (scenario.start scenario.racy)) in
  validator.Struct (fields_registerUserData (registerUserData_of r)) = None /\
  fst (memdb.GetUserByName "alice12" scenario.racy) = Err ErrNoRows /\
  logged s'
  = [ mkLogEntry "ERROR" "could not create user"
                 [ ("error", LString "duplicate key value violates unique constraint");
                   ("code", LString "23505");
                   ("constraint", LString "users_username_key") ] ] /\
  written s'
  = [ Failure 507 (JString "could not create user at this moment") ] /\
  written s' <> [usernameTaken].
Proof.
  intros r s'. subst s'.
  erewrite (handleRegister_creates
              memdb.DB memdb.queries scenario.now scenario.entropy r
              (scenario.start scenario.racy) ErrNoRows _ _ _ (Err memdb.unique_violation));
    [ | vm_compute; reflexivity | reflexivity | reflexivity | reflexivity ].
  fields_step.
  split; [vm_compute; reflexivity|].
  split; [reflexivity|].
  split; [reflexivity|].
  split; [reflexivity|discriminate].
Qed.

(** * Member names under folding *)

(** A key selects a field whatever the case of its letters, and also
    when a long s stands for an s; a key with another spelling selects
    none.  A Kelvin sign stands for a k. *)
Lemma key_is_folds :
  json.key_is "USERNAME" "username" = true /\
  json.key_is ("u" ++ json.long_s ++ "ername") "username" = true /\
  json.key_is ("Pa" ++ json.long_s ++ json.long_s ++ "word") "password" = true /\
  json.key_is "user_name" "username" = false /\
  json.key_is ("to" ++ json.kelvin_sign ++ "en") "token" = true.
Proof. repeat split; reflexivity. Qed.

(** The decoder stores the member under such a key. *)
Lemma decode_long_s_username :
  let r := mkRequest (scenario.body
                        [ ("u" ++ json.long_s ++ "ername", JString "alice12");
                          ("password", JString "Secret123!") ]) scenario.nobody in
  loginUserData_of r = mkLoginUserData "alice12" "Secret123!".
Proof. reflexivity. Qed.
